(** * search-agent-tool: date resolution and filter construction

    A shallow embedding of the two HTTP handlers of the repository,
    [seacrh_by_date/__init__.py] (search-index variant) and
    [search_by_date/__init__.py] (RAG variant), and the properties of
    their date resolver and filter builder.

    Python strings are sequences of Unicode code points ([pystr]); Python
    dicts are finite maps ([gmap pystr json]); exceptions are values of an
    error type and fallible code returns [result].  The services the code
    talks to (agent, search index, completion endpoint), the wall clock and
    the library routines it calls ([json.loads], [dateutil.parser.parse],
    [html.unescape], the Unicode tables behind [str.lower], [str.strip] and
    the [re] classes) are inputs of the model. *)

From Stdlib Require Import ZArith List Lia Bool String Ascii.
From stdpp Require Import base option list gmap.

Open Scope Z_scope.

(** ** Python strings *)

Abbreviation pystr := (list Z).

Definition str (s : string) : pystr :=
  map (fun a => Z.of_N (N_of_ascii a)) (list_ascii_of_string s).

(** ** Exceptions and fallible results *)

(** The [raise ValueError(...)] sites of the two handlers. *)
Inductive value_error :=
| ClientUnavailable
| AgentRunFailed
| NoAgentResponse
| NoJsonFound (text : pystr)
| InvalidJson (text : pystr)
| NoValidJsonOutput.

(** Every constructor is a subclass of Python's [Exception]. *)
Inductive exn :=
| ValueError (why : value_error)
| JSONDecodeError (text : pystr)
| TypeError
| OverflowError
| ParserError (text : pystr)
| HTTPError (status : Z)
| AttributeError
| KeyError
| IndexError
| RemoteError (msg : pystr).

Inductive result (A : Type) :=
| Ok (a : A)
| Raise (e : exn).
Arguments Ok {A} a.
Arguments Raise {A} e.

Definition bind {A B} (r : result A) (k : A -> result B) : result B :=
  match r with
  | Ok a => k a
  | Raise e => Raise e
  end.

Notation "'let*' x ':=' r 'in' k" := (bind r (fun x => k))
  (at level 10, x name, r at level 100, k at level 200).

(** ** The [datetime.date] type *)

Module PyDate.

Record date := mkdate { year : Z; month : Z; day : Z }.

Definition MAXORDINAL : Z := 3652059.

Definition DAYS_IN_MONTH : list Z :=
  [-1; 31; 28; 31; 30; 31; 30; 31; 31; 30; 31; 30; 31].

Definition DAYS_BEFORE_MONTH : list Z :=
  [-1; 0; 31; 59; 90; 120; 151; 181; 212; 243; 273; 304; 334].

Definition table (t : list Z) (i : Z) : Z := nth (Z.to_nat i) t (-1).

Definition is_leap (y : Z) : bool :=
  (y mod 4 =? 0) && (negb (y mod 100 =? 0) || (y mod 400 =? 0)).

Definition days_before_year (y : Z) : Z :=
  let p := y - 1 in p * 365 + p / 4 - p / 100 + p / 400.

Definition days_in_month (y m : Z) : Z :=
  if (m =? 2) && is_leap y then 29 else table DAYS_IN_MONTH m.

Definition days_before_month (y m : Z) : Z :=
  table DAYS_BEFORE_MONTH m + (if (2 <? m) && is_leap y then 1 else 0).

Definition ymd2ord (y m d : Z) : Z :=
  days_before_year y + days_before_month y m + d.

Definition DI400Y : Z := 146097.
Definition DI100Y : Z := 36524.
Definition DI4Y : Z := 1461.

(** [_ord2ymd(n)]: ordinal to (year, month, day), 1 Jan of year 1 being
    day 1. *)
Definition ord2ymd (n : Z) : Z * Z * Z :=
  let n := n - 1 in
  let n400 := n / DI400Y in
  let n := n mod DI400Y in
  let year := n400 * 400 + 1 in
  let n100 := n / DI100Y in
  let n := n mod DI100Y in
  let n4 := n / DI4Y in
  let n := n mod DI4Y in
  let n1 := n / 365 in
  let n := n mod 365 in
  let year := year + (n100 * 100 + n4 * 4 + n1) in
  if (n1 =? 4) || (n100 =? 4) then (year - 1, 12, 31)
  else
    let leapyear := (n1 =? 3) && (negb (n4 =? 24) || (n100 =? 3)) in
    let month := Z.shiftr (n + 50) 5 in
    let preceding :=
      table DAYS_BEFORE_MONTH month
      + (if (2 <? month) && leapyear then 1 else 0) in
    if n <? preceding then
      let month := month - 1 in
      let preceding :=
        preceding - (table DAYS_IN_MONTH month
                     + (if (month =? 2) && leapyear then 1 else 0)) in
      (year, month, n - preceding + 1)
    else (year, month, n - preceding + 1).

Definition toordinal (d : date) : Z := ymd2ord (year d) (month d) (day d).

Definition fromordinal (n : Z) : date :=
  let '(y, m, d) := ord2ymd n in mkdate y m d.

(** [date.weekday()]: Monday is 0 and Sunday is 6. *)
Definition weekday (d : date) : Z := (toordinal d + 6) mod 7.

Definition MONDAY : Z := 0.
Definition SATURDAY : Z := 5.
Definition SUNDAY : Z := 6.

(** [d + timedelta(days=k)]; [d - timedelta(days=k)] is [add_days d (- k)]. *)
Definition add_days (d : date) (k : Z) : result date :=
  let o := toordinal d + k in
  if (0 <? o) && (o <=? MAXORDINAL) then Ok (fromordinal o)
  else Raise OverflowError.

Definition sub_days (d : date) (k : Z) : result date := add_days d (- k).

(** [d.replace(day=1)] *)
Definition replace_day1 (d : date) : date := mkdate (year d) (month d) 1.

(** The dates a [date] object can hold. *)
Definition is_date (d : date) : bool :=
  (1 <=? year d) && (year d <=? 9999)
  && (1 <=? month d) && (month d <=? 12)
  && (1 <=? day d) && (day d <=? days_in_month (year d) (month d)).

(** Decimal digits of a non-negative integer, most significant first. *)
Fixpoint dec_digits (fuel : nat) (n : Z) (acc : pystr) : pystr :=
  match fuel with
  | O => acc
  | S fuel' =>
      let acc' := (48 + n mod 10) :: acc in
      if n <? 10 then acc' else dec_digits fuel' (n / 10) acc'
  end.

(** [str(n)] for an [int] *)
Definition str_of_int (n : Z) : pystr :=
  if n <? 0 then 45 :: dec_digits (S (Z.to_nat (Z.log2 (- n)))) (- n) []
  else dec_digits (S (Z.to_nat (Z.log2 n))) n [].

(** ["%0<w>d" % n] for a non-negative [n] *)
Definition zero_padded (w : nat) (n : Z) : pystr :=
  let s := str_of_int n in
  repeat 48 (w - length s)%nat ++ s.

(** [d.isoformat()]: ["%04d-%02d-%02d"] *)
Definition isoformat (d : date) : pystr :=
  zero_padded 4 (year d) ++ 45 :: zero_padded 2 (month d)
  ++ 45 :: zero_padded 2 (day d).

End PyDate.

Import PyDate.


(** ** JSON values; a Python [dict] with string keys is a finite map *)

#[local] Unset Elimination Schemes.
Inductive json :=
| JNull
| JBool (b : bool)
| JInt (n : Z)
| JFloat (literal : pystr)
| JString (s : pystr)
| JArray (items : list json)
| JObject (members : gmap pystr json).
#[local] Set Elimination Schemes.

Abbreviation dict := (gmap pystr json).

(** [datetime.datetime], as far as the handlers look at it. *)
Record datetime := mkdatetime {
  dt_date : date;
  dt_hour : Z;
  dt_minute : Z;
  dt_second : Z;
  dt_microsecond : Z
}.

Definition midnight (d : date) : datetime := mkdatetime d 0 0 0 0.

(** ** What the handlers take from the Python runtime and its libraries

    - [uni_lower_at before c after]: the lower-case mapping of code point
      [c] standing between [before] and [after] ([str.lower] maps a string
      code point by code point; the context only matters for a capital
      sigma);
    - [uni_isspace], [uni_isword], [uni_isdecimal]: the classes behind
      [str.strip], [\w]/[\b] and [\d];
    - [uni_decimal_value]: the digit value [int] gives a decimal digit;
    - [json_loads text]: [json.loads] on a text that starts with an opening
      brace: the object, or [None] for [JSONDecodeError];
    - [parse_date]: [dateutil.parser.parse];
    - [html_unescape]: [html.unescape]. *)
Class PyRuntime := {
  uni_lower_at : pystr -> Z -> pystr -> pystr;
  uni_isspace : Z -> bool;
  uni_isword : Z -> bool;
  uni_isdecimal : Z -> bool;
  uni_decimal_value : Z -> Z;
  json_loads : pystr -> option dict;
  parse_date : pystr -> result datetime;
  html_unescape : pystr -> pystr
}.

Section Strings.
Context {R : PyRuntime}.

(** [s.lower()] *)
Fixpoint lower_from (before s : pystr) : pystr :=
  match s with
  | [] => []
  | c :: after => uni_lower_at before c after ++ lower_from (before ++ [c]) after
  end.

Definition py_lower (s : pystr) : pystr := lower_from [] s.

(** [s.lstrip()], [s.rstrip()], [s.strip()] *)
Fixpoint py_lstrip (s : pystr) : pystr :=
  match s with
  | c :: rest => if uni_isspace c then py_lstrip rest else s
  | [] => []
  end.

Definition py_rstrip (s : pystr) : pystr := rev (py_lstrip (rev s)).

Definition py_strip (s : pystr) : pystr := py_rstrip (py_lstrip s).

(** [s.startswith(p)], [s.endswith(p)] *)
Fixpoint startswith (s p : pystr) {struct p} : bool :=
  match p, s with
  | [], _ => true
  | a :: p', b :: s' => (a =? b) && startswith s' p'
  | _ :: _, [] => false
  end.

Definition endswith (s p : pystr) : bool := startswith (rev s) (rev p).

(** [needle in hay] *)
Fixpoint str_in (needle hay : pystr) : bool :=
  startswith hay needle
  || match hay with
     | [] => false
     | _ :: rest => str_in needle rest
     end.

(** [int(s)] on a run of decimal digits *)
Definition py_int (s : pystr) : Z :=
  fold_left (fun acc c => 10 * acc + uni_decimal_value c) s 0.

(** *** The three regular expressions *)

Definition word_before (prev : option Z) : bool :=
  match prev with
  | Some c => uni_isword c
  | None => false
  end.

Definition word_at (s : pystr) : bool :=
  match s with
  | c :: _ => uni_isword c
  | [] => false
  end.

(** [\b] between the character [prev] and the text [s] *)
Definition word_boundary (prev : option Z) (s : pystr) : bool :=
  xorb (word_before prev) (word_at s).

(** [\b(20\d{2})\b] anchored here; the result is group 1. *)
Definition match_year_here (prev : option Z) (s : pystr) : option pystr :=
  match s with
  | c1 :: c2 :: c3 :: c4 :: rest =>
      if word_boundary prev s && (c1 =? 50) && (c2 =? 48)
         && uni_isdecimal c3 && uni_isdecimal c4
         && word_boundary (Some c4) rest
      then Some [c1; c2; c3; c4]
      else None
  | _ => None
  end.

Fixpoint search_year_from (prev : option Z) (s : pystr) : option pystr :=
  match match_year_here prev s with
  | Some g => Some g
  | None =>
      match s with
      | c :: rest => search_year_from (Some c) rest
      | [] => None
      end
  end.

(** [re.search(r'\b(20\d{2})\b', s)], group 1 of the leftmost match *)
Definition search_year (s : pystr) : option pystr := search_year_from None s.

Definition LBRACE : Z := 123.
Definition RBRACE : Z := 125.
Definition NEWLINE : Z := 10.
Definition QUOTE : Z := 34.

(** [[^{}]*\}] anchored here *)
Fixpoint flat_body (s : pystr) : option pystr :=
  match s with
  | [] => None
  | c :: rest =>
      if c =? RBRACE then Some [c]
      else if c =? LBRACE then None
      else option_map (cons c) (flat_body rest)
  end.

(** [re.search(r'\{[^{}]*\}', s)], the leftmost match *)
Fixpoint search_flat_braces (s : pystr) : option pystr :=
  match s with
  | [] => None
  | c :: rest =>
      if c =? LBRACE then
        match flat_body rest with
        | Some b => Some (c :: b)
        | None => search_flat_braces rest
        end
      else search_flat_braces rest
  end.

(** [.*?\}] anchored here; the dot does not match a newline *)
Fixpoint lazy_body (s : pystr) : option pystr :=
  match s with
  | [] => None
  | c :: rest =>
      if c =? RBRACE then Some [c]
      else if c =? NEWLINE then None
      else option_map (cons c) (lazy_body rest)
  end.

(** [re.search(r'\{.*?\}', s)], the leftmost match *)
Fixpoint search_lazy_braces (s : pystr) : option pystr :=
  match s with
  | [] => None
  | c :: rest =>
      if c =? LBRACE then
        match lazy_body rest with
        | Some b => Some (c :: b)
        | None => search_lazy_braces rest
        end
      else search_lazy_braces rest
  end.

End Strings.

(** ** The services behind the handlers, and the handlers' outbound calls *)

(** A message of the agent thread: [message.role] and the [text.value] of
    each entry of [message.text_messages]. *)
Record message := mkmessage {
  role : pystr;
  text_messages : list pystr
}.

(** [message.role == "assistant" and message.text_messages] *)
Definition has_text (m : message) : bool :=
  bool_decide (role m = str "assistant")
  && negb (bool_decide (text_messages m = [])).

(** [message.text_messages[-1].text.value] *)
Definition last_text (m : message) : pystr := List.last (text_messages m) [].

(** What the agent service does with one query: one of the SDK calls
    raises and [e] is the exception that leaves [call_date_parser_agent];
    the run ends with status ["failed"]; or the run ends otherwise and the
    thread's messages are listed in ascending order. *)
Inductive agent_outcome :=
| RemoteRaises (e : exn)
| RunFailed
| RunCompleted (history : list message).

(** An HTTP reply as the handlers read it: [response.status_code] and
    [response.json()] ([None] when the body is not JSON). *)
Record http_reply := mkreply {
  reply_status : Z;
  reply_json : option json
}.

(** The world of one request.  [project] is [false] when the module-level
    client failed to initialise ([project = None]); [now_local] and
    [now_utc] are [datetime.now().date()] and [datetime.utcnow().date()];
    the two services answer [requests.post], or raise. *)
Class World := {
  project : bool;
  agent_service : pystr -> agent_outcome;
  now_local : date;
  now_utc : date;
  search_service : pystr -> result http_reply;
  completion_service : pystr -> pystr -> result http_reply
}.

Inductive call :=
| AgentCall (user_query : pystr)
| SearchCall (filter_string : pystr)
| CompletionCall (user_query filter_expression : pystr).

(** Computations that may raise and that record their outbound calls. *)
Definition io (A : Type) : Type := result A * list call.

Definition ret {A} (a : A) : io A := (Ok a, []).

Definition lift {A} (r : result A) : io A := (r, []).

Definition emit (c : call) : io unit := (Ok tt, [c]).

Definition io_bind {A B} (m : io A) (k : A -> io B) : io B :=
  match m with
  | (Ok a, log) => let '(r, log') := k a in (r, log ++ log')
  | (Raise e, log) => (Raise e, log)
  end.

(** [try: m except Exception as e: handler e] *)
Definition try_except {A} (m : io A) (handler : exn -> io A) : io A :=
  match m with
  | (Ok a, log) => (Ok a, log)
  | (Raise e, log) => let '(r, log') := handler e in (r, log ++ log')
  end.

Notation "'do' x '<-' m ';' k" := (io_bind m (fun x => k))
  (at level 10, x name, m at level 100, k at level 200).

Inductive body :=
| PlainText (text : pystr)
| JsonBody (j : json)
| ErrorBody (e : exn).

Record HttpResponse := mkresponse {
  resp_body : body;
  status_code : Z
}.

Definition FIELD : pystr := str "metadata_spo_item_release_date".

Definition U_ACUTE : Z := 250.

Definition MES_PASADO : pystr := str "mes pasado".
Definition ULTIMO_MES : pystr := U_ACUTE :: str "ltimo mes".
Definition SEMANA_PASADA : pystr := str "semana pasada".
Definition ULTIMA_SEMANA : pystr := U_ACUTE :: str "ltima semana".
Definition AYER : pystr := str "ayer".
Definition HOY : pystr := str "hoy".

Definition single (d : pystr) : dict := {[ str "date" := JString d ]}.

Definition range (s e : pystr) : dict :=
  {[ str "start" := JString s; str "end" := JString e ]}.

Section Handlers.
Context {R : PyRuntime}.

(** [parse_date(v).date().isoformat()] for a value taken from the dict;
    [dateutil] raises [TypeError] on anything but a string. *)
Definition normalize_date (v : json) : result pystr :=
  match v with
  | JString s => let* dt := parse_date s in Ok (isoformat (dt_date dt))
  | _ => Raise TypeError
  end.

(** [build_filter_expression]; the two packages define the same function
    (one of them also logs the result). *)
Definition build_filter_expression (date_data : dict) : result pystr :=
  match date_data !! str "date" with
  | Some v =>
      let* d := normalize_date v in
      Ok (FIELD ++ str " eq " ++ d ++ str "T00:00:00Z")
  | None =>
      match date_data !! str "start", date_data !! str "end" with
      | Some vs, Some ve =>
          let* start := normalize_date vs in
          let* end_ := normalize_date ve in
          Ok (str "(" ++ FIELD ++ str " ge " ++ start ++ str "T00:00:00Z and "
              ++ FIELD ++ str " le " ++ end_ ++ str "T23:59:59Z)")
      | _, _ => Ok []
      end
  end.

(** [raise_for_status()] *)
Definition raise_for_status (reply : http_reply) : result unit :=
  if (400 <=? reply_status reply) && (reply_status reply <? 600)
  then Raise (HTTPError (reply_status reply))
  else Ok tt.

(** The range both packages return for last month. *)
Definition last_month_range (today : date) : result dict :=
  let* last_month := sub_days (replace_day1 today) 1 in
  let start_of_last_month := replace_day1 last_month in
  Ok (range (isoformat start_of_last_month) (isoformat last_month)).

End Handlers.

(** ** [seacrh_by_date/__init__.py]: the search-index handler *)

Module SeacrhByDate.
Section Package.
Context {R : PyRuntime} {W : World}.

(** The loop over [messages], which keeps the text of the last assistant
    message that has text entries. *)
Definition agent_response_of (messages : list message) : option pystr :=
  fold_left
    (fun agent_response m =>
       if has_text m then Some (last_text m) else agent_response)
    messages None.

(** From [agent_response.strip()] to the parsed object, with the
    [JSONDecodeError] handler. *)
Definition extract_json (agent_response : pystr) : result dict :=
  let agent_response := py_strip agent_response in
  if startswith agent_response [LBRACE] && endswith agent_response [RBRACE]
  then
    match json_loads agent_response with
    | Some d => Ok d
    | None => Raise (ValueError (InvalidJson agent_response))
    end
  else
    match search_flat_braces agent_response with
    | Some json_str =>
        match json_loads json_str with
        | Some d => Ok d
        | None => Raise (ValueError (InvalidJson agent_response))
        end
    | None => Raise (ValueError (NoJsonFound agent_response))
    end.

(** What the function does with the listed messages. *)
Definition response_to_dict (messages : list message) : result dict :=
  match agent_response_of messages with
  | None | Some [] => Raise (ValueError NoAgentResponse)
  | Some agent_response => extract_json agent_response
  end.

Definition call_date_parser_agent (user_query : pystr) : io dict :=
  if negb project then lift (Raise (ValueError ClientUnavailable))
  else
    do _ <- emit (AgentCall user_query);
    lift match agent_service user_query with
         | RemoteRaises e => Raise e
         | RunFailed => Raise (ValueError AgentRunFailed)
         | RunCompleted messages => response_to_dict messages
         end.

Definition fallback_date_parser (today : date) (user_query : pystr)
  : result dict :=
  let query_lower := py_strip (py_lower user_query) in
  if str_in MES_PASADO query_lower || str_in ULTIMO_MES query_lower then
    last_month_range today
  else if str_in SEMANA_PASADA query_lower
          || str_in ULTIMA_SEMANA query_lower then
    let days_back := (weekday today + 1) mod 7 + 6 in
    let* start_of_last_week := sub_days today days_back in
    let* end_of_last_week := add_days start_of_last_week 6 in
    Ok (range (isoformat start_of_last_week) (isoformat end_of_last_week))
  else if str_in AYER query_lower then
    let* yesterday := sub_days today 1 in
    Ok (single (isoformat yesterday))
  else if str_in HOY query_lower then
    Ok (single (isoformat today))
  else
    match search_year query_lower with
    | Some group1 =>
        let year := py_int group1 in
        Ok (range (str_of_int year ++ str "-01-01")
                  (str_of_int year ++ str "-12-31"))
    | None => last_month_range today
    end.

Definition search_filtered_items (filter_string : pystr) : io json :=
  do _ <- emit (SearchCall filter_string);
  lift (let* response := search_service filter_string in
        let* _ :=
          if reply_status response =? 200 then Ok tt
          else raise_for_status response in
        match reply_json response with
        | None => Raise (JSONDecodeError [])
        | Some (JObject members) =>
            Ok (default (JArray []) (members !! str "value"))
        | Some _ => Raise AttributeError
        end).

(** Step 1 of [main]: the agent, and on any exception the fallback. *)
Definition parse_dates (user_query : pystr) : io dict :=
  try_except (call_date_parser_agent user_query)
    (fun _ => lift (fallback_date_parser now_local user_query)).

Definition no_date_response : HttpResponse :=
  mkresponse
    (JsonBody (JObject {[ str "error" :=
                            JString (str "No valid date or range detected.") ]}))
    400.

Definition main_steps (q : option pystr) : io HttpResponse :=
  match q with
  | None | Some [] => ret (mkresponse (PlainText (str "Missing 'q' parameter")) 400)
  | Some user_query =>
      do parsed_date_info <- parse_dates user_query;
      do filter_string <- lift (build_filter_expression parsed_date_info);
      match filter_string with
      | [] => ret no_date_response
      | _ =>
          do results <- search_filtered_items filter_string;
          ret (mkresponse
                 (JsonBody (JObject {[ str "parsed_dates" := JObject parsed_date_info;
                                       str "filtered_items" := results ]}))
                 200)
      end
  end.

(** [main]: the response, and the outbound calls made on the way. *)
Definition main (q : option pystr) : HttpResponse * list call :=
  match main_steps q with
  | (Ok response, calls) => (response, calls)
  | (Raise e, calls) => (mkresponse (ErrorBody e) 500, calls)
  end.

End Package.
End SeacrhByDate.

(** ** [search_by_date/__init__.py]: the RAG handler *)

Module SearchByDate.
Section Package.
Context {R : PyRuntime} {W : World}.

(** The loop over [messages], which returns from inside. *)
Fixpoint response_to_dict (messages : list message) : result dict :=
  match messages with
  | [] => Raise (ValueError NoValidJsonOutput)
  | msg :: later =>
      if has_text msg then
        let response_text := py_strip (last_text msg) in
        if startswith response_text [LBRACE] && endswith response_text [RBRACE]
        then
          match json_loads response_text with
          | Some d => Ok d
          | None => Raise (JSONDecodeError response_text)
          end
        else
          match search_lazy_braces response_text with
          | Some m =>
              match json_loads m with
              | Some d => Ok d
              | None => Raise (JSONDecodeError m)
              end
          | None => response_to_dict later
          end
      else response_to_dict later
  end.

Definition call_date_parser_agent (user_query : pystr) : io dict :=
  if negb project then lift (Raise (ValueError ClientUnavailable))
  else
    do _ <- emit (AgentCall user_query);
    lift match agent_service user_query with
         | RemoteRaises e => Raise e
         | RunFailed => Raise (ValueError AgentRunFailed)
         | RunCompleted messages => response_to_dict messages
         end.

Definition fallback_date_parser (today : date) (user_query : pystr)
  : result dict :=
  let q := py_lower user_query in
  if str_in ULTIMA_SEMANA q || str_in SEMANA_PASADA q then
    let* start := sub_days today (weekday today + 7) in
    let* end_ := add_days start 6 in
    Ok (range (isoformat start) (isoformat end_))
  else if str_in AYER q then
    let* yesterday := sub_days today 1 in
    Ok (single (isoformat yesterday))
  else if str_in HOY q then
    Ok (single (isoformat today))
  else last_month_range today.

Definition call_rag_agent_with_filter (user_query filter_expression : pystr)
  : io json :=
  do _ <- emit (CompletionCall user_query filter_expression);
  lift (let* response := completion_service user_query filter_expression in
        let* _ := raise_for_status response in
        match reply_json response with
        | None => Raise (JSONDecodeError [])
        | Some j => Ok j
        end).

(** [j[key]] and [j[0]] on a decoded JSON value *)
Definition getitem (j : json) (key : pystr) : result json :=
  match j with
  | JObject members =>
      match members !! key with
      | Some v => Ok v
      | None => Raise KeyError
      end
  | _ => Raise TypeError
  end.

Definition first_item (j : json) : result json :=
  match j with
  | JArray (v :: _) => Ok v
  | JArray [] => Raise IndexError
  | JString (c :: _) => Ok (JString [c])
  | JString [] => Raise IndexError
  | JObject _ => Raise KeyError
  | _ => Raise TypeError
  end.

Definition gpt_answer (gpt_response : json) : result json :=
  let* choices := getitem gpt_response (str "choices") in
  let* choice := first_item choices in
  let* msg := getitem choice (str "message") in
  getitem msg (str "content").

(** Step 1 of [main]. *)
Definition parse_dates (user_query : pystr) : io dict :=
  try_except (call_date_parser_agent user_query)
    (fun _ => lift (fallback_date_parser now_utc user_query)).

Definition main_steps (q : option pystr) : io HttpResponse :=
  match q with
  | None | Some [] => ret (mkresponse (PlainText (str "Missing 'q' parameter")) 400)
  | Some raw_query =>
      let user_query := html_unescape raw_query in
      do parsed_date_info <- parse_dates user_query;
      do filter_expression <- lift (build_filter_expression parsed_date_info);
      match filter_expression with
      | [] => ret (mkresponse (PlainText (str "No valid date found in query.")) 400)
      | _ =>
          do gpt_response <- call_rag_agent_with_filter user_query filter_expression;
          do answer <- lift (gpt_answer gpt_response);
          ret (mkresponse
                 (JsonBody (JObject {[ str "parsed_dates" := JObject parsed_date_info;
                                       str "filter" := JString filter_expression;
                                       str "gpt_answer" := answer ]}))
                 200)
      end
  end.

Definition main (q : option pystr) : HttpResponse * list call :=
  match main_steps q with
  | (Ok response, calls) => (response, calls)
  | (Raise e, calls) => (mkresponse (ErrorBody e) 500, calls)
  end.

End Package.
End SearchByDate.

(** ** A concrete runtime, for evaluating the handlers on examples

    The tables below are CPython's on ASCII and Latin-1 text; the JSON
    reader covers flat objects whose members are unescaped strings (the
    shape of a DateQuery) and the date reader covers [YYYY-MM-DD].  On the
    texts of the examples they return what [json.loads] and
    [dateutil.parser.parse] return. *)

Module Concrete.

Definition lower_at (before : pystr) (c : Z) (after : pystr) : pystr :=
  if (65 <=? c) && (c <=? 90) then [c + 32]
  else if (192 <=? c) && (c <=? 222) && negb (c =? 215) then [c + 32]
  else if c =? 304 then [105; 775]
  else [c].

Definition isspace (c : Z) : bool :=
  ((9 <=? c) && (c <=? 13)) || ((28 <=? c) && (c <=? 32))
  || (c =? 133) || (c =? 160).

Definition isdecimal (c : Z) : bool := (48 <=? c) && (c <=? 57).

Definition isword (c : Z) : bool :=
  isdecimal c || ((65 <=? c) && (c <=? 90)) || ((97 <=? c) && (c <=? 122))
  || (c =? 95) || (c =? 170) || (c =? 178) || (c =? 179) || (c =? 181)
  || (c =? 185) || (c =? 186) || ((188 <=? c) && (c <=? 190))
  || ((192 <=? c) && (c <=? 255) && negb (c =? 215) && negb (c =? 247)).

Definition decimal_value (c : Z) : Z := c - 48.

Definition BACKSLASH : Z := 92.
Definition COLON : Z := 58.
Definition COMMA : Z := 44.

Definition json_ws (c : Z) : bool :=
  (c =? 32) || (c =? 9) || (c =? 10) || (c =? 13).

Fixpoint skip_ws (s : pystr) : pystr :=
  match s with
  | c :: rest => if json_ws c then skip_ws rest else s
  | [] => []
  end.

(** After an opening quote: the string and what follows its closing quote. *)
Fixpoint read_string (s : pystr) : option (pystr * pystr) :=
  match s with
  | [] => None
  | c :: rest =>
      if c =? QUOTE then Some ([], rest)
      else if (c =? BACKSLASH) || (c <? 32) then None
      else
        match read_string rest with
        | Some (v, rest') => Some (c :: v, rest')
        | None => None
        end
  end.

Definition read_quoted (s : pystr) : option (pystr * pystr) :=
  match s with
  | c :: rest => if c =? QUOTE then read_string rest else None
  | [] => None
  end.

Fixpoint read_members (fuel : nat) (s : pystr) (acc : dict) : option dict :=
  match fuel with
  | O => None
  | S fuel' =>
      match read_quoted s with
      | Some (k, s1) =>
          match skip_ws s1 with
          | c1 :: s2 =>
              if c1 =? COLON then
                match read_quoted (skip_ws s2) with
                | Some (v, s3) =>
                    let acc' := <[ k := JString v ]> acc in
                    match skip_ws s3 with
                    | c2 :: s4 =>
                        if c2 =? RBRACE then
                          match skip_ws s4 with
                          | [] => Some acc'
                          | _ :: _ => None
                          end
                        else if c2 =? COMMA then
                          read_members fuel' (skip_ws s4) acc'
                        else None
                    | [] => None
                    end
                | None => None
                end
              else None
          | [] => None
          end
      | None => None
      end
  end.

Definition flat_json_loads (s : pystr) : option dict :=
  match skip_ws s with
  | c :: s1 =>
      if c =? LBRACE then
        match skip_ws s1 with
        | c' :: s2 =>
            if c' =? RBRACE then
              match skip_ws s2 with
              | [] => Some ∅
              | _ :: _ => None
              end
            else read_members (length s) (c' :: s2) ∅
        | [] => None
        end
      else None
  | [] => None
  end.

Definition digit_of (c : Z) : option Z :=
  if (48 <=? c) && (c <=? 57) then Some (c - 48) else None.

Fixpoint digits_value (acc : Z) (s : pystr) : option Z :=
  match s with
  | [] => Some acc
  | c :: rest =>
      match digit_of c with
      | Some v => digits_value (10 * acc + v) rest
      | None => None
      end
  end.

Definition iso_parse_date (s : pystr) : result datetime :=
  match s with
  | [y1; y2; y3; y4; h1; m1; m2; h2; d1; d2] =>
      match digits_value 0 [y1; y2; y3; y4], digits_value 0 [m1; m2],
            digits_value 0 [d1; d2] with
      | Some y, Some m, Some d =>
          if (h1 =? 45) && (h2 =? 45) && is_date (mkdate y m d)
          then Ok (midnight (mkdate y m d))
          else Raise (ParserError s)
      | _, _, _ => Raise (ParserError s)
      end
  | _ => Raise (ParserError s)
  end.

#[export] Instance runtime : PyRuntime := {|
  uni_lower_at := lower_at;
  uni_isspace := isspace;
  uni_isword := isword;
  uni_isdecimal := isdecimal;
  uni_decimal_value := decimal_value;
  json_loads := flat_json_loads;
  parse_date := iso_parse_date;
  html_unescape := fun s => s
|}.

(** A world in which the agent client is not available. *)
Definition offline (today : date) : World := {|
  project := false;
  agent_service := fun _ => RunFailed;
  now_local := today;
  now_utc := today;
  search_service := fun _ => Ok (mkreply 200 (Some (JObject ∅)));
  completion_service := fun _ _ => Ok (mkreply 200 (Some (JObject ∅)))
|}.

(** A world in which the agent run completes with the given messages. *)
Definition answering (today : date) (history : list message) : World := {|
  project := true;
  agent_service := fun _ => RunCompleted history;
  now_local := today;
  now_utc := today;
  search_service := fun _ => Ok (mkreply 200 (Some (JObject ∅)));
  completion_service := fun _ _ => Ok (mkreply 200 (Some (JObject ∅)))
|}.

Definition assistant (text : pystr) : message :=
  mkmessage (str "assistant") [text].

End Concrete.


(** ** Checks run over finite ranges, and the properties stated below *)

(** [f] holds on the [fuel] integers from [lo] on. *)
Fixpoint all_from (f : Z -> bool) (fuel : nat) (lo : Z) : bool :=
  match fuel with
  | O => true
  | S k => f lo && all_from f k (lo + 1)
  end.

(** The month and day that [_ord2ymd] derives from the day of the year. *)
Definition month_day (n : Z) (leapyear : bool) : Z * Z :=
  let month := Z.shiftr (n + 50) 5 in
  let preceding :=
    table DAYS_BEFORE_MONTH month
    + (if (2 <? month) && leapyear then 1 else 0) in
  if n <? preceding then
    let month := month - 1 in
    let preceding :=
      preceding - (table DAYS_IN_MONTH month
                   + (if (month =? 2) && leapyear then 1 else 0)) in
    (month, n - preceding + 1)
  else (month, n - preceding + 1).

Definition month_day_ok (leapyear : bool) (n : Z) : bool :=
  let '(m, d) := month_day n leapyear in
  (1 <=? m) && (m <=? 12) && (1 <=? d)
  && (d <=? (if (m =? 2) && leapyear then 29 else table DAYS_IN_MONTH m))
  && (table DAYS_BEFORE_MONTH m
      + (if (2 <? m) && leapyear then 1 else 0) + d =? n + 1).

(** A year inside the cycle, written in centuries, leap groups and years. *)
Definition cycle_year_ok (p : Z) : bool :=
  let a := p / 100 in
  let b := (p mod 100) / 4 in
  let c := p mod 4 in
  (days_before_year (1 + p) =? DI100Y * a + DI4Y * b + 365 * c)
  && eqb (is_leap (1 + p)) ((c =? 3) && (negb (b =? 24) || (a =? 3))).

(** What [zero_padded] and [str_of_int] print, digit by digit. *)
Definition pad4_ok (y : Z) : bool :=
  bool_decide (zero_padded 4 y
               = [48 + y / 1000; 48 + y / 100 mod 10;
                  48 + y / 10 mod 10; 48 + y mod 10]).

Definition pad2_ok (m : Z) : bool :=
  bool_decide (zero_padded 2 m = [48 + m / 10; 48 + m mod 10]).

Definition year_str_ok (y : Z) : bool :=
  bool_decide (str_of_int y = zero_padded 4 y).


(** Agent replies for the examples. *)
Definition quoted (s : pystr) : pystr := QUOTE :: s ++ [QUOTE].

Definition date_reply (d : pystr) : pystr :=
  str "{" ++ quoted (str "date") ++ str ": " ++ quoted d ++ str "}".

(** A Monday-to-Sunday range that ends no later than [today]. *)
Definition monday_to_sunday (today start end_ : date) : Prop :=
  is_date start = true /\ is_date end_ = true
  /\ weekday start = MONDAY /\ weekday end_ = SUNDAY
  /\ toordinal end_ = toordinal start + 6
  /\ toordinal end_ <= toordinal today.

(** [end_] is the day before the Monday of the week that holds [today]. *)
Definition ends_before_this_week (today end_ : date) : Prop :=
  toordinal end_ = toordinal today - weekday today - 1.

(** The claim as the specification words it: a Sunday-to-Saturday range. *)
Definition sunday_to_saturday (r : result dict) : Prop :=
  exists start end_,
    is_date start = true /\ is_date end_ = true
    /\ r = Ok (range (isoformat start) (isoformat end_))
    /\ weekday start = SUNDAY /\ weekday end_ = SATURDAY.


(** [dateutil] reads back the dates that [isoformat] prints. *)
Definition parses_iso_dates (R : PyRuntime) : Prop :=
  forall d, is_date d = true ->
  exists dt, parse_date (isoformat d) = Ok dt /\ dt_date dt = d.

(** The calls that go to the search index or the completion endpoint. *)
Definition downstream (c : call) : bool :=
  match c with
  | AgentCall _ => false
  | SearchCall _ | CompletionCall _ _ => true
  end.

(** A response with status 400 and no downstream call on the way. *)
Definition rejected_without_search (out : HttpResponse * list call) : Prop :=
  status_code (fst out) = 400 /\ forallb (fun c => negb (downstream c)) (snd out) = true.

(** A DateQuery: a dict with "date", or with "start" and "end". *)
Definition is_date_query (d : dict) : Prop :=
  is_Some (d !! str "date")
  \/ (is_Some (d !! str "start") /\ is_Some (d !! str "end")).

(** What the handlers rely on in the Unicode tables about decimal digits:
    the digits "2" and "0" have values 2 and 0 and "2" is a word character;
    a decimal digit has a value from 0 to 9 and is a word character. *)
Definition decimal_digits_ok (R : PyRuntime) : Prop :=
  uni_decimal_value 50 = 2 /\ uni_decimal_value 48 = 0
  /\ uni_isword 50 = true
  /\ (forall c, uni_isdecimal c = true ->
       0 <= uni_decimal_value c <= 9 /\ uni_isword c = true).

(** The "date", or the "start" and "end", of a DateQuery. *)
Definition date_values (d : dict) : list pystr :=
  match d !! str "date" with
  | Some (JString v) => [v]
  | Some _ => []
  | None =>
      match d !! str "start", d !! str "end" with
      | Some (JString s), Some (JString e) => [s; e]
      | _, _ => []
      end
  end.

(** Reading a filter back: the ten characters after "<field> eq ", or the
    ten characters after "(<field> ge " and the ten after "<field> le ". *)
Definition embedded_dates (filter : pystr) : list pystr :=
  let eq_prefix := FIELD ++ str " eq " in
  let ge_prefix := str "(" ++ FIELD ++ str " ge " in
  let le_prefix := str "T00:00:00Z and " ++ FIELD ++ str " le " in
  if startswith filter eq_prefix then
    [take 10 (drop (length eq_prefix) filter)]
  else if startswith filter ge_prefix then
    let rest := drop (length ge_prefix) filter in
    [take 10 rest; take 10 (drop (10 + length le_prefix) rest)]
  else [].

(** A value that the date parser reads and [isoformat] prints back. *)
Definition reads_back (R : PyRuntime) (v : pystr) : Prop :=
  exists dt, parse_date v = Ok dt /\ isoformat (dt_date dt) = v.

(** The character a search has just passed, after walking over [before]. *)
Fixpoint prev_of (prev : option Z) (before : pystr) : option Z :=
  match before with
  | [] => prev
  | c :: rest => prev_of (Some c) rest
  end.

(** A word-bounded year token inside [s]: "20" and two decimal digits, with
    no word character right before or right after. *)
Definition year_token_at (R : PyRuntime) (s before tok after : pystr) : Prop :=
  s = before ++ tok ++ after
  /\ (exists c3 c4, tok = [50; 48; c3; c4]
                   /\ uni_isdecimal c3 = true /\ uni_isdecimal c4 = true)
  /\ word_before (last before) = false
  /\ word_at after = false.

(** A substring [m] of [text] of the form "{...}" with no brace inside. *)
Definition flat_object_at (text before m after : pystr) : Prop :=
  text = before ++ m ++ after
  /\ exists inner, m = LBRACE :: inner ++ [RBRACE]
                  /\ Forall (fun c => c <> LBRACE /\ c <> RBRACE) inner.

(** The leftmost such substring. *)
Definition leftmost_flat_object (text m : pystr) : Prop :=
  exists before after,
    flat_object_at text before m after
    /\ forall before' m' after',
         flat_object_at text before' m' after' ->
         (length before <= length before')%nat.

(** [text.startswith('{') and text.endswith('}')] *)
Definition braced (text : pystr) : bool :=
  startswith text [LBRACE] && endswith text [RBRACE].

(** The two strategies as the specification words them: the whole text
    is one JSON object; the first flat "{...}" substring is valid JSON. *)
Definition strategy1_yields (R : PyRuntime) (text : pystr) : Prop :=
  exists d, json_loads text = Some d.

Definition strategy2_yields (R : PyRuntime) (text : pystr) : Prop :=
  exists m d, leftmost_flat_object text m /\ json_loads m = Some d.

(** C6 as stated, for [seacrh_by_date]: the extraction fails exactly when
    there is no assistant message or neither strategy yields JSON. *)
Definition fails_only_without_json (R : PyRuntime) (history : list message)
  : Prop :=
  (exists e, SeacrhByDate.response_to_dict history = Raise e)
  <-> (Forall (fun m => has_text m = false) history
       \/ exists earlier m later,
            history = earlier ++ m :: later /\ has_text m = true
            /\ Forall (fun m' => has_text m' = false) later
            /\ ~ strategy1_yields R (py_strip (last_text m))
            /\ ~ strategy2_yields R (py_strip (last_text m))).

(** C7 as stated, for [search_by_date]: the dict comes from the most
    recent assistant message that has text. *)
Definition reads_most_recent (R : PyRuntime) (history : list message) : Prop :=
  forall earlier m later,
    history = earlier ++ m :: later -> has_text m = true ->
    Forall (fun m' => has_text m' = false) later ->
    SearchByDate.response_to_dict history = SearchByDate.response_to_dict [m].

(** The text [search_by_date] would parse in one assistant message. *)
Definition json_candidate (R : PyRuntime) (m : message) : option pystr :=
  let response_text := py_strip (last_text m) in
  if braced response_text then Some response_text
  else search_lazy_braces response_text.

(** A reply that starts and ends with a brace and holds two objects. *)
Definition two_objects : pystr :=
  date_reply (str "2024-04-29") ++ str " o " ++ date_reply (str "2024-04-30").

(** A thread in which the assistant answered twice. *)
Definition two_replies : list message :=
  [Concrete.assistant (date_reply (str "2024-01-01"));
   Concrete.assistant (date_reply (str "2024-01-02"))].

(** The characters of the phrases: lower-case ASCII letters, u with acute
    accent, and the space. *)
Definition phrase_letter (c : Z) : Prop := 97 <= c <= 122 \/ c = U_ACUTE.

Definition phrase_char (c : Z) : Prop := phrase_letter c \/ c = 32.

(** What the phrase tests rely on in the Unicode tables: lowering leaves
    the characters of the phrases alone, wherever they stand, and their
    letters are not white space. *)
Definition phrase_tables_ok (R : PyRuntime) : Prop :=
  (forall before c after,
      phrase_char c -> uni_lower_at before c after = [c])
  /\ (forall c, phrase_letter c -> uni_isspace c = false).

(** A phrase: phrase characters between a first and a last letter. *)
Definition is_phrase (phrase : pystr) : Prop :=
  exists a middle b,
    phrase = a :: middle ++ [b]
    /\ phrase_letter a /\ phrase_letter b /\ Forall phrase_char middle.

(** A substring [m] of [text] that runs from an opening brace to the first
    closing brace after it, on one line; opening braces may occur inside. *)
Definition lazy_object_at (text before m after : pystr) : Prop :=
  text = before ++ m ++ after
  /\ exists inner, m = LBRACE :: inner ++ [RBRACE]
                  /\ Forall (fun c => c <> RBRACE /\ c <> NEWLINE) inner.

(** ** Further properties: what they are stated with *)

(** The last day of the calendar month before the month of [today]. *)
Definition previous_month_end (today : date) : date :=
  if month today =? 1 then mkdate (year today - 1) 12 31
  else mkdate (year today) (month today - 1)
         (days_in_month (year today) (month today - 1)).

(** A DateQuery of real dates: one date, or a start no later than the
    end. *)
Definition ordered_date_query (d : dict) : Prop :=
  (exists a, is_date a = true /\ d = single (isoformat a))
  \/ (exists a b, is_date a = true /\ is_date b = true
                  /\ toordinal a <= toordinal b
                  /\ d = range (isoformat a) (isoformat b)).

(** The leftmost substring that runs from an opening brace to the first
    closing brace on the same line. *)
Definition leftmost_lazy_object (text m : pystr) : Prop :=
  exists before after,
    lazy_object_at text before m after
    /\ forall before' m' after',
         lazy_object_at text before' m' after' ->
         (length before <= length before')%nat.

(** The body [seacrh_by_date.main] answers with status 200. *)
Definition items_body (parsed_date_info : dict) (results : json) : body :=
  JsonBody (JObject {[ str "parsed_dates" := JObject parsed_date_info;
                       str "filtered_items" := results ]}).

(** The body [search_by_date.main] answers with status 200. *)
Definition answer_body (parsed_date_info : dict) (filter_expression : pystr)
    (answer : json) : body :=
  JsonBody (JObject {[ str "parsed_dates" := JObject parsed_date_info;
                       str "filter" := JString filter_expression;
                       str "gpt_answer" := answer ]}).

(** A reply that [raise_for_status] lets through. *)
Definition passes_status (reply : http_reply) : Prop :=
  ~ (400 <= reply_status reply < 600).

(** A completion reply from which [main] can read an answer: an object
    whose "choices" is an array that starts with an object whose "message"
    is an object with a "content". *)
Definition has_answer (j : json) (answer : json) : Prop :=
  exists members choice rest msg,
    j = JObject members
    /\ members !! str "choices" = Some (JArray (JObject choice :: rest))
    /\ choice !! str "message" = Some (JObject msg)
    /\ msg !! str "content" = Some answer.

(** [result.get('date') == expected] *)
Definition date_is (result : dict) (expected : pystr) : bool :=
  match result !! str "date" with
  | Some (JString v) => bool_decide (v = expected)
  | _ => false
  end.

(** [test_date_calculations] of [test_fallback.py], for the parser it
    imports; [today] is the [datetime.now().date()] of the test.  [Ok true]
    when both assertions hold, [Ok false] for an [AssertionError]. *)
Definition test_date_calculations
    (fallback_date_parser : pystr -> result dict) (today : date)
  : result bool :=
  let* yesterday_result := fallback_date_parser (str "ayer") in
  let* yesterday := sub_days today 1 in
  let expected_yesterday := isoformat yesterday in
  if negb (date_is yesterday_result expected_yesterday) then Ok false
  else
    let* today_result := fallback_date_parser (str "hoy") in
    let expected_today := isoformat today in
    Ok (date_is today_result expected_today).

(** * Proofs *)

Example ord_2024_05_10 : toordinal (mkdate 2024 5 10) = 739016.
Proof. reflexivity. Qed.

Example from_739016 : fromordinal 739016 = mkdate 2024 5 10.
Proof. reflexivity. Qed.

Example friday : weekday (mkdate 2024 5 10) = 4.
Proof. reflexivity. Qed.

Example iso_2024_05_10 : isoformat (mkdate 2024 5 10) = str "2024-05-10".
Proof. reflexivity. Qed.

Example iso_small : isoformat (mkdate 7 1 2) = str "0007-01-02".
Proof. reflexivity. Qed.


Example from_leap_end : fromordinal 146097 = mkdate 400 12 31.
Proof. reflexivity. Qed.

Example from_max : fromordinal MAXORDINAL = mkdate 9999 12 31.
Proof. reflexivity. Qed.

Example from_leap_day : fromordinal 738945 = mkdate 2024 2 29.
Proof. reflexivity. Qed.
(** ** The handlers on examples *)

Section Examples.
Import Concrete.

Example ayer_2024_05_10 :
  SeacrhByDate.fallback_date_parser (mkdate 2024 5 10) (str "ayer")
  = Ok (single (str "2024-05-09")).
Proof. cbv -[single range]. reflexivity. Qed.

Example ayer_filter :
  build_filter_expression (single (str "2024-05-09"))
  = Ok (str "metadata_spo_item_release_date eq 2024-05-09T00:00:00Z").
Proof. cbv -[single range]. reflexivity. Qed.

Example semana_2024_05_10 :
  SeacrhByDate.fallback_date_parser (mkdate 2024 5 10) (str "La Semana Pasada")
  = Ok (range (str "2024-04-29") (str "2024-05-05")).
Proof. cbv -[single range]. reflexivity. Qed.

(** On Sunday 12 May 2024 the two packages differ: [seacrh_by_date] ends
    the range on that Sunday, [search_by_date] on the Sunday before. *)
Example semana_on_a_sunday :
  weekday (mkdate 2024 5 12) = SUNDAY
  /\ SeacrhByDate.fallback_date_parser (mkdate 2024 5 12) (str "semana pasada")
     = Ok (range (str "2024-05-06") (str "2024-05-12"))
  /\ SearchByDate.fallback_date_parser (mkdate 2024 5 12) (str "semana pasada")
     = Ok (range (str "2024-04-29") (str "2024-05-05")).
Proof. repeat split; cbv -[single range]; reflexivity. Qed.

Example year_2024 :
  SeacrhByDate.fallback_date_parser (mkdate 2024 5 10) (str "documentos de 2024")
  = Ok (range (str "2024-01-01") (str "2024-12-31")).
Proof. cbv -[single range]. reflexivity. Qed.

Example year_inside_word :
  SeacrhByDate.fallback_date_parser (mkdate 2024 5 10) (str "ref20241")
  = Ok (range (str "2024-04-01") (str "2024-04-30")).
Proof. cbv -[single range]. reflexivity. Qed.

Example loads_flat :
  flat_json_loads (date_reply (str "2024-04-29"))
  = Some (single (str "2024-04-29")).
Proof. cbv -[single range]. reflexivity. Qed.

End Examples.

(** ** Facts about the calendar arithmetic *)

(** Evaluate applications of [f] to closed arguments. *)
Ltac eval_closed f :=
  repeat match goal with
         | |- context [f ?t ?k] =>
             let v := eval vm_compute in (f t k) in change (f t k) with v
         | H : context [f ?t ?k] |- _ =>
             let v := eval vm_compute in (f t k) in
             change (f t k) with v in H
         end.

Section CalendarFacts.

Lemma all_from_spec (f : Z -> bool) (n : nat) : forall lo,
  all_from f n lo = true ->
  forall r, lo <= r < lo + Z.of_nat n -> f r = true.
Proof.
  induction n as [|n IH]; intros lo H r Hr; [lia|].
  cbn [all_from] in H. apply andb_prop in H. destruct H as [H0 H1].
  destruct (Z.eq_dec r lo) as [->|Hne]; [exact H0|].
  apply (IH (lo + 1)); [exact H1|lia].
Qed.

Lemma forall_range (f : Z -> bool) (lo n : Z) :
  all_from f (Z.to_nat n) lo = true ->
  forall r, lo <= r < lo + n -> f r = true.
Proof.
  intros Hall r Hr. apply (all_from_spec f (Z.to_nat n) lo Hall). lia.
Qed.

Lemma month_day_spec (leapyear : bool) (n : Z) :
  0 <= n < 365 -> month_day_ok leapyear n = true.
Proof.
  intros Hn. destruct leapyear.
  - apply (forall_range (month_day_ok true) 0 365); [|lia].
    vm_compute. reflexivity.
  - apply (forall_range (month_day_ok false) 0 365); [|lia].
    vm_compute. reflexivity.
Qed.

Lemma is_leap_shift (q y : Z) : is_leap (q * 400 + y) = is_leap y.
Proof.
  unfold is_leap.
  replace ((q * 400 + y) mod 4) with (y mod 4)
    by (replace (q * 400 + y) with (y + (q * 100) * 4) by lia;
        now rewrite Z.mod_add).
  replace ((q * 400 + y) mod 100) with (y mod 100)
    by (replace (q * 400 + y) with (y + (q * 4) * 100) by lia;
        now rewrite Z.mod_add).
  replace ((q * 400 + y) mod 400) with (y mod 400)
    by (replace (q * 400 + y) with (y + q * 400) by lia;
        now rewrite Z.mod_add).
  reflexivity.
Qed.

Lemma days_before_year_shift (q y : Z) :
  days_before_year (q * 400 + y) = q * DI400Y + days_before_year y.
Proof.
  unfold days_before_year, DI400Y. cbv zeta.
  replace (q * 400 + y - 1) with (y - 1 + q * 400) by lia.
  replace ((y - 1 + q * 400) / 4) with ((y - 1) / 4 + q * 100)
    by (replace (y - 1 + q * 400) with (y - 1 + (q * 100) * 4) by lia;
        now rewrite Z.div_add).
  replace ((y - 1 + q * 400) / 100) with ((y - 1) / 100 + q * 4)
    by (replace (y - 1 + q * 400) with (y - 1 + (q * 4) * 100) by lia;
        now rewrite Z.div_add).
  replace ((y - 1 + q * 400) / 400) with ((y - 1) / 400 + q)
    by now rewrite Z.div_add.
  lia.
Qed.

Lemma cycle_year_spec (a b c : Z) :
  0 <= a <= 3 -> 0 <= b <= 24 -> 0 <= c <= 3 ->
  days_before_year (1 + (a * 100 + b * 4 + c))
  = DI100Y * a + DI4Y * b + 365 * c
  /\ is_leap (1 + (a * 100 + b * 4 + c))
     = (c =? 3) && (negb (b =? 24) || (a =? 3)).
Proof.
  intros Ha Hb Hc. set (p := a * 100 + b * 4 + c).
  assert (Hp : 0 <= p < 0 + 400) by lia.
  pose proof (forall_range cycle_year_ok 0 400 ltac:(vm_compute; reflexivity)
                p Hp) as H.
  unfold cycle_year_ok in H. cbv zeta in H.
  assert (Ea : p / 100 = a) by (unfold p; Z.div_mod_to_equations; lia).
  assert (Eb : (p mod 100) / 4 = b) by (unfold p; Z.div_mod_to_equations; lia).
  assert (Ec : p mod 4 = c) by (unfold p; Z.div_mod_to_equations; lia).
  rewrite Ea, Eb, Ec in H. apply andb_prop in H. destruct H as [H1 H2].
  apply Z.eqb_eq in H1. apply eqb_prop in H2. split; assumption.
Qed.

(** [fromordinal] lands on a real date whose ordinal is the one given. *)
Lemma fromordinal_spec (n : Z) :
  1 <= n <= MAXORDINAL ->
  is_date (fromordinal n) = true /\ toordinal (fromordinal n) = n.
Proof.
  intros Hn. unfold fromordinal, ord2ymd. cbv zeta.
  set (q := (n - 1) / DI400Y). set (r := (n - 1) mod DI400Y).
  set (a := r / DI100Y). set (r1 := r mod DI100Y).
  set (b := r1 / DI4Y). set (r2 := r1 mod DI4Y).
  set (c := r2 / 365). set (n0 := r2 mod 365).
  assert (Hq : n - 1 = DI400Y * q + r) by (apply Z.div_mod; discriminate).
  assert (Hr : 0 <= r < DI400Y) by (apply Z.mod_pos_bound; reflexivity).
  assert (Ha : r = DI100Y * a + r1) by (apply Z.div_mod; discriminate).
  assert (Hr1 : 0 <= r1 < DI100Y) by (apply Z.mod_pos_bound; reflexivity).
  assert (Hb : r1 = DI4Y * b + r2) by (apply Z.div_mod; discriminate).
  assert (Hr2 : 0 <= r2 < DI4Y) by (apply Z.mod_pos_bound; reflexivity).
  assert (Hc : r2 = 365 * c + n0) by (apply Z.div_mod; discriminate).
  assert (Hn0 : 0 <= n0 < 365) by (apply Z.mod_pos_bound; reflexivity).
  clearbody q r a r1 b r2 c n0.
  unfold DI400Y, DI100Y, DI4Y, MAXORDINAL in *.
  destruct ((c =? 4) || (a =? 4)) eqn:Hsp.
  - (* 31 December of a leap year *)
    assert (Hcase : (c = 4 /\ 0 <= a <= 3 /\ 0 <= b <= 23 /\ n0 = 0)
                    \/ (a = 4 /\ b = 0 /\ c = 0 /\ n0 = 0)) by lia.
    set (a' := if a =? 4 then 3 else a).
    set (b' := if a =? 4 then 24 else b).
    assert (Hy : q * 400 + 1 + (a * 100 + b * 4 + c) - 1
                 = q * 400 + (1 + (a' * 100 + b' * 4 + 3)))
      by (unfold a', b'; destruct (a =? 4) eqn:E; lia).
    rewrite Hy.
    destruct (cycle_year_spec a' b' 3) as [Hd Hl];
      [unfold a'; destruct (a =? 4); lia
      |unfold b'; destruct (a =? 4); lia|lia|].
    assert (Hleap : is_leap (1 + (a' * 100 + b' * 4 + 3)) = true).
    { rewrite Hl. unfold a', b'. destruct (a =? 4) eqn:E; [reflexivity|].
      replace (b =? 24) with false by lia. reflexivity. }
    unfold is_date, toordinal, ymd2ord, days_in_month, days_before_month.
    cbn [year month day].
    rewrite days_before_year_shift, is_leap_shift, Hd, Hleap.
    unfold DI400Y, DI100Y, DI4Y.
    change (table DAYS_BEFORE_MONTH 12) with 334.
    change (table DAYS_IN_MONTH 12) with 31.
    change (2 <? 12) with true. change (12 =? 2) with false.
    cbn [andb].
    split.
    + repeat (apply andb_true_intro; split); try reflexivity;
        unfold a', b'; destruct (a =? 4) eqn:E; lia.
    + unfold a', b'; destruct (a =? 4) eqn:E; lia.
  - assert (Hrange : 0 <= a <= 3 /\ 0 <= b <= 24 /\ 0 <= c <= 3) by lia.
    destruct Hrange as (Ha' & Hb' & Hc').
    destruct (cycle_year_spec a b c Ha' Hb' Hc') as [Hd Hl].
    pose proof (month_day_spec ((c =? 3) && (negb (b =? 24) || (a =? 3)))
                  n0 Hn0) as Hmd.
    unfold month_day_ok, month_day in Hmd. cbv zeta in Hmd.
    set (leap := (c =? 3) && (negb (b =? 24) || (a =? 3))) in *.
    set (m0 := Z.shiftr (n0 + 50) 5) in *.
    set (p0 := table DAYS_BEFORE_MONTH m0
               + (if (2 <? m0) && leap then 1 else 0)) in *.
    assert (Hyear : 1 <= q * 400 + 1 + (a * 100 + b * 4 + c) <= 9999) by lia.
    replace (q * 400 + 1 + (a * 100 + b * 4 + c))
      with (q * 400 + (1 + (a * 100 + b * 4 + c))) in * by lia.
    clearbody leap.
    destruct (n0 <? p0);
      unfold is_date, toordinal, ymd2ord, days_in_month, days_before_month;
      cbn [year month day];
      rewrite days_before_year_shift, is_leap_shift, Hd, Hl;
      unfold DI400Y, DI100Y, DI4Y;
      repeat (apply andb_prop in Hmd; destruct Hmd as [Hmd ?]);
      repeat match goal with
             | H : (_ <=? _) = true |- _ => apply Z.leb_le in H
             | H : (_ =? _) = true |- _ => apply Z.eqb_eq in H
             end;
      (split; [repeat (apply andb_true_intro; split); apply Z.leb_le |]);
      clearbody p0 m0; lia.
Qed.

Lemma days_before_month_bound (y m d : Z) :
  1 <= m <= 12 -> 1 <= d <= days_in_month y m ->
  1 <= days_before_month y m + d <= 365 + (if is_leap y then 1 else 0).
Proof.
  intros Hm Hd. unfold days_before_month, days_in_month in *.
  assert (Hc : m = 1 \/ m = 2 \/ m = 3 \/ m = 4 \/ m = 5 \/ m = 6 \/
               m = 7 \/ m = 8 \/ m = 9 \/ m = 10 \/ m = 11 \/ m = 12) by lia.
  destruct (is_leap y);
    repeat (destruct Hc as [-> | Hc]); try subst m;
    eval_closed table; eval_closed Z.eqb; eval_closed Z.ltb;
    cbn [andb] in *; lia.
Qed.

Lemma toordinal_range (d : date) :
  is_date d = true -> 1 <= toordinal d <= MAXORDINAL.
Proof.
  unfold is_date, toordinal, ymd2ord. intros H.
  repeat (apply andb_prop in H; destruct H as [H ?]).
  pose proof (days_before_month_bound (year d) (month d) (day d)
                ltac:(lia) ltac:(lia)) as Hb.
  assert (Hy : year d = 9999 \/ year d <= 9998) by lia.
  destruct Hy as [Hy | Hy].
  - rewrite Hy in *. change (is_leap 9999) with false in Hb.
    change (days_before_year 9999) with 3651694. unfold MAXORDINAL. lia.
  - assert (0 <= days_before_year (year d) <= 3651331).
    { unfold days_before_year. cbv zeta. Z.div_mod_to_equations. lia. }
    unfold MAXORDINAL. destruct (is_leap (year d)); lia.
Qed.

End CalendarFacts.

(** ** Dates reached by date arithmetic *)

Section DateArithmetic.

Lemma weekday_range (d : date) : 0 <= weekday d < 7.
Proof. unfold weekday. apply Z.mod_pos_bound. reflexivity. Qed.

Lemma add_days_ok (d : date) (k : Z) :
  1 <= toordinal d + k <= MAXORDINAL ->
  exists e, add_days d k = Ok e /\ is_date e = true
            /\ toordinal e = toordinal d + k.
Proof.
  intros Hk. unfold add_days. cbv zeta.
  replace ((0 <? toordinal d + k) && (toordinal d + k <=? MAXORDINAL))
    with true by (symmetry; apply andb_true_intro; split; lia).
  destruct (fromordinal_spec (toordinal d + k) Hk) as [Hv Ho].
  eexists. repeat split; eassumption.
Qed.

Lemma sub_days_ok (d : date) (k : Z) :
  is_date d = true -> 0 <= k < toordinal d ->
  exists e, sub_days d k = Ok e /\ is_date e = true
            /\ toordinal e = toordinal d - k.
Proof.
  intros Hd Hk. pose proof (toordinal_range d Hd).
  unfold sub_days. destruct (add_days_ok d (- k)) as (e & He & Hv & Ho); [lia|].
  exists e. repeat split; [assumption..|lia].
Qed.

Lemma replace_day1_date (d : date) :
  is_date d = true ->
  is_date (replace_day1 d) = true
  /\ toordinal (replace_day1 d) = toordinal d - day d + 1.
Proof.
  unfold is_date, replace_day1, toordinal, ymd2ord. cbn [year month day].
  intros H. repeat (apply andb_prop in H; destruct H as [H ?]).
  split; [|lia].
  repeat (apply andb_true_intro; split); try assumption; lia.
Qed.

(** From 1 February of year 1 on, last month exists. *)
Lemma last_month_range_ok (today : date) :
  is_date today = true -> 32 <= toordinal today ->
  exists first_ last_,
    last_month_range today = Ok (range (isoformat first_) (isoformat last_))
    /\ is_date first_ = true /\ is_date last_ = true.
Proof.
  intros Hd Ho. destruct (replace_day1_date today Hd) as [Hv1 Ho1].
  assert (Hday : day today <= 31).
  { unfold is_date in Hd.
    repeat (apply andb_prop in Hd; destruct Hd as [Hd ?]).
    pose proof (days_before_month_bound (year today) (month today)
                  (day today) ltac:(lia) ltac:(lia)).
    unfold days_in_month in *.
    assert (Hc : month today = 1 \/ month today = 2 \/ month today = 3
                 \/ month today = 4 \/ month today = 5 \/ month today = 6
                 \/ month today = 7 \/ month today = 8 \/ month today = 9
                 \/ month today = 10 \/ month today = 11 \/ month today = 12)
      by lia.
    destruct (is_leap (year today));
      repeat (destruct Hc as [Hc | Hc]); rewrite Hc in *;
      eval_closed table; eval_closed Z.eqb; cbn [andb] in *; lia. }
  destruct (sub_days_ok (replace_day1 today) 1 Hv1) as (l & Hl & Hvl & _);
    [lia|].
  unfold last_month_range. rewrite Hl. cbn [bind].
  exists (replace_day1 l), l. repeat split; try assumption.
  apply replace_day1_date, Hvl.
Qed.

End DateArithmetic.

(** ** The dicts the fallback parser returns *)

Section Dicts.

Lemma Ok_inj {A} (a b : A) : Ok a = Ok b -> a = b.
Proof. intros H. now inversion H. Qed.

Lemma single_date (d : pystr) : single d !! str "date" = Some (JString d).
Proof. apply lookup_singleton_eq. Qed.

Lemma range_start (s e : pystr) : range s e !! str "start" = Some (JString s).
Proof. apply lookup_insert_eq. Qed.

Lemma range_end (s e : pystr) : range s e !! str "end" = Some (JString e).
Proof.
  unfold range. rewrite lookup_insert_ne by (vm_compute; discriminate).
  apply lookup_singleton_eq.
Qed.

Lemma range_date (s e : pystr) : range s e !! str "date" = None.
Proof.
  unfold range. rewrite lookup_insert_ne by (vm_compute; discriminate).
  apply lookup_singleton_ne. vm_compute; discriminate.
Qed.

Lemma single_inj (a b : pystr) : single a = single b -> a = b.
Proof.
  intros H. pose proof (single_date a) as Ha. rewrite H, single_date in Ha.
  congruence.
Qed.

Lemma range_inj (s e s' e' : pystr) :
  range s e = range s' e' -> s = s' /\ e = e'.
Proof.
  intros H. pose proof (range_start s e) as Hs. pose proof (range_end s e) as He.
  rewrite H in Hs, He. rewrite range_start in Hs. rewrite range_end in He.
  split; congruence.
Qed.

End Dicts.

(** ** [isoformat] and reading it back *)

Section IsoFormat.
Import Concrete.

Lemma zero_padded_4 (y : Z) :
  0 <= y <= 9999 ->
  zero_padded 4 y
  = [48 + y / 1000; 48 + y / 100 mod 10; 48 + y / 10 mod 10; 48 + y mod 10].
Proof.
  intros Hy.
  pose proof (forall_range pad4_ok 0 10000 ltac:(vm_compute; reflexivity)
                y ltac:(lia)) as H.
  unfold pad4_ok in H. apply bool_decide_eq_true in H. exact H.
Qed.

Lemma zero_padded_2 (m : Z) :
  0 <= m <= 99 -> zero_padded 2 m = [48 + m / 10; 48 + m mod 10].
Proof.
  intros Hm.
  pose proof (forall_range pad2_ok 0 100 ltac:(vm_compute; reflexivity)
                m ltac:(lia)) as H.
  unfold pad2_ok in H. apply bool_decide_eq_true in H. exact H.
Qed.

(** A four-digit year prints the same with [str] and with ["%04d"]. *)
Lemma str_of_int_year (y : Z) :
  1000 <= y <= 9999 -> str_of_int y = zero_padded 4 y.
Proof.
  intros Hy.
  pose proof (forall_range year_str_ok 1000 9000 ltac:(vm_compute; reflexivity)
                y ltac:(lia)) as H.
  unfold year_str_ok in H. apply bool_decide_eq_true in H. exact H.
Qed.

Lemma digit_of_ok (k : Z) : 0 <= k <= 9 -> digit_of (48 + k) = Some k.
Proof.
  intros Hk. unfold digit_of.
  replace ((48 <=? 48 + k) && (48 + k <=? 57)) with true
    by (symmetry; apply andb_true_intro; split; lia).
  f_equal. lia.
Qed.

Lemma day_le_31 (d : date) : is_date d = true -> day d <= 31.
Proof.
  unfold is_date. intros Hd.
  repeat (apply andb_prop in Hd; destruct Hd as [Hd ?]).
  unfold days_in_month in *.
  assert (Hc : month d = 1 \/ month d = 2 \/ month d = 3 \/ month d = 4
               \/ month d = 5 \/ month d = 6 \/ month d = 7 \/ month d = 8
               \/ month d = 9 \/ month d = 10 \/ month d = 11 \/ month d = 12)
    by lia.
  destruct (is_leap (year d));
    repeat (destruct Hc as [Hc | Hc]); rewrite Hc in *;
    eval_closed table; eval_closed Z.eqb; cbn [andb] in *; lia.
Qed.

(** The strict reader returns the date that [isoformat] printed. *)
Lemma iso_parse_isoformat (d : date) :
  is_date d = true -> iso_parse_date (isoformat d) = Ok (midnight d).
Proof.
  intros Hd. pose proof (day_le_31 d Hd) as Hday.
  pose proof Hd as Hd'. unfold is_date in Hd'.
  repeat (apply andb_prop in Hd'; destruct Hd' as [Hd' ?]).
  destruct d as [y m dd]. cbn [year month day] in *.
  unfold isoformat. cbn [year month day].
  rewrite zero_padded_4, !zero_padded_2 by lia.
  cbn [app]. unfold iso_parse_date.
  assert (Ey : digits_value 0 [48 + y / 1000; 48 + y / 100 mod 10;
                               48 + y / 10 mod 10; 48 + y mod 10] = Some y).
  { cbn [digits_value].
    rewrite !digit_of_ok by (Z.div_mod_to_equations; lia).
    f_equal. Z.div_mod_to_equations. lia. }
  assert (E2 : forall k, 0 <= k <= 99 ->
               digits_value 0 [48 + k / 10; 48 + k mod 10] = Some k).
  { intros k Hk. cbn [digits_value].
    rewrite !digit_of_ok by (Z.div_mod_to_equations; lia).
    f_equal. Z.div_mod_to_equations. lia. }
  rewrite Ey, !E2 by lia.
  change (45 =? 45) with true. cbn [andb]. rewrite Hd. reflexivity.
Qed.

Lemma isoformat_inj (d d' : date) :
  is_date d = true -> is_date d' = true ->
  isoformat d = isoformat d' -> d = d'.
Proof.
  intros Hd Hd' E. pose proof (iso_parse_isoformat d Hd) as H.
  rewrite E, (iso_parse_isoformat d' Hd') in H.
  injection H. intros. congruence.
Qed.

End IsoFormat.

(** ** Last week (C1) *)

Section LastWeek.
Context {R : PyRuntime}.

Lemma seacrh_last_week (today : date) (user_query : pystr) :
  is_date today = true -> 14 <= toordinal today ->
  let query_lower := py_strip (py_lower user_query) in
  str_in MES_PASADO query_lower = false ->
  str_in ULTIMO_MES query_lower = false ->
  str_in SEMANA_PASADA query_lower = true
  \/ str_in ULTIMA_SEMANA query_lower = true ->
  exists start end_,
    SeacrhByDate.fallback_date_parser today user_query
    = Ok (range (isoformat start) (isoformat end_))
    /\ monday_to_sunday today start end_
    /\ (weekday today <> SUNDAY -> ends_before_this_week today end_).
Proof.
  intros Hd Ho ql Hm1 Hm2 Hw.
  unfold SeacrhByDate.fallback_date_parser. fold ql. rewrite Hm1, Hm2.
  cbn [orb].
  replace (str_in SEMANA_PASADA ql || str_in ULTIMA_SEMANA ql) with true
    by (destruct Hw as [-> | ->]; [reflexivity | now rewrite orb_true_r]).
  cbv zeta. pose proof (weekday_range today) as Hwd.
  set (days_back := (weekday today + 1) mod 7 + 6).
  assert (Hdb : 6 <= days_back <= 12)
    by (unfold days_back; pose proof (Z.mod_pos_bound (weekday today + 1) 7);
        lia).
  pose proof (toordinal_range today Hd) as Hr.
  destruct (sub_days_ok today days_back Hd) as (s & Hs & Hvs & Hos); [lia|].
  destruct (add_days_ok s 6) as (e & He & Hve & Hoe); [lia|].
  rewrite Hs. cbn [bind]. rewrite He. cbn [bind].
  exists s, e. split; [reflexivity|].
  unfold monday_to_sunday, ends_before_this_week, weekday, MONDAY, SUNDAY in *.
  rewrite Hoe, Hos. unfold days_back in *.
  repeat split; try assumption; try (Z.div_mod_to_equations; lia).
Qed.

Lemma search_last_week (today : date) (user_query : pystr) :
  is_date today = true -> 14 <= toordinal today ->
  let q := py_lower user_query in
  str_in ULTIMA_SEMANA q = true \/ str_in SEMANA_PASADA q = true ->
  exists start end_,
    SearchByDate.fallback_date_parser today user_query
    = Ok (range (isoformat start) (isoformat end_))
    /\ monday_to_sunday today start end_
    /\ ends_before_this_week today end_.
Proof.
  intros Hd Ho q Hw.
  unfold SearchByDate.fallback_date_parser. fold q.
  replace (str_in ULTIMA_SEMANA q || str_in SEMANA_PASADA q) with true
    by (destruct Hw as [-> | ->]; [reflexivity | now rewrite orb_true_r]).
  pose proof (weekday_range today) as Hwd.
  pose proof (toordinal_range today Hd) as Hr.
  destruct (sub_days_ok today (weekday today + 7) Hd) as (s & Hs & Hvs & Hos);
    [lia|].
  destruct (add_days_ok s 6) as (e & He & Hve & Hoe); [lia|].
  rewrite Hs. cbn [bind]. rewrite He. cbn [bind].
  exists s, e. split; [reflexivity|].
  unfold monday_to_sunday, ends_before_this_week, weekday, MONDAY, SUNDAY in *.
  rewrite Hoe, Hos.
  repeat split; try assumption; try (Z.div_mod_to_equations; lia).
Qed.

End LastWeek.

(** C1, as amended.  For a query whose lowered text holds "semana pasada"
    or "última semana" (and, in [seacrh_by_date], neither month phrase), the
    fallback parser returns a seven-day range [start, start+6] in which
    start is a Monday and start+6 the following Sunday, ending no later
    than today.  In [search_by_date] always, and in [seacrh_by_date] when
    today is not a Sunday, it is the most recently completed
    Monday-to-Sunday week: it ends the day before the Monday of the week
    that holds today. *)
Theorem last_week_is_monday_to_sunday
    (R : PyRuntime) (today : date) (user_query : pystr) :
  is_date today = true -> 14 <= toordinal today ->
  (str_in MES_PASADO (py_strip (py_lower user_query)) = false ->
   str_in ULTIMO_MES (py_strip (py_lower user_query)) = false ->
   str_in SEMANA_PASADA (py_strip (py_lower user_query)) = true
   \/ str_in ULTIMA_SEMANA (py_strip (py_lower user_query)) = true ->
   exists start end_,
     SeacrhByDate.fallback_date_parser today user_query
     = Ok (range (isoformat start) (isoformat end_))
     /\ monday_to_sunday today start end_
     /\ (weekday today <> SUNDAY -> ends_before_this_week today end_))
  /\ (str_in ULTIMA_SEMANA (py_lower user_query) = true
      \/ str_in SEMANA_PASADA (py_lower user_query) = true ->
      exists start end_,
        SearchByDate.fallback_date_parser today user_query
        = Ok (range (isoformat start) (isoformat end_))
        /\ monday_to_sunday today start end_
        /\ ends_before_this_week today end_).
Proof.
  intros Hd Ho. split.
  - intros. now apply seacrh_last_week.
  - intros. now apply search_last_week.
Qed.

(** On Friday 10 May 2024 both parsers answer "semana pasada" with Monday
    29 April to Sunday 5 May. *)
Lemma last_week_is_monday_to_sunday_witness :
  (exists start end_,
     SeacrhByDate.fallback_date_parser (R := Concrete.runtime)
       (mkdate 2024 5 10) (str "semana pasada")
     = Ok (range (isoformat start) (isoformat end_))
     /\ monday_to_sunday (mkdate 2024 5 10) start end_
     /\ (weekday (mkdate 2024 5 10) <> SUNDAY ->
         ends_before_this_week (mkdate 2024 5 10) end_))
  /\ (exists start end_,
        SearchByDate.fallback_date_parser (R := Concrete.runtime)
          (mkdate 2024 5 10) (str "semana pasada")
        = Ok (range (isoformat start) (isoformat end_))
        /\ monday_to_sunday (mkdate 2024 5 10) start end_
        /\ ends_before_this_week (mkdate 2024 5 10) end_).
Proof.
  destruct (last_week_is_monday_to_sunday Concrete.runtime
              (mkdate 2024 5 10) (str "semana pasada")) as [H1 H2].
  - reflexivity.
  - vm_compute. discriminate.
  - split.
    + apply H1; [reflexivity | reflexivity | left; reflexivity].
    + apply H2. right. reflexivity.
Defined.

(** C1 as stated fails: on Friday 10 May 2024 the range for "semana
    pasada" is Monday 29 April to Sunday 5 May, in both packages, and no
    Sunday-to-Saturday range. *)
Lemma last_week_not_sunday_to_saturday :
  SeacrhByDate.fallback_date_parser (R := Concrete.runtime)
    (mkdate 2024 5 10) (str "semana pasada")
  = Ok (range (isoformat (mkdate 2024 4 29)) (isoformat (mkdate 2024 5 5)))
  /\ SearchByDate.fallback_date_parser (R := Concrete.runtime)
       (mkdate 2024 5 10) (str "semana pasada")
     = Ok (range (isoformat (mkdate 2024 4 29)) (isoformat (mkdate 2024 5 5)))
  /\ weekday (mkdate 2024 4 29) = MONDAY
  /\ weekday (mkdate 2024 5 5) = SUNDAY
  /\ ~ sunday_to_saturday
         (SeacrhByDate.fallback_date_parser (R := Concrete.runtime)
            (mkdate 2024 5 10) (str "semana pasada"))
  /\ ~ sunday_to_saturday
         (SearchByDate.fallback_date_parser (R := Concrete.runtime)
            (mkdate 2024 5 10) (str "semana pasada")).
Proof.
  assert (E1 : SeacrhByDate.fallback_date_parser (R := Concrete.runtime)
                 (mkdate 2024 5 10) (str "semana pasada")
               = Ok (range (isoformat (mkdate 2024 4 29))
                           (isoformat (mkdate 2024 5 5))))
    by (cbv -[single range]; reflexivity).
  assert (E2 : SearchByDate.fallback_date_parser (R := Concrete.runtime)
                 (mkdate 2024 5 10) (str "semana pasada")
               = Ok (range (isoformat (mkdate 2024 4 29))
                           (isoformat (mkdate 2024 5 5))))
    by (cbv -[single range]; reflexivity).
  assert (No : ~ sunday_to_saturday
                   (Ok (range (isoformat (mkdate 2024 4 29))
                              (isoformat (mkdate 2024 5 5))))).
  { intros (s & e & Hs & He & Heq & Hsun & Hsat).
    apply Ok_inj, range_inj in Heq. destruct Heq as [Es _].
    apply isoformat_inj in Es; [|reflexivity|assumption].
    subst s. vm_compute in Hsun. discriminate. }
  split; [exact E1|]. split; [exact E2|].
  split; [reflexivity|]. split; [reflexivity|].
  split; [rewrite E1; exact No | rewrite E2; exact No].
Qed.

(** ** Today (C2) *)

(** C2, as amended.  For a query whose lowered text holds "hoy" and none of
    the phrases tested before it (the month phrases, the week phrases and
    "ayer" in [seacrh_by_date]; the week phrases and "ayer" in
    [search_by_date]), the fallback parser returns the single date
    {date: today}. *)
Theorem hoy_is_today (R : PyRuntime) (today : date) (user_query : pystr) :
  (str_in MES_PASADO (py_strip (py_lower user_query)) = false ->
   str_in ULTIMO_MES (py_strip (py_lower user_query)) = false ->
   str_in SEMANA_PASADA (py_strip (py_lower user_query)) = false ->
   str_in ULTIMA_SEMANA (py_strip (py_lower user_query)) = false ->
   str_in AYER (py_strip (py_lower user_query)) = false ->
   str_in HOY (py_strip (py_lower user_query)) = true ->
   SeacrhByDate.fallback_date_parser today user_query
   = Ok (single (isoformat today)))
  /\ (str_in ULTIMA_SEMANA (py_lower user_query) = false ->
      str_in SEMANA_PASADA (py_lower user_query) = false ->
      str_in AYER (py_lower user_query) = false ->
      str_in HOY (py_lower user_query) = true ->
      SearchByDate.fallback_date_parser today user_query
      = Ok (single (isoformat today))).
Proof.
  split.
  - intros H1 H2 H3 H4 H5 H6. unfold SeacrhByDate.fallback_date_parser.
    cbv zeta. rewrite H1, H2, H3, H4, H5, H6. reflexivity.
  - intros H1 H2 H3 H4. unfold SearchByDate.fallback_date_parser.
    cbv zeta. rewrite H1, H2, H3, H4. reflexivity.
Qed.

(** "Documentos de HOY" on 10 May 2024, in both packages. *)
Lemma hoy_is_today_witness :
  SeacrhByDate.fallback_date_parser (R := Concrete.runtime)
    (mkdate 2024 5 10) (str "Documentos de HOY")
  = Ok (single (isoformat (mkdate 2024 5 10)))
  /\ SearchByDate.fallback_date_parser (R := Concrete.runtime)
       (mkdate 2024 5 10) (str "Documentos de HOY")
     = Ok (single (isoformat (mkdate 2024 5 10))).
Proof.
  destruct (hoy_is_today Concrete.runtime (mkdate 2024 5 10)
              (str "Documentos de HOY")) as [H1 H2].
  split; [apply H1 | apply H2]; reflexivity.
Defined.

(** C2 as stated fails: "ayer y hoy" holds "hoy", and on 10 May 2024 both
    parsers answer with 9 May, because "ayer" is tested first. *)
Lemma hoy_after_ayer_is_yesterday :
  str_in HOY (str "ayer y hoy") = true
  /\ SeacrhByDate.fallback_date_parser (R := Concrete.runtime)
       (mkdate 2024 5 10) (str "ayer y hoy")
     = Ok (single (isoformat (mkdate 2024 5 9)))
  /\ SearchByDate.fallback_date_parser (R := Concrete.runtime)
       (mkdate 2024 5 10) (str "ayer y hoy")
     = Ok (single (isoformat (mkdate 2024 5 9)))
  /\ SeacrhByDate.fallback_date_parser (R := Concrete.runtime)
       (mkdate 2024 5 10) (str "ayer y hoy")
     <> Ok (single (isoformat (mkdate 2024 5 10)))
  /\ SearchByDate.fallback_date_parser (R := Concrete.runtime)
       (mkdate 2024 5 10) (str "ayer y hoy")
     <> Ok (single (isoformat (mkdate 2024 5 10))).
Proof.
  assert (E1 : SeacrhByDate.fallback_date_parser (R := Concrete.runtime)
                 (mkdate 2024 5 10) (str "ayer y hoy")
               = Ok (single (isoformat (mkdate 2024 5 9))))
    by (cbv -[single range]; reflexivity).
  assert (E2 : SearchByDate.fallback_date_parser (R := Concrete.runtime)
                 (mkdate 2024 5 10) (str "ayer y hoy")
               = Ok (single (isoformat (mkdate 2024 5 9))))
    by (cbv -[single range]; reflexivity).
  assert (Ne : Ok (single (isoformat (mkdate 2024 5 9)))
               <> Ok (single (isoformat (mkdate 2024 5 10)))).
  { intros H. apply Ok_inj, single_inj in H. vm_compute in H. discriminate. }
  split; [reflexivity|]. split; [exact E1|]. split; [exact E2|].
  split; [rewrite E1; exact Ne | rewrite E2; exact Ne].
Qed.

(** ** The filter builder (C4, C5, C10) *)

Section FilterBuilder.
Context {R : PyRuntime}.

Lemma build_filter_single (date_data : dict) (s : pystr) (dt : datetime) :
  date_data !! str "date" = Some (JString s) ->
  parse_date s = Ok dt ->
  build_filter_expression date_data
  = Ok (FIELD ++ str " eq " ++ isoformat (dt_date dt) ++ str "T00:00:00Z").
Proof.
  intros Hd Hp. unfold build_filter_expression. rewrite Hd.
  cbn [normalize_date]. rewrite Hp. reflexivity.
Qed.

Lemma build_filter_range (date_data : dict) (s e : pystr) (ds de : datetime) :
  date_data !! str "date" = None ->
  date_data !! str "start" = Some (JString s) ->
  date_data !! str "end" = Some (JString e) ->
  parse_date s = Ok ds -> parse_date e = Ok de ->
  build_filter_expression date_data
  = Ok (str "(" ++ FIELD ++ str " ge " ++ isoformat (dt_date ds)
        ++ str "T00:00:00Z and " ++ FIELD ++ str " le "
        ++ isoformat (dt_date de) ++ str "T23:59:59Z)").
Proof.
  intros Hd Hs He Hps Hpe. unfold build_filter_expression.
  rewrite Hd, Hs, He. cbn [normalize_date]. rewrite Hps. cbn [bind].
  rewrite Hpe. reflexivity.
Qed.

Lemma build_filter_single_iso (d : date) :
  parses_iso_dates R -> is_date d = true ->
  build_filter_expression (single (isoformat d))
  = Ok (FIELD ++ str " eq " ++ isoformat d ++ str "T00:00:00Z").
Proof.
  intros Hiso Hd. destruct (Hiso d Hd) as (dt & Hp & Hdt).
  rewrite (build_filter_single _ _ dt (single_date _) Hp), Hdt. reflexivity.
Qed.

Lemma build_filter_range_iso (s e : date) :
  parses_iso_dates R -> is_date s = true -> is_date e = true ->
  build_filter_expression (range (isoformat s) (isoformat e))
  = Ok (str "(" ++ FIELD ++ str " ge " ++ isoformat s
        ++ str "T00:00:00Z and " ++ FIELD ++ str " le "
        ++ isoformat e ++ str "T23:59:59Z)").
Proof.
  intros Hiso Hs He.
  destruct (Hiso s Hs) as (ds & Hps & Hds).
  destruct (Hiso e He) as (de & Hpe & Hde).
  rewrite (build_filter_range _ _ _ ds de (range_date _ _) (range_start _ _)
             (range_end _ _) Hps Hpe), Hds, Hde.
  reflexivity.
Qed.

Lemma build_filter_empty (date_data : dict) :
  date_data !! str "date" = None ->
  date_data !! str "start" = None \/ date_data !! str "end" = None ->
  build_filter_expression date_data = Ok [].
Proof.
  intros Hd Hse. unfold build_filter_expression. rewrite Hd.
  destruct Hse as [-> | ->]; [reflexivity|].
  destruct (date_data !! str "start"); reflexivity.
Qed.

End FilterBuilder.

Lemma concrete_parses_iso_dates : parses_iso_dates Concrete.runtime.
Proof.
  intros d Hd. exists (midnight d). split; [|reflexivity].
  apply iso_parse_isoformat, Hd.
Qed.

(** C4.  [build_filter_expression] turns a dict with a "date" string into
    the field, " eq ", the date re-parsed and printed in ISO form, and
    "T00:00:00Z"; a dict with "start" and "end" strings and no "date" into
    the parenthesised "ge ... T00:00:00Z and ... le ... T23:59:59Z" form.
    When the parser reads ISO dates back, the embedded dates are the ones
    given, and the two examples of the specification come out as written. *)
Theorem build_filter_expression_shapes (R : PyRuntime) :
  parses_iso_dates R ->
  (forall (date_data : dict) s dt,
      date_data !! str "date" = Some (JString s) ->
      parse_date s = Ok dt ->
      build_filter_expression date_data
      = Ok (str "metadata_spo_item_release_date eq "
            ++ isoformat (dt_date dt) ++ str "T00:00:00Z"))
  /\ (forall (date_data : dict) s e ds de,
        date_data !! str "date" = None ->
        date_data !! str "start" = Some (JString s) ->
        date_data !! str "end" = Some (JString e) ->
        parse_date s = Ok ds -> parse_date e = Ok de ->
        build_filter_expression date_data
        = Ok (str "(metadata_spo_item_release_date ge "
              ++ isoformat (dt_date ds)
              ++ str "T00:00:00Z and metadata_spo_item_release_date le "
              ++ isoformat (dt_date de) ++ str "T23:59:59Z)"))
  /\ (forall d, is_date d = true ->
        build_filter_expression (single (isoformat d))
        = Ok (str "metadata_spo_item_release_date eq "
              ++ isoformat d ++ str "T00:00:00Z"))
  /\ (forall s e, is_date s = true -> is_date e = true ->
        build_filter_expression (range (isoformat s) (isoformat e))
        = Ok (str "(metadata_spo_item_release_date ge " ++ isoformat s
              ++ str "T00:00:00Z and metadata_spo_item_release_date le "
              ++ isoformat e ++ str "T23:59:59Z)"))
  /\ build_filter_expression (single (str "2024-04-29"))
     = Ok (str "metadata_spo_item_release_date eq 2024-04-29T00:00:00Z")
  /\ build_filter_expression (range (str "2024-04-01") (str "2024-04-30"))
     = Ok (str "(metadata_spo_item_release_date ge 2024-04-01T00:00:00Z and metadata_spo_item_release_date le 2024-04-30T23:59:59Z)").
Proof.
  intros Hiso. repeat apply conj.
  - intros date_data s dt Hd Hp.
    rewrite (build_filter_single date_data s dt Hd Hp). reflexivity.
  - intros date_data s e ds de Hd Hs He Hps Hpe.
    rewrite (build_filter_range date_data s e ds de Hd Hs He Hps Hpe).
    reflexivity.
  - intros d Hd. rewrite (build_filter_single_iso d Hiso Hd). reflexivity.
  - intros s e Hs He. rewrite (build_filter_range_iso s e Hiso Hs He).
    reflexivity.
  - change (str "2024-04-29") with (isoformat (mkdate 2024 4 29)).
    rewrite (build_filter_single_iso _ Hiso) by reflexivity. reflexivity.
  - change (str "2024-04-01") with (isoformat (mkdate 2024 4 1)).
    change (str "2024-04-30") with (isoformat (mkdate 2024 4 30)).
    rewrite (build_filter_range_iso _ _ Hiso) by reflexivity. reflexivity.
Qed.

(** The two examples of the specification, with the strict ISO reader. *)
Lemma build_filter_expression_shapes_witness :
  build_filter_expression (R := Concrete.runtime) (single (str "2024-04-29"))
  = Ok (str "metadata_spo_item_release_date eq 2024-04-29T00:00:00Z")
  /\ build_filter_expression (R := Concrete.runtime)
       (range (str "2024-04-01") (str "2024-04-30"))
     = Ok (str "(metadata_spo_item_release_date ge 2024-04-01T00:00:00Z and metadata_spo_item_release_date le 2024-04-30T23:59:59Z)").
Proof.
  pose proof (build_filter_expression_shapes Concrete.runtime
                concrete_parses_iso_dates) as H.
  split; apply H.
Defined.

(** ** Requests without a usable filter (C5, C10) *)

Section EmptyFilter.
Context {R : PyRuntime} {W : World}.

Lemma seacrh_agent_calls (user_query : pystr) :
  forallb (fun c => negb (downstream c))
    (snd (SeacrhByDate.call_date_parser_agent user_query)) = true.
Proof.
  unfold SeacrhByDate.call_date_parser_agent.
  destruct project; reflexivity.
Qed.

Lemma seacrh_parse_dates_calls (user_query : pystr) :
  forallb (fun c => negb (downstream c))
    (snd (SeacrhByDate.parse_dates user_query)) = true.
Proof.
  pose proof (seacrh_agent_calls user_query) as H.
  unfold SeacrhByDate.parse_dates, try_except, lift.
  destruct (SeacrhByDate.call_date_parser_agent user_query) as [[d | e] calls];
    cbn [snd] in *; [assumption|].
  rewrite forallb_app, H. reflexivity.
Qed.

Lemma search_agent_calls (user_query : pystr) :
  forallb (fun c => negb (downstream c))
    (snd (SearchByDate.call_date_parser_agent user_query)) = true.
Proof.
  unfold SearchByDate.call_date_parser_agent.
  destruct project; reflexivity.
Qed.

Lemma search_parse_dates_calls (user_query : pystr) :
  forallb (fun c => negb (downstream c))
    (snd (SearchByDate.parse_dates user_query)) = true.
Proof.
  pose proof (search_agent_calls user_query) as H.
  unfold SearchByDate.parse_dates, try_except, lift.
  destruct (SearchByDate.call_date_parser_agent user_query) as [[d | e] calls];
    cbn [snd] in *; [assumption|].
  rewrite forallb_app, H. reflexivity.
Qed.

(** [seacrh_by_date.main] answers 400 when the filter built from the
    resolved dates is empty, and has not called the search index. *)
Lemma seacrh_main_empty_filter (user_query : pystr) (parsed : dict)
    (calls : list call) :
  SeacrhByDate.parse_dates user_query = (Ok parsed, calls) ->
  build_filter_expression parsed = Ok [] ->
  rejected_without_search (SeacrhByDate.main (Some user_query)).
Proof.
  intros Hp Hf. pose proof (seacrh_parse_dates_calls user_query) as Hc.
  rewrite Hp in Hc. cbn [snd] in Hc.
  unfold rejected_without_search, SeacrhByDate.main, SeacrhByDate.main_steps.
  destruct user_query as [|c rest]; [split; reflexivity|].
  rewrite Hp. unfold io_bind, lift, ret. rewrite Hf.
  cbn [fst snd SeacrhByDate.no_date_response status_code].
  rewrite !app_nil_r. split; [reflexivity | exact Hc].
Qed.

(** The same for [search_by_date.main] and the completion endpoint. *)
Lemma search_main_empty_filter (raw_query : pystr) (parsed : dict)
    (calls : list call) :
  SearchByDate.parse_dates (html_unescape raw_query) = (Ok parsed, calls) ->
  build_filter_expression parsed = Ok [] ->
  rejected_without_search (SearchByDate.main (Some raw_query)).
Proof.
  intros Hp Hf.
  pose proof (search_parse_dates_calls (html_unescape raw_query)) as Hc.
  rewrite Hp in Hc. cbn [snd] in Hc.
  unfold rejected_without_search, SearchByDate.main, SearchByDate.main_steps.
  destruct raw_query as [|c rest]; [split; reflexivity|].
  cbv zeta. rewrite Hp. unfold io_bind, lift, ret. rewrite Hf.
  cbn [fst snd status_code].
  rewrite !app_nil_r. split; [reflexivity | exact Hc].
Qed.

(** What [parse_dates] returns when the agent answers with a dict. *)
Lemma seacrh_parse_dates_agent (user_query : pystr) (history : list message)
    (d : dict) :
  project = true ->
  agent_service user_query = RunCompleted history ->
  SeacrhByDate.response_to_dict history = Ok d ->
  SeacrhByDate.parse_dates user_query = (Ok d, [AgentCall user_query]).
Proof.
  intros Hp Ha Hr.
  unfold SeacrhByDate.parse_dates, SeacrhByDate.call_date_parser_agent.
  rewrite Hp, Ha, Hr. reflexivity.
Qed.

Lemma search_parse_dates_agent (user_query : pystr) (history : list message)
    (d : dict) :
  project = true ->
  agent_service user_query = RunCompleted history ->
  SearchByDate.response_to_dict history = Ok d ->
  SearchByDate.parse_dates user_query = (Ok d, [AgentCall user_query]).
Proof.
  intros Hp Ha Hr.
  unfold SearchByDate.parse_dates, SearchByDate.call_date_parser_agent.
  rewrite Hp, Ha, Hr. reflexivity.
Qed.

End EmptyFilter.

(** C5.  [build_filter_expression] returns the empty string for a dict
    with no "date" and without "start" or without "end", the empty dict
    among them; and whenever the filter built from the resolved dates is
    empty, [main] of either package answers 400 and makes no call to the
    search index or the completion endpoint. *)
Theorem empty_filter_is_rejected (R : PyRuntime) (W : World) :
  (forall date_data : dict,
      date_data !! str "date" = None ->
      date_data !! str "start" = None \/ date_data !! str "end" = None ->
      build_filter_expression date_data = Ok [])
  /\ build_filter_expression ∅ = Ok []
  /\ (forall user_query parsed calls,
        SeacrhByDate.parse_dates user_query = (Ok parsed, calls) ->
        build_filter_expression parsed = Ok [] ->
        rejected_without_search (SeacrhByDate.main (Some user_query)))
  /\ (forall raw_query parsed calls,
        SearchByDate.parse_dates (html_unescape raw_query)
        = (Ok parsed, calls) ->
        build_filter_expression parsed = Ok [] ->
        rejected_without_search (SearchByDate.main (Some raw_query))).
Proof.
  split; [apply @build_filter_empty|].
  split; [apply build_filter_empty; [|left]; apply lookup_empty|].
  split; [apply @seacrh_main_empty_filter | apply @search_main_empty_filter].
Qed.

(** An agent that answers with the empty object: both handlers reply 400
    after the agent call alone. *)
Lemma empty_filter_is_rejected_witness :
  let W := Concrete.answering (mkdate 2024 5 10)
             [Concrete.assistant (str "{}")] in
  SeacrhByDate.main (R := Concrete.runtime) (Some (str "abril"))
  = (SeacrhByDate.no_date_response, [AgentCall (str "abril")])
  /\ rejected_without_search
       (SeacrhByDate.main (R := Concrete.runtime) (Some (str "abril")))
  /\ rejected_without_search
       (SearchByDate.main (R := Concrete.runtime) (Some (str "abril"))).
Proof.
  intros W.
  destruct (empty_filter_is_rejected Concrete.runtime W)
    as (_ & He & H1 & H2).
  split; [|split].
  - unfold SeacrhByDate.main, SeacrhByDate.main_steps.
    change (SeacrhByDate.parse_dates (str "abril"))
      with (Ok (∅ : dict), [AgentCall (str "abril")]).
    unfold io_bind, lift, ret. rewrite He. reflexivity.
  - apply (H1 (str "abril") ∅ [AgentCall (str "abril")]);
      [reflexivity | exact He].
  - apply (H2 (str "abril") ∅ [AgentCall (str "abril")]);
      [reflexivity | exact He].
Defined.

(** C10.  A dict with "start" but no "end", or "end" but no "start", and
    no "date", gives the empty filter; so when the agent replies with such
    a dict, [main] of either package answers 400 and calls neither the
    search index nor the completion endpoint. *)
Theorem partial_range_is_rejected (R : PyRuntime) (W : World)
    (date_data : dict) :
  date_data !! str "date" = None ->
  (is_Some (date_data !! str "start") /\ date_data !! str "end" = None)
  \/ (date_data !! str "start" = None /\ is_Some (date_data !! str "end")) ->
  build_filter_expression date_data = Ok []
  /\ (forall user_query history,
        project = true ->
        agent_service user_query = RunCompleted history ->
        SeacrhByDate.response_to_dict history = Ok date_data ->
        rejected_without_search (SeacrhByDate.main (Some user_query)))
  /\ (forall raw_query history,
        project = true ->
        agent_service (html_unescape raw_query) = RunCompleted history ->
        SearchByDate.response_to_dict history = Ok date_data ->
        rejected_without_search (SearchByDate.main (Some raw_query))).
Proof.
  intros Hd Hpartial.
  assert (He : build_filter_expression date_data = Ok []).
  { apply build_filter_empty; [exact Hd|].
    destruct Hpartial as [[_ H] | [H _]]; [right | left]; exact H. }
  split; [exact He|]. split.
  - intros user_query history Hp Ha Hr.
    eapply seacrh_main_empty_filter; [|exact He].
    apply (seacrh_parse_dates_agent user_query history date_data Hp Ha Hr).
  - intros raw_query history Hp Ha Hr.
    eapply search_main_empty_filter; [|exact He].
    apply (search_parse_dates_agent _ history date_data Hp Ha Hr).
Qed.

(** An agent that replies with a "start" bound only. *)
Lemma partial_range_is_rejected_witness :
  let reply := str "{" ++ quoted (str "start") ++ str ": "
               ++ quoted (str "2024-04-01") ++ str "}" in
  let W := Concrete.answering (mkdate 2024 5 10) [Concrete.assistant reply] in
  let date_data : dict := {[ str "start" := JString (str "2024-04-01") ]} in
  build_filter_expression (R := Concrete.runtime) date_data = Ok []
  /\ rejected_without_search
       (SeacrhByDate.main (R := Concrete.runtime) (Some (str "desde abril")))
  /\ rejected_without_search
       (SearchByDate.main (R := Concrete.runtime) (Some (str "desde abril"))).
Proof.
  intros reply W date_data.
  destruct (partial_range_is_rejected Concrete.runtime W date_data)
    as (He & H1 & H2).
  - apply lookup_singleton_ne. vm_compute. discriminate.
  - left. split.
    + exists (JString (str "2024-04-01")). apply lookup_singleton_eq.
    + apply lookup_singleton_ne. vm_compute. discriminate.
  - split; [exact He|]. split.
    + apply (H1 (str "desde abril") [Concrete.assistant reply]);
        reflexivity.
    + apply (H2 (str "desde abril") [Concrete.assistant reply]);
        reflexivity.
Defined.

(** ** The resolver never raises (C8) *)

Section Resolver.
Context {R : PyRuntime}.

Lemma single_is_date_query (d : pystr) : is_date_query (single d).
Proof. left. rewrite single_date. eexists. reflexivity. Qed.

Lemma range_is_date_query (s e : pystr) : is_date_query (range s e).
Proof.
  right. rewrite range_start, range_end. split; eexists; reflexivity.
Qed.

(** From 1 February of year 1 on, the fallback parser of
    [seacrh_by_date] returns a DateQuery for every query. *)
Lemma seacrh_fallback_total (today : date) (user_query : pystr) :
  is_date today = true -> 32 <= toordinal today ->
  exists d, SeacrhByDate.fallback_date_parser today user_query = Ok d
            /\ is_date_query d.
Proof.
  intros Hd Ho.
  destruct (last_month_range_ok today Hd Ho) as (f & l & Hlm & _ & _).
  destruct (str_in MES_PASADO (py_strip (py_lower user_query))) eqn:Hm1;
    [|destruct (str_in ULTIMO_MES (py_strip (py_lower user_query))) eqn:Hm2].
  1, 2: unfold SeacrhByDate.fallback_date_parser; cbv zeta;
        rewrite Hm1, ?Hm2; cbn [orb]; rewrite Hlm; eexists;
        split; [reflexivity | apply range_is_date_query].
  destruct (str_in SEMANA_PASADA (py_strip (py_lower user_query))
            || str_in ULTIMA_SEMANA (py_strip (py_lower user_query))) eqn:Hw.
  { apply orb_prop in Hw.
    destruct (seacrh_last_week today user_query Hd ltac:(lia) Hm1 Hm2 Hw)
      as (s & e & Hse & _).
    rewrite Hse. eexists. split; [reflexivity | apply range_is_date_query]. }
  unfold SeacrhByDate.fallback_date_parser. cbv zeta.
  rewrite Hm1, Hm2, Hw. cbn [orb].
  destruct (str_in AYER (py_strip (py_lower user_query))).
  { pose proof (toordinal_range today Hd).
    destruct (sub_days_ok today 1 Hd) as (y & Hy & _); [lia|].
    rewrite Hy. eexists. split; [reflexivity | apply single_is_date_query]. }
  destruct (str_in HOY (py_strip (py_lower user_query))).
  { eexists. split; [reflexivity | apply single_is_date_query]. }
  destruct (search_year (py_strip (py_lower user_query))).
  - eexists. split; [reflexivity | apply range_is_date_query].
  - rewrite Hlm. eexists. split; [reflexivity | apply range_is_date_query].
Qed.

End Resolver.

(** C8.  With the clock on a date from 1 February of year 1 on, step 1 of
    [seacrh_by_date.main] never raises: it returns a dict for every query;
    when the agent path raises, whatever the exception, the dict is the one
    the fallback parser returns; and the fallback parser returns a
    DateQuery (a dict with "date", or with "start" and "end") for every
    query. *)
Theorem date_resolution_never_raises (R : PyRuntime) (W : World)
    (user_query : pystr) :
  is_date now_local = true -> 32 <= toordinal now_local ->
  (exists d, fst (SeacrhByDate.parse_dates user_query) = Ok d)
  /\ (forall e calls,
        SeacrhByDate.call_date_parser_agent user_query = (Raise e, calls) ->
        fst (SeacrhByDate.parse_dates user_query)
        = SeacrhByDate.fallback_date_parser now_local user_query)
  /\ (forall q,
        exists d, SeacrhByDate.fallback_date_parser now_local q = Ok d
                  /\ is_date_query d).
Proof.
  intros Hd Ho.
  assert (Htotal : forall q,
             exists d, SeacrhByDate.fallback_date_parser now_local q = Ok d
                       /\ is_date_query d)
    by (intros q; apply seacrh_fallback_total; assumption).
  assert (Hrecover : forall e calls,
             SeacrhByDate.call_date_parser_agent user_query = (Raise e, calls) ->
             fst (SeacrhByDate.parse_dates user_query)
             = SeacrhByDate.fallback_date_parser now_local user_query).
  { intros e calls He. unfold SeacrhByDate.parse_dates, try_except, lift.
    rewrite He. reflexivity. }
  split; [|split; assumption].
  destruct (SeacrhByDate.call_date_parser_agent user_query)
    as [[d | e] calls] eqn:Ha.
  - exists d. unfold SeacrhByDate.parse_dates, try_except. rewrite Ha.
    reflexivity.
  - destruct (Htotal user_query) as (d & Hf & _). exists d.
    rewrite (Hrecover e calls eq_refl). exact Hf.
Qed.

(** With no agent client, on 10 May 2024, "reportes" resolves to April. *)
Lemma date_resolution_never_raises_witness :
  let W := Concrete.offline (mkdate 2024 5 10) in
  (exists d, fst (SeacrhByDate.parse_dates (R := Concrete.runtime)
                    (str "reportes")) = Ok d)
  /\ fst (SeacrhByDate.parse_dates (R := Concrete.runtime) (str "reportes"))
     = SeacrhByDate.fallback_date_parser (R := Concrete.runtime)
         (mkdate 2024 5 10) (str "reportes")
  /\ SeacrhByDate.fallback_date_parser (R := Concrete.runtime)
       (mkdate 2024 5 10) (str "reportes")
     = Ok (range (str "2024-04-01") (str "2024-04-30")).
Proof.
  intros W.
  destruct (date_resolution_never_raises Concrete.runtime W (str "reportes"))
    as (H1 & H2 & _).
  - reflexivity.
  - vm_compute. discriminate.
  - split; [exact H1|]. split.
    + apply (H2 (ValueError ClientUnavailable) []). reflexivity.
    + cbv -[single range]. reflexivity.
Defined.

(** ** From the fallback parser through the filter and back (C9) *)

Section RoundTrip.
Context {R : PyRuntime}.

Lemma isoformat_length (d : date) :
  is_date d = true -> length (isoformat d) = 10%nat.
Proof.
  intros Hd. pose proof (day_le_31 d Hd).
  unfold is_date in Hd. repeat (apply andb_prop in Hd; destruct Hd as [Hd ?]).
  unfold isoformat. rewrite zero_padded_4, !zero_padded_2 by lia. reflexivity.
Qed.

Lemma startswith_app (p rest : pystr) : startswith (p ++ rest) p = true.
Proof.
  induction p as [|c p IH]; [reflexivity|].
  cbn [app startswith]. rewrite Z.eqb_refl, IH. reflexivity.
Qed.

Lemma take_whole (n : nat) (v k : pystr) :
  length v = n -> take n (v ++ k) = v.
Proof. intros <-. apply take_app_length. Qed.

Lemma drop_whole (n : nat) (v k : pystr) :
  length v = n -> drop n (v ++ k) = k.
Proof. intros <-. apply drop_app_length. Qed.

Lemma embedded_single (v : pystr) :
  length v = 10%nat ->
  embedded_dates (FIELD ++ str " eq " ++ v ++ str "T00:00:00Z") = [v].
Proof.
  intros Hv. unfold embedded_dates. cbv zeta.
  rewrite (app_assoc FIELD), startswith_app, drop_app_length.
  rewrite (take_whole 10 v) by exact Hv. reflexivity.
Qed.

Lemma embedded_range (s e : pystr) :
  length s = 10%nat -> length e = 10%nat ->
  embedded_dates (str "(" ++ FIELD ++ str " ge " ++ s ++ str "T00:00:00Z and "
                  ++ FIELD ++ str " le " ++ e ++ str "T23:59:59Z)") = [s; e].
Proof.
  intros Hs He. unfold embedded_dates. cbv zeta.
  set (ge_prefix := str "(" ++ FIELD ++ str " ge ").
  set (le_prefix := str "T00:00:00Z and " ++ FIELD ++ str " le ").
  replace (str "(" ++ FIELD ++ str " ge " ++ s ++ str "T00:00:00Z and "
           ++ FIELD ++ str " le " ++ e ++ str "T23:59:59Z)")
    with (ge_prefix ++ s ++ le_prefix ++ e ++ str "T23:59:59Z)")
    by (unfold ge_prefix, le_prefix; rewrite <- !app_assoc; reflexivity).
  replace (startswith _ (FIELD ++ str " eq ")) with false by reflexivity.
  rewrite startswith_app, drop_app_length.
  rewrite (take_whole 10 s) by exact Hs.
  rewrite <- drop_drop, (drop_whole 10 s) by exact Hs.
  rewrite drop_app_length, (take_whole 10 e) by exact He.
  reflexivity.
Qed.

Lemma date_values_single (v : pystr) : date_values (single v) = [v].
Proof. unfold date_values. rewrite single_date. reflexivity. Qed.

Lemma date_values_range (s e : pystr) : date_values (range s e) = [s; e].
Proof.
  unfold date_values. rewrite range_date, range_start, range_end.
  reflexivity.
Qed.

Lemma iso_reads_back (d : date) :
  parses_iso_dates R -> is_date d = true -> reads_back R (isoformat d).
Proof.
  intros Hiso Hd. destruct (Hiso d Hd) as (dt & Hp & Hdt).
  exists dt. split; [exact Hp | now rewrite Hdt].
Qed.

(** The round trip of a single date and of a range of real dates. *)
Lemma round_trip_single (a : date) :
  parses_iso_dates R -> is_date a = true ->
  exists filter,
    build_filter_expression (single (isoformat a)) = Ok filter
    /\ embedded_dates filter = date_values (single (isoformat a))
    /\ Forall (reads_back R) (date_values (single (isoformat a))).
Proof.
  intros Hiso Ha. eexists. split; [apply build_filter_single_iso; assumption|].
  rewrite date_values_single. split.
  - apply embedded_single, isoformat_length, Ha.
  - repeat constructor. apply iso_reads_back; assumption.
Qed.

Lemma round_trip_range (a b : date) :
  parses_iso_dates R -> is_date a = true -> is_date b = true ->
  exists filter,
    build_filter_expression (range (isoformat a) (isoformat b)) = Ok filter
    /\ embedded_dates filter = date_values (range (isoformat a) (isoformat b))
    /\ Forall (reads_back R) (date_values (range (isoformat a) (isoformat b))).
Proof.
  intros Hiso Ha Hb. eexists.
  split; [apply build_filter_range_iso; assumption|].
  rewrite date_values_range. split.
  - apply embedded_range; apply isoformat_length; assumption.
  - repeat constructor; apply iso_reads_back; assumption.
Qed.

(** What the year expression matches: "20" and two decimal digits. *)
Lemma search_year_from_shape (s : pystr) : forall prev g,
  search_year_from prev s = Some g ->
  exists c3 c4, g = [50; 48; c3; c4]
                /\ uni_isdecimal c3 = true /\ uni_isdecimal c4 = true.
Proof.
  induction s as [|c s IH]; intros prev g H.
  - discriminate H.
  - cbn [search_year_from] in H.
    destruct (match_year_here prev (c :: s)) as [g'|] eqn:Hm.
    + injection H as <-. unfold match_year_here in Hm.
      destruct s as [|c2 [|c3 [|c4 rest]]]; try discriminate Hm.
      destruct (_ && _) eqn:Hc in Hm; [|discriminate Hm].
      injection Hm as <-.
      repeat (apply andb_prop in Hc; destruct Hc as [Hc ?]).
      exists c3, c4.
      repeat match goal with
             | H : (_ =? _) = true |- _ => apply Z.eqb_eq in H; subst
             end.
      repeat split; assumption.
    + eapply IH. exact H.
Qed.

Lemma year_of_match (g : pystr) (c3 c4 : Z) :
  decimal_digits_ok R -> g = [50; 48; c3; c4] ->
  uni_isdecimal c3 = true -> uni_isdecimal c4 = true ->
  2000 <= py_int g <= 2099.
Proof.
  intros (H2 & H0 & _ & Hdec) -> H3 H4. unfold py_int. cbn [fold_left].
  destruct (Hdec c3 H3) as [? _]. destruct (Hdec c4 H4) as [? _].
  rewrite H2, H0. lia.
Qed.

Lemma year_range_dates (y : Z) :
  2000 <= y <= 2099 ->
  str_of_int y ++ str "-01-01" = isoformat (mkdate y 1 1)
  /\ str_of_int y ++ str "-12-31" = isoformat (mkdate y 12 31)
  /\ is_date (mkdate y 1 1) = true /\ is_date (mkdate y 12 31) = true.
Proof.
  intros Hy. rewrite str_of_int_year by lia.
  split; [reflexivity|]. split; [reflexivity|].
  unfold is_date, days_in_month. cbn [year month day].
  change (1 =? 2) with false. change (12 =? 2) with false. cbn [andb].
  eval_closed table.
  split; repeat (apply andb_true_intro; split); lia.
Qed.

End RoundTrip.

Section FallbackDates.
Context {R : PyRuntime}.

(** Every answer of the [seacrh_by_date] fallback parser prints one real
    date, or two. *)
Lemma seacrh_fallback_dates (today : date) (user_query : pystr) :
  decimal_digits_ok R -> is_date today = true -> 32 <= toordinal today ->
  exists d,
    SeacrhByDate.fallback_date_parser today user_query = Ok d
    /\ ((exists a, is_date a = true /\ d = single (isoformat a))
        \/ (exists a b, is_date a = true /\ is_date b = true
                        /\ d = range (isoformat a) (isoformat b))).
Proof.
  intros Hdig Hd Ho.
  destruct (last_month_range_ok today Hd Ho) as (f & l & Hlm & Hf & Hl).
  destruct (str_in MES_PASADO (py_strip (py_lower user_query))) eqn:Hm1;
    [|destruct (str_in ULTIMO_MES (py_strip (py_lower user_query))) eqn:Hm2].
  1, 2: unfold SeacrhByDate.fallback_date_parser; cbv zeta;
        rewrite Hm1, ?Hm2; cbn [orb]; rewrite Hlm; eexists;
        split; [reflexivity | right; exists f, l; auto].
  destruct (str_in SEMANA_PASADA (py_strip (py_lower user_query))
            || str_in ULTIMA_SEMANA (py_strip (py_lower user_query))) eqn:Hw.
  { apply orb_prop in Hw.
    destruct (seacrh_last_week today user_query Hd ltac:(lia) Hm1 Hm2 Hw)
      as (s & e & Hse & (Hs & He & _) & _).
    rewrite Hse. eexists. split; [reflexivity | right; exists s, e; auto]. }
  unfold SeacrhByDate.fallback_date_parser. cbv zeta.
  rewrite Hm1, Hm2, Hw. cbn [orb].
  destruct (str_in AYER (py_strip (py_lower user_query))).
  { pose proof (toordinal_range today Hd).
    destruct (sub_days_ok today 1 Hd) as (y & Hy & Hvy & _); [lia|].
    rewrite Hy. eexists. split; [reflexivity | left; exists y; auto]. }
  destruct (str_in HOY (py_strip (py_lower user_query))).
  { eexists. split; [reflexivity | left; exists today; auto]. }
  destruct (search_year (py_strip (py_lower user_query))) as [g|] eqn:Hy.
  - destruct (search_year_from_shape _ _ _ Hy) as (c3 & c4 & Hg & H3 & H4).
    pose proof (year_of_match g c3 c4 Hdig Hg H3 H4) as Hrange.
    destruct (year_range_dates (py_int g) Hrange) as (E1 & E2 & V1 & V2).
    cbv zeta. rewrite E1, E2. eexists.
    split; [reflexivity | right; eexists; eexists; eauto].
  - rewrite Hlm. eexists. split; [reflexivity | right; exists f, l; auto].
Qed.

End FallbackDates.

Lemma concrete_decimal_digits_ok : decimal_digits_ok Concrete.runtime.
Proof.
  split; [reflexivity|]. split; [reflexivity|]. split; [reflexivity|].
  intros c Hc. cbn [uni_isdecimal uni_decimal_value uni_isword
                    Concrete.runtime] in *.
  unfold Concrete.isword. rewrite Hc. split; [|reflexivity].
  unfold Concrete.isdecimal, Concrete.decimal_value in *.
  apply andb_prop in Hc. lia.
Qed.

(** C9.  Whatever the query, the DateQuery of the [seacrh_by_date] fallback
    parser goes through [build_filter_expression] to a filter whose
    embedded ISO dates, read back, are the "date" (or the "start" and
    "end") of that DateQuery, each of which the date parser reads and
    [isoformat] prints unchanged. *)
Theorem fallback_filter_round_trip (R : PyRuntime) (today : date)
    (user_query : pystr) :
  parses_iso_dates R -> decimal_digits_ok R ->
  is_date today = true -> 32 <= toordinal today ->
  exists d filter,
    SeacrhByDate.fallback_date_parser today user_query = Ok d
    /\ build_filter_expression d = Ok filter
    /\ date_values d <> []
    /\ embedded_dates filter = date_values d
    /\ Forall (reads_back R) (date_values d).
Proof.
  intros Hiso Hdig Hd Ho.
  destruct (seacrh_fallback_dates today user_query Hdig Hd Ho)
    as (d & Hf & [(a & Ha & ->) | (a & b & Ha & Hb & ->)]).
  - destruct (round_trip_single a Hiso Ha) as (filter & Hb & He & Hr).
    exists (single (isoformat a)), filter.
    rewrite date_values_single in *. repeat split; auto; discriminate.
  - destruct (round_trip_range a b Hiso Ha Hb) as (filter & Hbf & He & Hr).
    exists (range (isoformat a) (isoformat b)), filter.
    rewrite date_values_range in *. repeat split; auto; discriminate.
Qed.

(** "informes de 2023" on 10 May 2024: the year 2023, through the filter
    and back. *)
Lemma fallback_filter_round_trip_witness :
  exists d filter,
    SeacrhByDate.fallback_date_parser (R := Concrete.runtime)
      (mkdate 2024 5 10) (str "informes de 2023") = Ok d
    /\ build_filter_expression (R := Concrete.runtime) d = Ok filter
    /\ date_values d <> []
    /\ embedded_dates filter = date_values d
    /\ Forall (reads_back Concrete.runtime) (date_values d).
Proof.
  apply (fallback_filter_round_trip Concrete.runtime (mkdate 2024 5 10)
           (str "informes de 2023")
           concrete_parses_iso_dates concrete_decimal_digits_ok).
  - reflexivity.
  - vm_compute. discriminate.
Defined.

(** ** A year in the query (C3) *)

Section YearToken.
Context {R : PyRuntime}.

Lemma prev_of_last (before : pystr) : forall prev,
  prev_of prev before
  = match last before with Some c => Some c | None => prev end.
Proof.
  induction before as [|c rest IH]; intros prev; [reflexivity|].
  cbn [prev_of]. rewrite IH, last_cons. destruct (last rest); reflexivity.
Qed.

(** The anchored expression matches exactly a word-bounded year token. *)
Lemma match_year_here_token (prev : option Z) (s g : pystr) :
  decimal_digits_ok R ->
  match_year_here prev s = Some g <->
  (exists c3 c4 after,
      s = [50; 48; c3; c4] ++ after /\ g = [50; 48; c3; c4]
      /\ uni_isdecimal c3 = true /\ uni_isdecimal c4 = true
      /\ word_before prev = false /\ word_at after = false).
Proof.
  intros (_ & _ & Hw2 & Hdec). unfold match_year_here. split.
  - destruct s as [|c1 [|c2 [|c3 [|c4 after]]]]; try discriminate.
    destruct (_ && _) eqn:Hc; [|discriminate].
    intros Hg. injection Hg as <-.
    repeat (apply andb_prop in Hc; destruct Hc as [Hc ?]).
    repeat match goal with
           | H : (_ =? _) = true |- _ => apply Z.eqb_eq in H; subst
           end.
    exists c3, c4, after.
    destruct (Hdec c4 ltac:(assumption)) as [_ Hw4].
    unfold word_boundary in *. cbn [word_before word_at] in *.
    rewrite Hw2 in Hc. rewrite Hw4 in *.
    destruct (word_before prev); [discriminate|].
    destruct (word_at after); [discriminate|].
    repeat split; assumption.
  - intros (c3 & c4 & after & -> & -> & H3 & H4 & Hb & Ha).
    cbn [app]. destruct (Hdec c4 H4) as [_ Hw4].
    unfold word_boundary. cbn [word_before word_at].
    rewrite Hb, Ha, Hw2, Hw4, H3, H4. reflexivity.
Qed.

(** The search returns the leftmost place where the anchored expression
    matches. *)
Lemma search_year_from_leftmost (s : pystr) : forall prev,
  (exists before rest g,
      s = before ++ rest /\ match_year_here (prev_of prev before) rest = Some g) ->
  exists before rest g,
    s = before ++ rest
    /\ match_year_here (prev_of prev before) rest = Some g
    /\ search_year_from prev s = Some g
    /\ (forall before' rest' g',
          s = before' ++ rest' ->
          match_year_here (prev_of prev before') rest' = Some g' ->
          (length before <= length before')%nat).
Proof.
  induction s as [|c s IH]; intros prev (before & rest & g & Hs & Hm).
  - destruct before; [|discriminate Hs]. destruct rest; [|discriminate Hs].
    discriminate Hm.
  - destruct (match_year_here prev (c :: s)) as [g0|] eqn:H0.
    + exists [], (c :: s), g0. cbn [prev_of app search_year_from length].
      rewrite H0. repeat split; try reflexivity. intros. lia.
    + destruct before as [|c' before].
      { cbn [app prev_of] in *. subst rest. congruence. }
      cbn [app] in Hs. injection Hs as <- Hs. cbn [prev_of] in Hm.
      destruct (IH (Some c) (ex_intro _ before (ex_intro _ rest
                  (ex_intro _ g (conj Hs Hm)))))
        as (b1 & r1 & g1 & Hs1 & Hm1 & Hf1 & Hmin).
      exists (c :: b1), r1, g1. cbn [app prev_of search_year_from length].
      rewrite H0, <- Hs1. repeat split; try assumption.
      intros before' rest' g' Hs' Hm'.
      destruct before' as [|c'' before'].
      { cbn [app prev_of] in *. subst rest'. congruence. }
      cbn [app] in Hs'. injection Hs' as <- Hs'. cbn [prev_of length] in *.
      pose proof (Hmin before' rest' g' Hs' Hm'). lia.
Qed.

(** With the digit tables as in [decimal_digits_ok]: when the text holds a
    year token, the search returns the leftmost one. *)
Lemma search_year_token (s : pystr) :
  decimal_digits_ok R ->
  (exists before tok after, year_token_at R s before tok after) ->
  exists before tok after,
    year_token_at R s before tok after
    /\ search_year s = Some tok
    /\ (forall before' tok' after',
          year_token_at R s before' tok' after' ->
          (length before <= length before')%nat).
Proof.
  intros Hdig (before & tok & after & Hs & (c3 & c4 & Ht & H3 & H4) & Hb & Ha).
  destruct (search_year_from_leftmost s None) as (b & r & g & Hs' & Hm & Hf & Hmin).
  { exists before, (tok ++ after), tok. split; [exact Hs|].
    apply match_year_here_token; [exact Hdig|].
    exists c3, c4, after. rewrite prev_of_last, Ht.
    destruct (last before); repeat split; assumption. }
  apply (match_year_here_token _ _ _ Hdig) in Hm.
  destruct Hm as (d3 & d4 & aft & Hr & Hg & Hd3 & Hd4 & Hpb & Hpa).
  exists b, g, aft. split; [|split; [exact Hf|]].
  - unfold year_token_at. rewrite Hs', Hr, Hg. split; [reflexivity|].
    split; [exists d3, d4; auto|]. split; [|exact Hpa].
    rewrite prev_of_last in Hpb. destruct (last b); assumption.
  - intros b' t' a' (Hs'' & (e3 & e4 & Ht' & He3 & He4) & Hb' & Ha').
    apply (Hmin b' (t' ++ a') t' Hs'').
    apply match_year_here_token; [exact Hdig|].
    exists e3, e4, a'. rewrite prev_of_last, Ht'.
    destruct (last b'); repeat split; assumption.
Qed.

End YearToken.

(** C3, as amended.  In [seacrh_by_date], for a query whose lowered and
    stripped text holds none of the phrases and a word-bounded token of
    "20" and two decimal digits, the fallback parser returns the range
    [Year-01-01, Year-12-31] for the leftmost such token, a year from 2000
    to 2099.  [search_by_date] has no year rule: a query with none of its
    phrases gets the range of last month, year token or not. *)
Theorem year_token_gives_year_range (R : PyRuntime) (today : date)
    (user_query : pystr) :
  decimal_digits_ok R ->
  (str_in MES_PASADO (py_strip (py_lower user_query)) = false ->
   str_in ULTIMO_MES (py_strip (py_lower user_query)) = false ->
   str_in SEMANA_PASADA (py_strip (py_lower user_query)) = false ->
   str_in ULTIMA_SEMANA (py_strip (py_lower user_query)) = false ->
   str_in AYER (py_strip (py_lower user_query)) = false ->
   str_in HOY (py_strip (py_lower user_query)) = false ->
   (exists before tok after,
       year_token_at R (py_strip (py_lower user_query)) before tok after) ->
   exists before tok after,
     year_token_at R (py_strip (py_lower user_query)) before tok after
     /\ (forall before' tok' after',
           year_token_at R (py_strip (py_lower user_query))
             before' tok' after' ->
           (length before <= length before')%nat)
     /\ 2000 <= py_int tok <= 2099
     /\ SeacrhByDate.fallback_date_parser today user_query
        = Ok (range (isoformat (mkdate (py_int tok) 1 1))
                    (isoformat (mkdate (py_int tok) 12 31))))
  /\ (str_in ULTIMA_SEMANA (py_lower user_query) = false ->
      str_in SEMANA_PASADA (py_lower user_query) = false ->
      str_in AYER (py_lower user_query) = false ->
      str_in HOY (py_lower user_query) = false ->
      SearchByDate.fallback_date_parser today user_query
      = last_month_range today).
Proof.
  intros Hdig. split.
  - intros H1 H2 H3 H4 H5 H6 Htok.
    destruct (search_year_token _ Hdig Htok)
      as (before & tok & after & Hat & Hsearch & Hmin).
    exists before, tok, after.
    destruct Hat as (Hs & (c3 & c4 & Ht & Hc3 & Hc4) & Hb & Ha).
    pose proof (year_of_match tok c3 c4 Hdig Ht Hc3 Hc4) as Hrange.
    destruct (year_range_dates (py_int tok) Hrange) as (E1 & E2 & _ & _).
    split; [|split; [exact Hmin|split; [exact Hrange|]]].
    + split; [exact Hs|]. split; [exists c3, c4; auto|]. split; assumption.
    + unfold SeacrhByDate.fallback_date_parser. cbv zeta.
      rewrite H1, H2, H3, H4, H5, H6, Hsearch. cbn [orb].
      rewrite E1, E2. reflexivity.
  - intros H1 H2 H3 H4. unfold SearchByDate.fallback_date_parser. cbv zeta.
    rewrite H1, H2, H3, H4. reflexivity.
Qed.

(** "documentos de 2024" on 10 May 2024: the year 2024 in
    [seacrh_by_date], April 2024 in [search_by_date]. *)
Lemma year_token_gives_year_range_witness :
  (exists before tok after,
      year_token_at Concrete.runtime (str "documentos de 2024")
        before tok after
      /\ (forall before' tok' after',
            year_token_at Concrete.runtime (str "documentos de 2024")
              before' tok' after' ->
            (length before <= length before')%nat)
      /\ 2000 <= py_int (R := Concrete.runtime) tok <= 2099
      /\ SeacrhByDate.fallback_date_parser (R := Concrete.runtime)
           (mkdate 2024 5 10) (str "documentos de 2024")
         = Ok (range (isoformat (mkdate (py_int (R := Concrete.runtime) tok) 1 1))
                     (isoformat (mkdate (py_int (R := Concrete.runtime) tok) 12 31))))
  /\ SearchByDate.fallback_date_parser (R := Concrete.runtime)
       (mkdate 2024 5 10) (str "documentos de 2024")
     = last_month_range (mkdate 2024 5 10).
Proof.
  destruct (year_token_gives_year_range Concrete.runtime (mkdate 2024 5 10)
              (str "documentos de 2024") concrete_decimal_digits_ok)
    as [H1 H2].
  split.
  - apply H1; try reflexivity.
    exists (str "documentos de "), (str "2024"), [].
    split; [reflexivity|]. split; [|split; reflexivity].
    exists 50, 52. repeat split; reflexivity.
  - apply H2; reflexivity.
Defined.

(** C3 as stated fails in [search_by_date]: "documentos de 2024" holds the
    year token and none of the phrases, and on 10 May 2024 the answer is
    April 2024, not the year 2024. *)
Lemma search_by_date_has_no_year_rule :
  year_token_at Concrete.runtime
    (py_lower (R := Concrete.runtime) (str "documentos de 2024"))
    (str "documentos de ") (str "2024") []
  /\ str_in ULTIMA_SEMANA
       (py_lower (R := Concrete.runtime) (str "documentos de 2024")) = false
  /\ str_in SEMANA_PASADA
       (py_lower (R := Concrete.runtime) (str "documentos de 2024")) = false
  /\ str_in AYER
       (py_lower (R := Concrete.runtime) (str "documentos de 2024")) = false
  /\ str_in HOY
       (py_lower (R := Concrete.runtime) (str "documentos de 2024")) = false
  /\ SearchByDate.fallback_date_parser (R := Concrete.runtime)
       (mkdate 2024 5 10) (str "documentos de 2024")
     = Ok (range (isoformat (mkdate 2024 4 1)) (isoformat (mkdate 2024 4 30)))
  /\ SearchByDate.fallback_date_parser (R := Concrete.runtime)
       (mkdate 2024 5 10) (str "documentos de 2024")
     <> Ok (range (isoformat (mkdate 2024 1 1))
                  (isoformat (mkdate 2024 12 31))).
Proof.
  assert (E : SearchByDate.fallback_date_parser (R := Concrete.runtime)
                (mkdate 2024 5 10) (str "documentos de 2024")
              = Ok (range (isoformat (mkdate 2024 4 1))
                          (isoformat (mkdate 2024 4 30))))
    by (cbv -[single range]; reflexivity).
  split.
  { split; [reflexivity|]. split; [|split; reflexivity].
    exists 50, 52. repeat split; reflexivity. }
  do 4 (split; [reflexivity|]). split; [exact E|].
  rewrite E. intros H. apply Ok_inj, range_inj in H. destruct H as [H _].
  vm_compute in H. discriminate.
Qed.

(** ** The leftmost flat object of a reply *)

Section FlatBraces.

Lemma flat_body_sound (s : pystr) : forall b,
  flat_body s = Some b ->
  exists inner rest,
    s = inner ++ RBRACE :: rest /\ b = inner ++ [RBRACE]
    /\ Forall (fun c => c <> LBRACE /\ c <> RBRACE) inner.
Proof.
  induction s as [|c s IH]; intros b H; [discriminate H|].
  cbn [flat_body] in H. destruct (c =? RBRACE) eqn:Er.
  - apply Z.eqb_eq in Er. subst c. injection H as <-.
    exists [], s. repeat split. constructor.
  - destruct (c =? LBRACE) eqn:El; [discriminate H|].
    destruct (flat_body s) as [b'|]; [|discriminate H].
    injection H as <-. destruct (IH b' eq_refl) as (inner & rest & -> & -> & Hin).
    exists (c :: inner), rest. repeat split. constructor; [|exact Hin].
    apply Z.eqb_neq in Er, El. auto.
Qed.

Lemma flat_body_complete (inner rest : pystr) :
  Forall (fun c => c <> LBRACE /\ c <> RBRACE) inner ->
  flat_body (inner ++ RBRACE :: rest) = Some (inner ++ [RBRACE]).
Proof.
  induction 1 as [|c inner [Hl Hr] _ IH]; cbn [app flat_body].
  - rewrite Z.eqb_refl. reflexivity.
  - apply Z.eqb_neq in Hl, Hr. rewrite Hl, Hr, IH. reflexivity.
Qed.

(** A flat object that starts where [s] starts. *)
Lemma flat_object_here (c : Z) (s m after : pystr) :
  flat_object_at (c :: s) [] m after ->
  c = LBRACE /\ exists b, flat_body s = Some b /\ m = c :: b.
Proof.
  intros (Hs & inner & -> & Hin). cbn [app] in Hs. injection Hs as -> ->.
  split; [reflexivity|]. exists (inner ++ [RBRACE]). split; [|reflexivity].
  rewrite <- app_assoc. apply flat_body_complete, Hin.
Qed.

Lemma flat_object_later (c : Z) (s before m after : pystr) :
  flat_object_at (c :: s) (c :: before) m after <->
  flat_object_at s before m after.
Proof.
  unfold flat_object_at. cbn [app]. split.
  - intros (Hs & Hm). injection Hs as ->. split; [reflexivity | exact Hm].
  - intros (-> & Hm). split; [reflexivity | exact Hm].
Qed.

(** The search returns the leftmost flat object, when there is one. *)
Lemma search_flat_braces_leftmost (s : pystr) :
  (exists before m after, flat_object_at s before m after) ->
  exists m, search_flat_braces s = Some m /\ leftmost_flat_object s m.
Proof.
  induction s as [|c s IH]; intros (before & m & after & Hat).
  - destruct Hat as (Hs & inner & -> & _). destruct before; discriminate Hs.
  - cbn [search_flat_braces].
    assert (Hhere : forall b, c = LBRACE -> flat_body s = Some b ->
              leftmost_flat_object (c :: s) (c :: b)).
    { intros b -> Hb.
      destruct (flat_body_sound s b Hb) as (inner & rest & -> & -> & Hin).
      exists [], rest. split.
      - split; [cbn [app]; rewrite <- app_assoc; reflexivity|].
        exists inner. split; [reflexivity | exact Hin].
      - intros. cbn [length]. lia. }
    assert (Hlater : (exists before m after, flat_object_at s before m after) ->
              (forall m' after', ~ flat_object_at (c :: s) [] m' after') ->
              exists m, search_flat_braces s = Some m
                        /\ leftmost_flat_object (c :: s) m).
    { intros Hex Hnot. destruct (IH Hex) as (m0 & Hs0 & b0 & a0 & Hat0 & Hmin).
      exists m0. split; [exact Hs0|]. exists (c :: b0), a0.
      split; [apply (proj2 (flat_object_later _ _ _ _ _)), Hat0|].
      intros b' m' a' Hat'. destruct b' as [|c' b'].
      - exfalso. exact (Hnot m' a' Hat').
      - assert (c' = c) as ->
          by (pose proof (proj1 Hat') as Hs'; cbn [app] in Hs'; congruence).
        apply (proj1 (flat_object_later _ _ _ _ _)) in Hat'. cbn [length].
        pose proof (Hmin b' m' a' Hat'). lia. }
    assert (Hex : (forall m' after', ~ flat_object_at (c :: s) [] m' after') ->
              exists before m after, flat_object_at s before m after).
    { intros Hnot. destruct before as [|c' before].
      - exfalso. exact (Hnot m after Hat).
      - assert (c' = c) as ->
          by (pose proof (proj1 Hat) as Hs'; cbn [app] in Hs'; congruence).
        apply (proj1 (flat_object_later _ _ _ _ _)) in Hat. eauto. }
    destruct (c =? LBRACE) eqn:El.
    + apply Z.eqb_eq in El. destruct (flat_body s) as [b|] eqn:Hb.
      * exists (c :: b). split; [reflexivity | apply Hhere; auto].
      * assert (Hnot : forall m' after', ~ flat_object_at (c :: s) [] m' after').
        { intros m' a' Hat'. apply flat_object_here in Hat'.
          destruct Hat' as (_ & b & Hb' & _). congruence. }
        apply Hlater; [apply Hex|]; exact Hnot.
    + apply Z.eqb_neq in El.
      assert (Hnot : forall m' after', ~ flat_object_at (c :: s) [] m' after').
      { intros m' a' Hat'. apply flat_object_here in Hat'.
        destruct Hat' as (Hc & _). contradiction. }
      apply Hlater; [apply Hex|]; exact Hnot.
Qed.

(** What the search returns is a flat object of the text. *)
Lemma search_flat_braces_sound (s : pystr) : forall m,
  search_flat_braces s = Some m ->
  exists before after, flat_object_at s before m after.
Proof.
  induction s as [|c s IH]; intros m H; [discriminate H|].
  cbn [search_flat_braces] in H.
  assert (Hlater : search_flat_braces s = Some m ->
            exists before after, flat_object_at (c :: s) before m after).
  { intros H'. destruct (IH m H') as (b & a & Hat).
    exists (c :: b), a. apply (proj2 (flat_object_later _ _ _ _ _)), Hat. }
  destruct (c =? LBRACE) eqn:El; [|auto].
  apply Z.eqb_eq in El. subst c.
  destruct (flat_body s) as [b|] eqn:Hb; [|auto].
  injection H as <-.
  destruct (flat_body_sound s b Hb) as (inner & rest & -> & -> & Hin).
  exists [], rest. split; [cbn [app]; rewrite <- app_assoc; reflexivity|].
  exists inner. split; [reflexivity | exact Hin].
Qed.

(** Two flat objects that start at the same place are the same. *)
Lemma flat_object_unique (text before m after before' m' after' : pystr) :
  flat_object_at text before m after ->
  flat_object_at text before' m' after' ->
  length before = length before' -> m = m'.
Proof.
  intros (Hs & inner & -> & Hin) (Hs' & inner' & -> & Hin') Hlen.
  rewrite Hs in Hs'. apply app_inj_1 in Hs'; [|exact Hlen].
  destruct Hs' as [_ Hs']. cbn [app] in Hs'. injection Hs' as Hs'.
  rewrite <- !app_assoc in Hs'. cbn [app] in Hs'.
  f_equal. f_equal. clear - Hs' Hin Hin'.
  revert inner' Hin' Hs'.
  induction Hin as [|c inner [_ Hc] _ IH]; intros inner' Hin' Hs'.
  - destruct Hin' as [|c' inner' [_ Hc'] _]; [reflexivity|].
    cbn [app] in Hs'. injection Hs' as Hs' _. congruence.
  - destruct Hin' as [|c' inner' [_ Hc'] Hin'].
    + cbn [app] in Hs'. injection Hs' as Hs' _. congruence.
    + cbn [app] in Hs'. injection Hs' as -> Hs'. f_equal.
      apply IH; assumption.
Qed.

(** The search result, characterised. *)
Lemma search_flat_braces_spec (s m : pystr) :
  search_flat_braces s = Some m <-> leftmost_flat_object s m.
Proof.
  split.
  - intros H. destruct (search_flat_braces_sound s m H) as (b & a & Hat).
    destruct (search_flat_braces_leftmost s) as (m0 & H0 & Hl); [eauto|].
    congruence.
  - intros (b & a & Hat & Hmin).
    destruct (search_flat_braces_leftmost s) as (m0 & H0 & b0 & a0 & Hat0 & Hmin0);
      [eauto|].
    rewrite H0. f_equal.
    apply (flat_object_unique s b0 m0 a0 b m a Hat0 Hat).
    pose proof (Hmin b0 m0 a0 Hat0). pose proof (Hmin0 b m a Hat). lia.
Qed.

Lemma search_flat_braces_none (s : pystr) :
  search_flat_braces s = None <->
  ~ exists before m after, flat_object_at s before m after.
Proof.
  split.
  - intros H Hex. destruct (search_flat_braces_leftmost s Hex) as (m & Hm & _).
    congruence.
  - intros Hno. destruct (search_flat_braces s) as [m|] eqn:H; [|reflexivity].
    exfalso. apply Hno. destruct (search_flat_braces_sound s m H) as (b & a & Hat).
    eauto.
Qed.

End FlatBraces.

(** ** The lazy brace expression of [search_by_date] *)

Section LazyBraces.

Lemma lazy_body_sound (s : pystr) : forall b,
  lazy_body s = Some b ->
  exists inner rest,
    s = inner ++ RBRACE :: rest /\ b = inner ++ [RBRACE]
    /\ Forall (fun c => c <> RBRACE /\ c <> NEWLINE) inner.
Proof.
  induction s as [|c s IH]; intros b H; [discriminate H|].
  cbn [lazy_body] in H. destruct (c =? RBRACE) eqn:Er.
  - apply Z.eqb_eq in Er. subst c. injection H as <-.
    exists [], s. repeat split. constructor.
  - destruct (c =? NEWLINE) eqn:En; [discriminate H|].
    destruct (lazy_body s) as [b'|]; [|discriminate H].
    injection H as <-. destruct (IH b' eq_refl) as (inner & rest & -> & -> & Hin).
    exists (c :: inner), rest. repeat split. constructor; [|exact Hin].
    apply Z.eqb_neq in Er, En. auto.
Qed.

Lemma search_lazy_braces_sound (s : pystr) : forall m,
  search_lazy_braces s = Some m ->
  exists before after, lazy_object_at s before m after.
Proof.
  induction s as [|c s IH]; intros m H; [discriminate H|].
  cbn [search_lazy_braces] in H.
  assert (Hlater : search_lazy_braces s = Some m ->
            exists before after, lazy_object_at (c :: s) before m after).
  { intros H'. destruct (IH m H') as (b & a & -> & Hm).
    exists (c :: b), a. split; [reflexivity | exact Hm]. }
  destruct (c =? LBRACE) eqn:El; [|auto].
  apply Z.eqb_eq in El. subst c.
  destruct (lazy_body s) as [b|] eqn:Hb; [|auto].
  injection H as <-.
  destruct (lazy_body_sound s b Hb) as (inner & rest & -> & -> & Hin).
  exists [], rest. split; [cbn [app]; rewrite <- app_assoc; reflexivity|].
  exists inner. split; [reflexivity | exact Hin].
Qed.

End LazyBraces.

(** ** Which message is read, and how (C6, C7) *)

Section AgentReply.
Context {R : PyRuntime}.

Lemma agent_response_skips (later : list message) : forall acc,
  Forall (fun m => has_text m = false) later ->
  fold_left (fun agent_response m =>
               if has_text m then Some (last_text m) else agent_response)
    later acc = acc.
Proof.
  induction later as [|m later IH]; intros acc H; [reflexivity|].
  inversion H as [|? ? Hm Hl]; subst. cbn [fold_left]. rewrite Hm.
  apply IH, Hl.
Qed.

Lemma agent_response_of_none (history : list message) :
  Forall (fun m => has_text m = false) history ->
  SeacrhByDate.agent_response_of history = None.
Proof. apply agent_response_skips. Qed.

Lemma agent_response_of_last (earlier later : list message) (m : message) :
  has_text m = true -> Forall (fun m' => has_text m' = false) later ->
  SeacrhByDate.agent_response_of (earlier ++ m :: later) = Some (last_text m).
Proof.
  intros Hm Hl. unfold SeacrhByDate.agent_response_of.
  rewrite fold_left_app. cbn [fold_left]. rewrite Hm.
  apply agent_response_skips, Hl.
Qed.

Lemma agent_response_of_one (m : message) :
  has_text m = true ->
  SeacrhByDate.agent_response_of [m] = Some (last_text m).
Proof. intros Hm. apply (agent_response_of_last [] [] m Hm). constructor. Qed.

(** A history has no assistant message with text, or a last one. *)
Lemma history_cases (history : list message) :
  Forall (fun m => has_text m = false) history
  \/ exists earlier m later,
       history = earlier ++ m :: later /\ has_text m = true
       /\ Forall (fun m' => has_text m' = false) later.
Proof.
  induction history as [|m history IH]; [left; constructor|].
  destruct IH as [Hno | (earlier & m' & later & -> & Hm' & Hl)].
  - destruct (has_text m) eqn:Hm.
    + right. exists [], m, history. auto.
    + left. constructor; assumption.
  - right. exists (m :: earlier), m', later. auto.
Qed.

Lemma seacrh_reads_last (earlier later : list message) (m : message) :
  has_text m = true -> Forall (fun m' => has_text m' = false) later ->
  SeacrhByDate.response_to_dict (earlier ++ m :: later)
  = SeacrhByDate.response_to_dict [m].
Proof.
  intros Hm Hl. unfold SeacrhByDate.response_to_dict.
  rewrite (agent_response_of_last earlier later m Hm Hl).
  rewrite (agent_response_of_one m Hm). reflexivity.
Qed.

(** [seacrh_by_date] on the message it reads. *)
Lemma seacrh_response_cases (m : message) :
  has_text m = true ->
  let text := py_strip (last_text m) in
  let parsed j :=
    match json_loads j with
    | Some d => Ok d
    | None => Raise (ValueError (InvalidJson text))
    end in
  (last_text m = [] ->
   SeacrhByDate.response_to_dict [m] = Raise (ValueError NoAgentResponse))
  /\ (last_text m <> [] -> braced text = true ->
      SeacrhByDate.response_to_dict [m] = parsed text)
  /\ (last_text m <> [] -> braced text = false ->
      forall j, leftmost_flat_object text j ->
      SeacrhByDate.response_to_dict [m] = parsed j)
  /\ (last_text m <> [] -> braced text = false ->
      (~ exists before j after, flat_object_at text before j after) ->
      SeacrhByDate.response_to_dict [m]
      = Raise (ValueError (NoJsonFound text))).
Proof.
  intros Hm text parsed. unfold SeacrhByDate.response_to_dict.
  rewrite (agent_response_of_one m Hm).
  unfold SeacrhByDate.extract_json. fold text. fold (braced text).
  repeat split.
  - intros ->. reflexivity.
  - intros Hne Hb. destruct (last_text m); [contradiction|]. rewrite Hb.
    reflexivity.
  - intros Hne Hb j Hj. destruct (last_text m); [contradiction|]. rewrite Hb.
    apply search_flat_braces_spec in Hj. rewrite Hj. reflexivity.
  - intros Hne Hb Hno. destruct (last_text m); [contradiction|]. rewrite Hb.
    apply search_flat_braces_none in Hno. rewrite Hno. reflexivity.
Qed.

(** [seacrh_by_date] fails exactly in these cases. *)
Lemma seacrh_response_fails (m : message) :
  has_text m = true ->
  let text := py_strip (last_text m) in
  (exists e, SeacrhByDate.response_to_dict [m] = Raise e)
  <-> (last_text m = []
       \/ (braced text = true /\ json_loads text = None)
       \/ (braced text = false
           /\ forall j, leftmost_flat_object text j -> json_loads j = None)).
Proof.
  intros Hm text.
  destruct (seacrh_response_cases m Hm) as (H0 & H1 & H2 & H3).
  fold text in H0, H1, H2, H3. cbv zeta in H1, H2.
  destruct (decide (last_text m = [])) as [He | Hne].
  { split; [auto | intros _; rewrite (H0 He); eauto]. }
  destruct (braced text) eqn:Hb.
  - rewrite (H1 Hne eq_refl). split.
    + intros [e He]. right. left. split; [reflexivity|].
      destruct (json_loads text); [discriminate He | reflexivity].
    + intros [He | [[_ Hl] | [Hf _]]]; [contradiction| |discriminate Hf].
      rewrite Hl. eauto.
  - destruct (search_flat_braces text) as [j0|] eqn:Hs.
    + apply search_flat_braces_spec in Hs. rewrite (H2 Hne eq_refl j0 Hs).
      split.
      * intros [e He]. right. right. split; [reflexivity|].
        intros j Hj. apply search_flat_braces_spec in Hs, Hj.
        assert (j = j0) as -> by congruence.
        destruct (json_loads j0); [discriminate He | reflexivity].
      * intros [He | [[Hf _] | [_ Hl]]]; [contradiction|discriminate Hf|].
        rewrite (Hl j0 Hs). eauto.
    + apply search_flat_braces_none in Hs. rewrite (H3 Hne eq_refl Hs).
      split; [|eauto]. intros _. right. right. split; [reflexivity|].
      intros j (b & a & Hat & _). exfalso. apply Hs. eauto.
Qed.

(** [search_by_date] passes over the messages it cannot use. *)
Lemma search_skips (skipped rest : list message) :
  Forall (fun m => has_text m = false \/ json_candidate R m = None) skipped ->
  SearchByDate.response_to_dict (skipped ++ rest)
  = SearchByDate.response_to_dict rest.
Proof.
  induction 1 as [|m skipped Hm _ IH]; [reflexivity|].
  cbn [app SearchByDate.response_to_dict].
  destruct (has_text m) eqn:Ht; [|exact IH].
  destruct Hm as [Hm | Hm]; [discriminate Hm|].
  unfold json_candidate, braced in Hm. cbv zeta in *.
  destruct (startswith _ _ && endswith _ _); [discriminate Hm|].
  rewrite Hm. exact IH.
Qed.

(** ... and returns from the first one it can. *)
Lemma search_reads_first (m : message) (later : list message) :
  has_text m = true -> is_Some (json_candidate R m) ->
  SearchByDate.response_to_dict (m :: later)
  = SearchByDate.response_to_dict [m].
Proof.
  intros Ht [c Hc]. cbn [SearchByDate.response_to_dict]. rewrite Ht.
  unfold json_candidate, braced in Hc. cbv zeta in *.
  destruct (startswith _ _ && endswith _ _); [reflexivity|].
  rewrite Hc. reflexivity.
Qed.

(** [search_by_date] on an assistant message that has text. *)
Lemma search_response_cases (m : message) (later : list message) :
  has_text m = true ->
  (braced (py_strip (last_text m)) = true ->
   SearchByDate.response_to_dict (m :: later)
   = match json_loads (py_strip (last_text m)) with
     | Some d => Ok d
     | None => Raise (JSONDecodeError (py_strip (last_text m)))
     end)
  /\ (braced (py_strip (last_text m)) = false ->
      forall j, search_lazy_braces (py_strip (last_text m)) = Some j ->
      (exists before after,
          lazy_object_at (py_strip (last_text m)) before j after)
      /\ SearchByDate.response_to_dict (m :: later)
         = match json_loads j with
           | Some d => Ok d
           | None => Raise (JSONDecodeError j)
           end)
  /\ (braced (py_strip (last_text m)) = false ->
      search_lazy_braces (py_strip (last_text m)) = None ->
      SearchByDate.response_to_dict (m :: later)
      = SearchByDate.response_to_dict later).
Proof.
  intros Hm. cbn [SearchByDate.response_to_dict]. rewrite Hm. cbv zeta.
  fold (braced (py_strip (last_text m))).
  split; [|split].
  - intros ->. reflexivity.
  - intros -> j Hj. split; [apply search_lazy_braces_sound, Hj|].
    rewrite Hj. reflexivity.
  - intros -> ->. reflexivity.
Qed.

End AgentReply.

(** C6, as amended, for [seacrh_by_date].  Without an assistant message
    that has text, or when the text of the last one is empty, the
    extraction fails with "no response".  Otherwise the trimmed text is
    parsed whole when it starts with an opening and ends with a closing
    brace, and nothing else is tried; if it does not, the leftmost
    substring "{...}" with no brace inside is parsed, and without such a
    substring the extraction fails with "no JSON found".  A text that does
    not parse fails with "invalid JSON".  So the extraction fails exactly
    when the text is empty, or the braced text does not parse, or the text
    is not braced and has no leftmost flat object that parses.
    [search_by_date] makes the same brace test on each assistant message
    in turn: a braced text is parsed whole; in another text the match of
    the lazy expression is parsed, which runs from an opening brace to the
    first closing brace on the same line; a text that does not parse raises
    [JSONDecodeError]; a message without a match is passed over. *)
Theorem extraction_follows_the_brace_test (R : PyRuntime)
    (history : list message) :
  (Forall (fun m => has_text m = false) history ->
   SeacrhByDate.response_to_dict history = Raise (ValueError NoAgentResponse))
  /\ (forall earlier m later,
        history = earlier ++ m :: later -> has_text m = true ->
        Forall (fun m' => has_text m' = false) later ->
        (last_text m = [] ->
         SeacrhByDate.response_to_dict history
         = Raise (ValueError NoAgentResponse))
        /\ (last_text m <> [] -> braced (py_strip (last_text m)) = true ->
            SeacrhByDate.response_to_dict history
            = match json_loads (py_strip (last_text m)) with
              | Some d => Ok d
              | None => Raise (ValueError (InvalidJson (py_strip (last_text m))))
              end)
        /\ (last_text m <> [] -> braced (py_strip (last_text m)) = false ->
            forall j, leftmost_flat_object (py_strip (last_text m)) j ->
            SeacrhByDate.response_to_dict history
            = match json_loads j with
              | Some d => Ok d
              | None => Raise (ValueError (InvalidJson (py_strip (last_text m))))
              end)
        /\ (last_text m <> [] -> braced (py_strip (last_text m)) = false ->
            (~ exists before j after,
                 flat_object_at (py_strip (last_text m)) before j after) ->
            SeacrhByDate.response_to_dict history
            = Raise (ValueError (NoJsonFound (py_strip (last_text m)))))
        /\ ((exists e, SeacrhByDate.response_to_dict history = Raise e)
            <-> (last_text m = []
                 \/ (braced (py_strip (last_text m)) = true
                     /\ json_loads (py_strip (last_text m)) = None)
                 \/ (braced (py_strip (last_text m)) = false
                     /\ forall j,
                          leftmost_flat_object (py_strip (last_text m)) j ->
                          json_loads j = None))))
  /\ (forall m later,
        has_text m = true ->
        (braced (py_strip (last_text m)) = true ->
         SearchByDate.response_to_dict (m :: later)
         = match json_loads (py_strip (last_text m)) with
           | Some d => Ok d
           | None => Raise (JSONDecodeError (py_strip (last_text m)))
           end)
        /\ (braced (py_strip (last_text m)) = false ->
            forall j, search_lazy_braces (py_strip (last_text m)) = Some j ->
            (exists before after,
                lazy_object_at (py_strip (last_text m)) before j after)
            /\ SearchByDate.response_to_dict (m :: later)
               = match json_loads j with
                 | Some d => Ok d
                 | None => Raise (JSONDecodeError j)
                 end)
        /\ (braced (py_strip (last_text m)) = false ->
            search_lazy_braces (py_strip (last_text m)) = None ->
            SearchByDate.response_to_dict (m :: later)
            = SearchByDate.response_to_dict later)).
Proof.
  split; [|split; [|apply @search_response_cases]].
  - intros Hno. unfold SeacrhByDate.response_to_dict.
    rewrite (agent_response_of_none history Hno). reflexivity.
  - intros earlier m later -> Hm Hl.
    rewrite (seacrh_reads_last earlier later m Hm Hl).
    destruct (seacrh_response_cases m Hm) as (H0 & H1 & H2 & H3).
    split; [exact H0|]. split; [exact H1|]. split; [exact H2|].
    split; [exact H3|]. apply (seacrh_response_fails m Hm).
Qed.

(** The reply with two objects: braced, so parsed whole, and rejected. *)
Lemma extraction_follows_the_brace_test_witness :
  SeacrhByDate.response_to_dict (R := Concrete.runtime)
    [Concrete.assistant two_objects]
  = Raise (ValueError (InvalidJson two_objects)).
Proof.
  destruct (extraction_follows_the_brace_test Concrete.runtime
              [Concrete.assistant two_objects]) as (_ & H & _).
  destruct (H [] (Concrete.assistant two_objects) [] eq_refl eq_refl
              ltac:(constructor)) as (_ & H1 & _).
  rewrite H1; [reflexivity | discriminate | reflexivity].
Defined.

(** C6 as stated fails: the reply with two objects holds a leftmost flat
    object that is valid JSON, so strategy 2 would yield a dict, and the
    extraction fails all the same. *)
Lemma braced_reply_is_not_searched :
  SeacrhByDate.response_to_dict (R := Concrete.runtime)
    [Concrete.assistant two_objects]
  = Raise (ValueError (InvalidJson two_objects))
  /\ strategy2_yields Concrete.runtime
       (py_strip (R := Concrete.runtime)
          (last_text (Concrete.assistant two_objects)))
  /\ ~ fails_only_without_json Concrete.runtime
        [Concrete.assistant two_objects].
Proof.
  assert (E : SeacrhByDate.response_to_dict (R := Concrete.runtime)
                [Concrete.assistant two_objects]
              = Raise (ValueError (InvalidJson two_objects)))
    by (vm_compute; reflexivity).
  assert (S2 : strategy2_yields Concrete.runtime
                 (py_strip (R := Concrete.runtime)
                    (last_text (Concrete.assistant two_objects)))).
  { exists (date_reply (str "2024-04-29")), (single (str "2024-04-29")).
    split; [apply search_flat_braces_spec|]; vm_compute; reflexivity. }
  split; [exact E|]. split; [exact S2|].
  intros [Hfwd _]. destruct Hfwd as [Hno | Hex]; [eauto| |].
  - inversion Hno as [|? ? Ht _]. discriminate Ht.
  - destruct Hex as (earlier & m & later & Hh & _ & _ & _ & Hn2).
    destruct earlier as [|m0 earlier].
    + cbn [app] in Hh. injection Hh as <- _. exact (Hn2 S2).
    + cbn [app] in Hh. injection Hh as _ Hh. destruct earlier; discriminate Hh.
Qed.

(** C7, as amended.  [seacrh_by_date] reads the most recent assistant
    message that has text: the dict, or the failure, is the one that this
    message alone gives.  [search_by_date] reads the earliest assistant
    message in which it finds text to parse (the whole trimmed text when it
    starts and ends with a brace, else a match of its brace expression),
    and fails with "no valid JSON output" when there is none. *)
Theorem assistant_message_selection (R : PyRuntime) :
  (forall earlier m later,
      has_text m = true ->
      Forall (fun m' => has_text m' = false) later ->
      SeacrhByDate.agent_response_of (earlier ++ m :: later)
      = Some (last_text m)
      /\ SeacrhByDate.response_to_dict (earlier ++ m :: later)
         = SeacrhByDate.response_to_dict [m])
  /\ (forall skipped m later,
        Forall (fun m' => has_text m' = false \/ json_candidate R m' = None)
          skipped ->
        has_text m = true -> is_Some (json_candidate R m) ->
        SearchByDate.response_to_dict (skipped ++ m :: later)
        = SearchByDate.response_to_dict [m])
  /\ (forall history,
        Forall (fun m' => has_text m' = false \/ json_candidate R m' = None)
          history ->
        SearchByDate.response_to_dict history
        = Raise (ValueError NoValidJsonOutput)).
Proof.
  split; [|split].
  - intros earlier m later Hm Hl. split.
    + apply agent_response_of_last; assumption.
    + apply seacrh_reads_last; assumption.
  - intros skipped m later Hs Hm Hc.
    rewrite (search_skips skipped (m :: later) Hs).
    apply search_reads_first; assumption.
  - intros history Hs.
    rewrite <- (app_nil_r history), (search_skips history [] Hs).
    reflexivity.
Qed.

(** Two assistant replies: [seacrh_by_date] reads the second one,
    [search_by_date] the first one. *)
Lemma assistant_message_selection_witness :
  SeacrhByDate.response_to_dict (R := Concrete.runtime) two_replies
  = SeacrhByDate.response_to_dict (R := Concrete.runtime)
      [Concrete.assistant (date_reply (str "2024-01-02"))]
  /\ SearchByDate.response_to_dict (R := Concrete.runtime) two_replies
     = SearchByDate.response_to_dict (R := Concrete.runtime)
         [Concrete.assistant (date_reply (str "2024-01-01"))].
Proof.
  destruct (assistant_message_selection Concrete.runtime) as (H1 & H2 & _).
  split.
  - apply (H1 [Concrete.assistant (date_reply (str "2024-01-01"))]
             (Concrete.assistant (date_reply (str "2024-01-02"))) []);
      [reflexivity | constructor].
  - apply (H2 [] (Concrete.assistant (date_reply (str "2024-01-01")))
             [Concrete.assistant (date_reply (str "2024-01-02"))]);
      [constructor | reflexivity | eexists; reflexivity].
Defined.

(** C7 as stated fails in [search_by_date]: of two assistant replies it
    answers with the dict of the first, 2024-01-01, and not with that of
    the most recent one, 2024-01-02. *)
Lemma search_by_date_reads_first_reply :
  SearchByDate.response_to_dict (R := Concrete.runtime) two_replies
  = Ok (single (str "2024-01-01"))
  /\ SearchByDate.response_to_dict (R := Concrete.runtime)
       [Concrete.assistant (date_reply (str "2024-01-02"))]
     = Ok (single (str "2024-01-02"))
  /\ SeacrhByDate.response_to_dict (R := Concrete.runtime) two_replies
     = Ok (single (str "2024-01-02"))
  /\ ~ reads_most_recent Concrete.runtime two_replies.
Proof.
  assert (E1 : SearchByDate.response_to_dict (R := Concrete.runtime)
                 two_replies = Ok (single (str "2024-01-01")))
    by (vm_compute; reflexivity).
  assert (E2 : SearchByDate.response_to_dict (R := Concrete.runtime)
                 [Concrete.assistant (date_reply (str "2024-01-02"))]
               = Ok (single (str "2024-01-02")))
    by (vm_compute; reflexivity).
  split; [exact E1|]. split; [exact E2|].
  split; [vm_compute; reflexivity|].
  intros H.
  specialize (H [Concrete.assistant (date_reply (str "2024-01-01"))]
                (Concrete.assistant (date_reply (str "2024-01-02"))) []
                eq_refl eq_refl ltac:(constructor)).
  rewrite E1, E2 in H. apply Ok_inj, single_inj in H.
  vm_compute in H. discriminate.
Qed.

(** ** Queries that hold a phrase as written *)

Section Phrases.
Context {R : PyRuntime}.

Lemma startswith_spec (s p : pystr) :
  startswith s p = true <-> exists rest, s = p ++ rest.
Proof.
  revert s. induction p as [|a p IH]; intros s.
  - split; [intros _; exists s; reflexivity | reflexivity].
  - destruct s as [|b s]; cbn [startswith].
    + split; [discriminate | intros [rest H]; discriminate H].
    + rewrite andb_true_iff, Z.eqb_eq, IH. split.
      * intros [-> [rest ->]]. exists rest. reflexivity.
      * intros [rest H]. cbn [app] in H. injection H as -> ->. eauto.
Qed.

Lemma str_in_spec (needle hay : pystr) :
  str_in needle hay = true <-> exists before after, hay = before ++ needle ++ after.
Proof.
  induction hay as [|c hay IH]; cbn [str_in].
  - rewrite orb_false_r, startswith_spec. split.
    + intros [rest H]. exists [], rest. exact H.
    + intros (before & after & H). destruct before; [eauto|discriminate H].
  - rewrite orb_true_iff, startswith_spec, IH. split.
    + intros [[rest H] | (before & after & ->)].
      * exists [], rest. exact H.
      * exists (c :: before), after. reflexivity.
    + intros (before & after & H). destruct before as [|c' before].
      * left. eauto.
      * right. cbn [app] in H. injection H as _ ->. eauto.
Qed.

Lemma lower_from_app (x y : pystr) : forall before,
  exists l,
    lower_from before (x ++ y) = (l ++ lower_from (before ++ x) y)%list.
Proof.
  induction x as [|c x IH]; intros before; cbn [app lower_from].
  - exists []. rewrite app_nil_r. reflexivity.
  - destruct (IH (before ++ [c])) as [l Hl]. rewrite Hl.
    exists (uni_lower_at before c (x ++ y) ++ l).
    rewrite <- !app_assoc. reflexivity.
Qed.

Lemma lower_from_phrase (x y : pystr) : forall before,
  phrase_tables_ok R -> Forall phrase_char x ->
  lower_from before (x ++ y) = (x ++ lower_from (before ++ x) y)%list.
Proof.
  intros before [Hlow _] Hx. revert before.
  induction Hx as [|c x Hc _ IH]; intros before; cbn [app lower_from].
  - rewrite app_nil_r. reflexivity.
  - rewrite (Hlow before c (x ++ y) Hc), IH, <- !app_assoc. reflexivity.
Qed.

Lemma is_phrase_chars (phrase : pystr) :
  is_phrase phrase -> Forall phrase_char phrase.
Proof.
  intros (a & middle & b & -> & Ha & Hb & Hm).
  constructor; [left; exact Ha|]. apply Forall_app. split; [exact Hm|].
  constructor; [left; exact Hb | constructor].
Qed.

(** Lowering keeps a phrase that the query holds as written. *)
Lemma phrase_survives_lower (phrase user_query : pystr) :
  phrase_tables_ok R -> is_phrase phrase ->
  str_in phrase user_query = true ->
  str_in phrase (py_lower user_query) = true.
Proof.
  intros Hok Hp Hin. apply str_in_spec in Hin.
  destruct Hin as (before & after & ->). apply str_in_spec.
  unfold py_lower.
  destruct (lower_from_app before (phrase ++ after) []) as [l ->].
  rewrite (lower_from_phrase phrase after _ Hok (is_phrase_chars _ Hp)).
  eauto.
Qed.

Lemma lstrip_keeps (before rest : pystr) (a : Z) :
  uni_isspace a = false ->
  exists before', py_lstrip (before ++ a :: rest) = before' ++ a :: rest.
Proof.
  intros Ha. induction before as [|c before IH]; cbn [app py_lstrip].
  - rewrite Ha. exists []. reflexivity.
  - destruct (uni_isspace c); [exact IH|]. exists (c :: before). reflexivity.
Qed.

Lemma rstrip_keeps (kept after : pystr) (b : Z) :
  uni_isspace b = false ->
  exists after', py_rstrip (kept ++ b :: after) = kept ++ b :: after'.
Proof.
  intros Hb. unfold py_rstrip.
  rewrite rev_app_distr. cbn [rev]. rewrite <- app_assoc. cbn [app].
  destruct (lstrip_keeps (rev after) (rev kept) b Hb) as (r & ->).
  exists (rev r). rewrite rev_app_distr. cbn [rev].
  rewrite rev_involutive, <- app_assoc. reflexivity.
Qed.

(** Stripping keeps a phrase, whose first and last characters are
    letters. *)
Lemma phrase_survives_strip (phrase s : pystr) :
  phrase_tables_ok R -> is_phrase phrase ->
  str_in phrase s = true -> str_in phrase (py_strip s) = true.
Proof.
  intros [_ Hsp] (a & middle & b & -> & Ha & Hb & _) Hin.
  apply str_in_spec in Hin. destruct Hin as (before & after & ->).
  apply str_in_spec. unfold py_strip. cbn [app].
  destruct (lstrip_keeps before ((middle ++ [b]) ++ after) a (Hsp a Ha))
    as (before' & ->).
  replace (before' ++ a :: (middle ++ [b]) ++ after)
    with ((before' ++ a :: middle) ++ b :: after)
    by (rewrite <- !app_assoc; reflexivity).
  destruct (rstrip_keeps (before' ++ a :: middle) after b (Hsp b Hb))
    as (after' & ->).
  exists before', after'. rewrite <- !app_assoc. reflexivity.
Qed.

(** The six phrases are phrases. *)
Lemma phrases_are_phrases :
  is_phrase MES_PASADO /\ is_phrase ULTIMO_MES /\ is_phrase SEMANA_PASADA
  /\ is_phrase ULTIMA_SEMANA /\ is_phrase AYER /\ is_phrase HOY.
Proof.
  assert (Hall : forall p, forallb (fun c => ((97 <=? c) && (c <=? 122))
                                           || (c =? 250) || (c =? 32)) p = true ->
                 Forall phrase_char p).
  { intros p Hp. rewrite forallb_forall in Hp. apply List.Forall_forall.
    intros c Hc. specialize (Hp c Hc). unfold phrase_char, phrase_letter, U_ACUTE.
    lia. }
  repeat split.
  - exists 109, (str "es pasad"), 111. unfold phrase_letter.
    repeat split; [lia | lia | apply Hall; reflexivity].
  - exists U_ACUTE, (str "ltimo me"), 115. unfold phrase_letter.
    repeat split; [auto | lia | apply Hall; reflexivity].
  - exists 115, (str "emana pasad"), 97. unfold phrase_letter.
    repeat split; [lia | lia | apply Hall; reflexivity].
  - exists U_ACUTE, (str "ltima seman"), 97. unfold phrase_letter.
    repeat split; [auto | lia | apply Hall; reflexivity].
  - exists 97, (str "ye"), 114. unfold phrase_letter.
    repeat split; [lia | lia | apply Hall; reflexivity].
  - exists 104, (str "o"), 121. unfold phrase_letter.
    repeat split; [lia | lia | apply Hall; reflexivity].
Qed.

(** A query that holds one of the phrases as written passes the test that
    either package makes on its lowered text. *)
Lemma written_phrase_is_found (phrase user_query : pystr) :
  phrase_tables_ok R -> is_phrase phrase ->
  str_in phrase user_query = true ->
  str_in phrase (py_strip (py_lower user_query)) = true
  /\ str_in phrase (py_lower user_query) = true.
Proof.
  intros Hok Hp Hin. pose proof (phrase_survives_lower _ _ Hok Hp Hin) as Hl.
  split; [apply phrase_survives_strip; assumption | exact Hl].
Qed.

End Phrases.

Lemma concrete_phrase_tables_ok : phrase_tables_ok Concrete.runtime.
Proof.
  split.
  - intros before c after Hc.
    cbn [uni_lower_at Concrete.runtime]. unfold Concrete.lower_at.
    unfold phrase_char, phrase_letter, U_ACUTE in Hc.
    replace ((65 <=? c) && (c <=? 90)) with false by lia.
    replace ((192 <=? c) && (c <=? 222) && negb (c =? 215)) with false by lia.
    replace (c =? 304) with false by lia. reflexivity.
  - intros c Hc. cbn [uni_isspace Concrete.runtime]. unfold Concrete.isspace.
    unfold phrase_letter, U_ACUTE in Hc. lia.
Qed.

(** * Further properties of the handlers *)

(** ** The calendar: ordinals identify dates *)

Section CalendarOrder.

Lemma days_before_year_step (y : Z) :
  days_before_year (y + 1)
  = days_before_year y + 365 + (if is_leap y then 1 else 0).
Proof.
  unfold days_before_year, is_leap. cbv zeta.
  replace (y + 1 - 1) with y by lia.
  destruct (y mod 4 =? 0) eqn:E4; destruct (y mod 100 =? 0) eqn:E100;
    destruct (y mod 400 =? 0) eqn:E400; cbn [andb orb negb];
    rewrite ?Z.eqb_eq, ?Z.eqb_neq in *;
    Z.div_mod_to_equations; lia.
Qed.

Lemma days_before_year_mono (y1 y2 : Z) :
  y1 <= y2 -> days_before_year y1 <= days_before_year y2.
Proof.
  intros H. unfold days_before_year. cbv zeta.
  Z.div_mod_to_equations. lia.
Qed.

Lemma days_before_month_step (y m : Z) :
  1 <= m <= 11 ->
  days_before_month y (m + 1) = days_before_month y m + days_in_month y m.
Proof.
  intros Hm. unfold days_before_month, days_in_month.
  assert (Hc : m = 1 \/ m = 2 \/ m = 3 \/ m = 4 \/ m = 5 \/ m = 6 \/
               m = 7 \/ m = 8 \/ m = 9 \/ m = 10 \/ m = 11) by lia.
  destruct (is_leap y);
    repeat (destruct Hc as [-> | Hc]); try subst m;
    reflexivity.
Qed.

Lemma days_before_month_mono (y m1 m2 : Z) :
  1 <= m1 -> m1 <= m2 -> m2 <= 12 ->
  days_before_month y m1 <= days_before_month y m2.
Proof.
  intros H1 H12 H2.
  assert (Hc1 : m1 = 1 \/ m1 = 2 \/ m1 = 3 \/ m1 = 4 \/ m1 = 5 \/ m1 = 6 \/
                m1 = 7 \/ m1 = 8 \/ m1 = 9 \/ m1 = 10 \/ m1 = 11 \/ m1 = 12)
    by lia.
  assert (Hc2 : m2 = 1 \/ m2 = 2 \/ m2 = 3 \/ m2 = 4 \/ m2 = 5 \/ m2 = 6 \/
                m2 = 7 \/ m2 = 8 \/ m2 = 9 \/ m2 = 10 \/ m2 = 11 \/ m2 = 12)
    by lia.
  unfold days_before_month.
  destruct (is_leap y);
    repeat (destruct Hc1 as [-> | Hc1]); try subst m1;
    repeat (destruct Hc2 as [-> | Hc2]); try subst m2;
    try lia; vm_compute; discriminate.
Qed.

(** Later dates have larger ordinals. *)
Lemma toordinal_lt (d1 d2 : date) :
  is_date d1 = true -> is_date d2 = true ->
  year d1 < year d2
  \/ (year d1 = year d2 /\ month d1 < month d2)
  \/ (year d1 = year d2 /\ month d1 = month d2 /\ day d1 < day d2) ->
  toordinal d1 < toordinal d2.
Proof.
  unfold is_date, toordinal, ymd2ord. intros H1 H2 Hlt.
  repeat (apply andb_prop in H1; destruct H1 as [H1 ?]).
  repeat (apply andb_prop in H2; destruct H2 as [H2 ?]).
  pose proof (days_before_month_bound (year d1) (month d1) (day d1)
                ltac:(lia) ltac:(lia)) as B1.
  pose proof (days_before_month_bound (year d2) (month d2) (day d2)
                ltac:(lia) ltac:(lia)) as B2.
  destruct Hlt as [Hy | [[Hy Hm] | (Hy & Hm & Hd)]].
  - pose proof (days_before_year_step (year d1)) as Hs.
    pose proof (days_before_year_mono (year d1 + 1) (year d2) ltac:(lia)).
    lia.
  - rewrite Hy in *.
    pose proof (days_before_month_step (year d2) (month d1) ltac:(lia)) as Hs.
    pose proof (days_before_month_mono (year d2) (month d1 + 1) (month d2)
                  ltac:(lia) ltac:(lia) ltac:(lia)).
    lia.
  - rewrite Hy, Hm in *. lia.
Qed.

Lemma toordinal_inj (d1 d2 : date) :
  is_date d1 = true -> is_date d2 = true ->
  toordinal d1 = toordinal d2 -> d1 = d2.
Proof.
  intros H1 H2 E.
  assert (Hy : year d1 = year d2).
  { destruct (Z.lt_trichotomy (year d1) (year d2)) as [Hlt | [He | Hgt]];
      [|exact He|].
    - pose proof (toordinal_lt d1 d2 H1 H2 ltac:(auto)). lia.
    - pose proof (toordinal_lt d2 d1 H2 H1 ltac:(auto)). lia. }
  assert (Hm : month d1 = month d2).
  { destruct (Z.lt_trichotomy (month d1) (month d2)) as [Hlt | [He | Hgt]];
      [|exact He|].
    - pose proof (toordinal_lt d1 d2 H1 H2 ltac:(auto)). lia.
    - pose proof (toordinal_lt d2 d1 H2 H1 ltac:(auto)). lia. }
  assert (Hd : day d1 = day d2).
  { destruct (Z.lt_trichotomy (day d1) (day d2)) as [Hlt | [He | Hgt]];
      [|exact He|].
    - pose proof (toordinal_lt d1 d2 H1 H2 ltac:(auto)). lia.
    - pose proof (toordinal_lt d2 d1 H2 H1 ltac:(auto 6)). lia. }
  destruct d1, d2. cbn [year month day] in *. congruence.
Qed.

Lemma fromordinal_toordinal (d : date) :
  is_date d = true -> fromordinal (toordinal d) = d.
Proof.
  intros Hd. pose proof (toordinal_range d Hd) as Hr.
  destruct (fromordinal_spec (toordinal d) Hr) as [Hv Ho].
  apply toordinal_inj; assumption.
Qed.

End CalendarOrder.

(** ** Last month and yesterday *)

Section LastMonth.

Lemma days_in_month_range (y m : Z) :
  1 <= m <= 12 -> 28 <= days_in_month y m <= 31.
Proof.
  intros Hm. unfold days_in_month.
  assert (Hc : m = 1 \/ m = 2 \/ m = 3 \/ m = 4 \/ m = 5 \/ m = 6 \/
               m = 7 \/ m = 8 \/ m = 9 \/ m = 10 \/ m = 11 \/ m = 12) by lia.
  destruct (is_leap y);
    repeat (destruct Hc as [-> | Hc]); try subst m; vm_compute;
    split; discriminate.
Qed.

(** The day before the first of this month is the last day of the month
    before. *)
Lemma previous_month_end_spec (today : date) :
  is_date today = true -> 32 <= toordinal today ->
  is_date (previous_month_end today) = true
  /\ toordinal (previous_month_end today)
     = toordinal (replace_day1 today) - 1.
Proof.
  intros Hd Ho. pose proof Hd as Hd'. unfold is_date in Hd'.
  repeat (apply andb_prop in Hd'; destruct Hd' as [Hd' ?]).
  destruct (replace_day1_date today Hd) as [_ Ho1].
  unfold previous_month_end.
  destruct (month today =? 1) eqn:Em.
  - apply Z.eqb_eq in Em.
    assert (Hy : 2 <= year today).
    { destruct (Z.eq_dec (year today) 1) as [E1 | ?]; [|lia].
      exfalso. unfold toordinal, ymd2ord in Ho. rewrite E1, Em in Ho.
      pose proof (day_le_31 today Hd). vm_compute days_before_year in Ho.
      change (days_before_month 1 1) with 0 in Ho. lia. }
    split.
    + unfold is_date, days_in_month. cbn [year month day].
      change (12 =? 2) with false. cbn [andb].
      change (table DAYS_IN_MONTH 12) with 31.
      repeat (apply andb_true_intro; split); lia.
    + unfold toordinal, ymd2ord, replace_day1. cbn [year month day].
      rewrite Em.
      pose proof (days_before_year_step (year today - 1)) as Hs.
      replace (year today - 1 + 1) with (year today) in Hs by lia.
      unfold days_before_month. change (2 <? 12) with true.
      change (2 <? 1) with false. cbn [andb].
      change (table DAYS_BEFORE_MONTH 12) with 334.
      change (table DAYS_BEFORE_MONTH 1) with 0.
      destruct (is_leap (year today - 1)); lia.
  - apply Z.eqb_neq in Em.
    pose proof (days_in_month_range (year today) (month today - 1)
                  ltac:(lia)) as Hr.
    split.
    + unfold is_date. cbn [year month day].
      repeat (apply andb_true_intro; split); lia.
    + unfold toordinal, ymd2ord, replace_day1. cbn [year month day].
      pose proof (days_before_month_step (year today) (month today - 1)
                    ltac:(lia)) as Hs.
      replace (month today - 1 + 1) with (month today) in Hs by lia.
      lia.
Qed.

Lemma sub_days_spec (d : date) (k : Z) :
  is_date d = true -> 0 <= k < toordinal d ->
  sub_days d k = Ok (fromordinal (toordinal d - k)).
Proof.
  intros Hd Hk. pose proof (toordinal_range d Hd).
  unfold sub_days, add_days. cbv zeta.
  replace (toordinal d + - k) with (toordinal d - k) by lia.
  replace ((0 <? toordinal d - k) && (toordinal d - k <=? MAXORDINAL))
    with true by (symmetry; apply andb_true_intro; split; lia).
  reflexivity.
Qed.

Lemma last_month_range_spec (today : date) :
  is_date today = true -> 32 <= toordinal today ->
  last_month_range today
  = Ok (range (isoformat (replace_day1 (previous_month_end today)))
              (isoformat (previous_month_end today))).
Proof.
  intros Hd Ho. destruct (previous_month_end_spec today Hd Ho) as [Hv He].
  destruct (replace_day1_date today Hd) as [Hv1 Ho1].
  pose proof (day_le_31 today Hd). unfold last_month_range.
  rewrite (sub_days_spec (replace_day1 today) 1 Hv1) by lia.
  rewrite <- He, (fromordinal_toordinal _ Hv). reflexivity.
Qed.

End LastMonth.

Section FallbackRules.
Context {R : PyRuntime}.

Lemma search_year_from_sound (s : pystr) : forall prev g,
  search_year_from prev s = Some g ->
  exists before rest,
    s = before ++ rest /\ match_year_here (prev_of prev before) rest = Some g.
Proof.
  induction s as [|c s IH]; intros prev g H; [discriminate H|].
  cbn [search_year_from] in H.
  destruct (match_year_here prev (c :: s)) as [g'|] eqn:Hm.
  - injection H as <-. exists [], (c :: s). split; [reflexivity | exact Hm].
  - destruct (IH (Some c) g H) as (before & rest & -> & Hm').
    exists (c :: before), rest. split; [reflexivity | exact Hm'].
Qed.

(** Without a year token the search finds nothing. *)
Lemma search_year_none (s : pystr) :
  decimal_digits_ok R ->
  (~ exists before tok after, year_token_at R s before tok after) ->
  search_year s = None.
Proof.
  intros Hdig Hno. destruct (search_year s) as [g|] eqn:Hs; [|reflexivity].
  exfalso. apply Hno.
  destruct (search_year_from_sound s None g Hs) as (before & rest & -> & Hm).
  apply (match_year_here_token _ _ _ Hdig) in Hm.
  destruct Hm as (c3 & c4 & after & -> & -> & H3 & H4 & Hb & Ha).
  exists before, [50; 48; c3; c4], after.
  split; [reflexivity|]. split; [exists c3, c4; auto|]. split; [|exact Ha].
  rewrite prev_of_last in Hb. destruct (last before); assumption.
Qed.

Lemma year_range_ordered (y : Z) :
  2000 <= y <= 2099 ->
  toordinal (mkdate y 1 1) <= toordinal (mkdate y 12 31).
Proof.
  intros Hy. destruct (year_range_dates y Hy) as (_ & _ & V1 & V2).
  pose proof (toordinal_lt (mkdate y 1 1) (mkdate y 12 31) V1 V2) as H.
  cbn [year month day] in H. specialize (H ltac:(right; left; lia)). lia.
Qed.

Lemma last_month_ordered (today : date) :
  is_date today = true -> 32 <= toordinal today ->
  exists d, last_month_range today = Ok d /\ ordered_date_query d.
Proof.
  intros Hd Ho. rewrite (last_month_range_spec today Hd Ho).
  destruct (previous_month_end_spec today Hd Ho) as [Hv _].
  destruct (replace_day1_date _ Hv) as [Hv1 Ho1].
  assert (1 <= day (previous_month_end today)).
  { unfold is_date in Hv.
    repeat (apply andb_prop in Hv; destruct Hv as [Hv ?]). lia. }
  eexists. split; [reflexivity|]. right.
  exists (replace_day1 (previous_month_end today)), (previous_month_end today).
  repeat split; try assumption. lia.
Qed.

Lemma yesterday_spec (today : date) :
  is_date today = true -> 2 <= toordinal today ->
  exists y, sub_days today 1 = Ok y /\ is_date y = true
            /\ toordinal y = toordinal today - 1.
Proof. intros Hd Ho. apply sub_days_ok; [exact Hd | lia]. Qed.

(** Every answer of the [seacrh_by_date] fallback parser is one real date,
    or a range whose start is not after its end. *)
Lemma seacrh_fallback_ordered (today : date) (user_query : pystr) :
  decimal_digits_ok R -> is_date today = true -> 32 <= toordinal today ->
  exists d, SeacrhByDate.fallback_date_parser today user_query = Ok d
            /\ ordered_date_query d.
Proof.
  intros Hdig Hd Ho.
  destruct (last_month_ordered today Hd Ho) as (lm & Hlm & Hlmo).
  destruct (str_in MES_PASADO (py_strip (py_lower user_query))) eqn:Hm1;
    [|destruct (str_in ULTIMO_MES (py_strip (py_lower user_query))) eqn:Hm2].
  1, 2: unfold SeacrhByDate.fallback_date_parser; cbv zeta;
        rewrite Hm1, ?Hm2; cbn [orb]; eauto.
  destruct (str_in SEMANA_PASADA (py_strip (py_lower user_query))
            || str_in ULTIMA_SEMANA (py_strip (py_lower user_query))) eqn:Hw.
  { apply orb_prop in Hw.
    destruct (seacrh_last_week today user_query Hd ltac:(lia) Hm1 Hm2 Hw)
      as (s & e & Hse & (Hs & He & _ & _ & Hoe & _) & _).
    rewrite Hse. eexists. split; [reflexivity|]. right. exists s, e.
    repeat split; try assumption. lia. }
  unfold SeacrhByDate.fallback_date_parser. cbv zeta.
  rewrite Hm1, Hm2, Hw. cbn [orb].
  destruct (str_in AYER (py_strip (py_lower user_query))).
  { destruct (yesterday_spec today Hd ltac:(lia)) as (y & Hy & Hvy & _).
    rewrite Hy. eexists. split; [reflexivity | left; exists y; auto]. }
  destruct (str_in HOY (py_strip (py_lower user_query))).
  { eexists. split; [reflexivity | left; exists today; auto]. }
  destruct (search_year (py_strip (py_lower user_query))) as [g|] eqn:Hy.
  - destruct (search_year_from_shape _ _ _ Hy) as (c3 & c4 & Hg & H3 & H4).
    pose proof (year_of_match g c3 c4 Hdig Hg H3 H4) as Hrange.
    destruct (year_range_dates (py_int g) Hrange) as (E1 & E2 & V1 & V2).
    cbv zeta. rewrite E1, E2. eexists. split; [reflexivity|]. right.
    exists (mkdate (py_int g) 1 1), (mkdate (py_int g) 12 31).
    repeat split; try assumption. apply year_range_ordered, Hrange.
  - eauto.
Qed.

(** The same for [search_by_date]. *)
Lemma search_fallback_ordered (today : date) (user_query : pystr) :
  is_date today = true -> 32 <= toordinal today ->
  exists d, SearchByDate.fallback_date_parser today user_query = Ok d
            /\ ordered_date_query d.
Proof.
  intros Hd Ho.
  destruct (str_in ULTIMA_SEMANA (py_lower user_query)
            || str_in SEMANA_PASADA (py_lower user_query)) eqn:Hw.
  { apply orb_prop in Hw.
    destruct (search_last_week today user_query Hd ltac:(lia) Hw)
      as (s & e & Hse & (Hs & He & _ & _ & Hoe & _) & _).
    rewrite Hse. eexists. split; [reflexivity|]. right. exists s, e.
    repeat split; try assumption. lia. }
  unfold SearchByDate.fallback_date_parser. cbv zeta. rewrite Hw.
  destruct (str_in AYER (py_lower user_query)).
  { destruct (yesterday_spec today Hd ltac:(lia)) as (y & Hy & Hvy & _).
    rewrite Hy. eexists. split; [reflexivity | left; exists y; auto]. }
  destruct (str_in HOY (py_lower user_query)).
  { eexists. split; [reflexivity | left; exists today; auto]. }
  apply last_month_ordered; assumption.
Qed.

Lemma ordered_is_date_query (d : dict) :
  ordered_date_query d -> is_date_query d.
Proof.
  intros [(a & _ & ->) | (a & b & _ & _ & _ & ->)];
    [apply single_is_date_query | apply range_is_date_query].
Qed.

End FallbackRules.

(** X1.  For a query whose lowered text holds "ayer" and none of the
    phrases tested before it, both fallback parsers return the single date
    of the day before today. *)
Theorem ayer_is_yesterday (R : PyRuntime) (today : date)
    (user_query : pystr) :
  is_date today = true -> 2 <= toordinal today ->
  exists yesterday,
    is_date yesterday = true
    /\ toordinal yesterday = toordinal today - 1
    /\ (str_in MES_PASADO (py_strip (py_lower user_query)) = false ->
        str_in ULTIMO_MES (py_strip (py_lower user_query)) = false ->
        str_in SEMANA_PASADA (py_strip (py_lower user_query)) = false ->
        str_in ULTIMA_SEMANA (py_strip (py_lower user_query)) = false ->
        str_in AYER (py_strip (py_lower user_query)) = true ->
        SeacrhByDate.fallback_date_parser today user_query
        = Ok (single (isoformat yesterday)))
    /\ (str_in ULTIMA_SEMANA (py_lower user_query) = false ->
        str_in SEMANA_PASADA (py_lower user_query) = false ->
        str_in AYER (py_lower user_query) = true ->
        SearchByDate.fallback_date_parser today user_query
        = Ok (single (isoformat yesterday))).
Proof.
  intros Hd Ho. destruct (yesterday_spec today Hd Ho) as (y & Hy & Hv & Hoy).
  exists y. split; [exact Hv|]. split; [exact Hoy|]. split.
  - intros H1 H2 H3 H4 H5. unfold SeacrhByDate.fallback_date_parser.
    cbv zeta. rewrite H1, H2, H3, H4, H5, Hy. reflexivity.
  - intros H1 H2 H3. unfold SearchByDate.fallback_date_parser.
    cbv zeta. rewrite H1, H2, H3, Hy. reflexivity.
Qed.

(** "Lo de AYER" on 1 March 2024: 29 February, in both packages. *)
Lemma ayer_is_yesterday_witness :
  SeacrhByDate.fallback_date_parser (R := Concrete.runtime)
    (mkdate 2024 3 1) (str "Lo de AYER")
  = Ok (single (str "2024-02-29"))
  /\ SearchByDate.fallback_date_parser (R := Concrete.runtime)
       (mkdate 2024 3 1) (str "Lo de AYER")
     = Ok (single (str "2024-02-29")).
Proof.
  destruct (ayer_is_yesterday Concrete.runtime (mkdate 2024 3 1)
              (str "Lo de AYER")) as (y & Hv & Hy & H1 & H2).
  - reflexivity.
  - vm_compute. discriminate.
  - assert (y = mkdate 2024 2 29) as ->
      by (apply toordinal_inj; [exact Hv | reflexivity | rewrite Hy; reflexivity]).
    split; [apply H1 | apply H2]; reflexivity.
Defined.

(** X2.  The range of last month runs from the first to the last day of
    the calendar month before today's: the last day is the day before the
    first of this month (31 December of the year before, in January) and
    the first day is day 1 of the same month.  [seacrh_by_date] returns it
    for a query whose lowered text holds "mes pasado" or "último mes",
    whatever else it holds; [search_by_date] for a query with none of its
    phrases. *)
Theorem last_month_is_previous_calendar_month (R : PyRuntime) (today : date)
    (user_query : pystr) :
  is_date today = true -> 32 <= toordinal today ->
  is_date (previous_month_end today) = true
  /\ is_date (replace_day1 (previous_month_end today)) = true
  /\ toordinal (previous_month_end today) + 1
     = toordinal (replace_day1 today)
  /\ last_month_range today
     = Ok (range (isoformat (replace_day1 (previous_month_end today)))
                 (isoformat (previous_month_end today)))
  /\ (str_in MES_PASADO (py_strip (py_lower user_query)) = true
      \/ str_in ULTIMO_MES (py_strip (py_lower user_query)) = true ->
      SeacrhByDate.fallback_date_parser today user_query
      = last_month_range today)
  /\ (str_in ULTIMA_SEMANA (py_lower user_query) = false ->
      str_in SEMANA_PASADA (py_lower user_query) = false ->
      str_in AYER (py_lower user_query) = false ->
      str_in HOY (py_lower user_query) = false ->
      SearchByDate.fallback_date_parser today user_query
      = last_month_range today).
Proof.
  intros Hd Ho. destruct (previous_month_end_spec today Hd Ho) as [Hv He].
  split; [exact Hv|]. split; [apply replace_day1_date, Hv|].
  split; [lia|]. split; [apply last_month_range_spec; assumption|]. split.
  - intros Hm. unfold SeacrhByDate.fallback_date_parser. cbv zeta.
    replace (str_in MES_PASADO _ || str_in ULTIMO_MES _) with true
      by (destruct Hm as [-> | ->]; [reflexivity | now rewrite orb_true_r]).
    reflexivity.
  - intros H1 H2 H3 H4. unfold SearchByDate.fallback_date_parser. cbv zeta.
    rewrite H1, H2, H3, H4. reflexivity.
Qed.

(** In January 2024 last month is December 2023; in March 2024 it is the
    leap February. *)
Lemma last_month_is_previous_calendar_month_witness :
  SeacrhByDate.fallback_date_parser (R := Concrete.runtime)
    (mkdate 2024 1 15) (str "hoy o el mes pasado")
  = Ok (range (str "2023-12-01") (str "2023-12-31"))
  /\ SearchByDate.fallback_date_parser (R := Concrete.runtime)
       (mkdate 2024 3 31) (str "reportes")
     = Ok (range (str "2024-02-01") (str "2024-02-29")).
Proof.
  split.
  - destruct (last_month_is_previous_calendar_month Concrete.runtime
                (mkdate 2024 1 15) (str "hoy o el mes pasado"))
      as (_ & _ & _ & Hr & H1 & _);
      [reflexivity | vm_compute; discriminate |].
    rewrite H1 by (left; reflexivity). rewrite Hr. reflexivity.
  - destruct (last_month_is_previous_calendar_month Concrete.runtime
                (mkdate 2024 3 31) (str "reportes"))
      as (_ & _ & _ & Hr & _ & H2);
      [reflexivity | vm_compute; discriminate |].
    rewrite H2 by reflexivity. rewrite Hr. reflexivity.
Defined.

(** X3.  In [seacrh_by_date] a query with none of the six phrases and no
    word-bounded year token in its lowered, stripped text falls to the
    default rule and gets the range of last month. *)
Theorem unrecognised_query_gets_last_month (R : PyRuntime) (today : date)
    (user_query : pystr) :
  decimal_digits_ok R ->
  str_in MES_PASADO (py_strip (py_lower user_query)) = false ->
  str_in ULTIMO_MES (py_strip (py_lower user_query)) = false ->
  str_in SEMANA_PASADA (py_strip (py_lower user_query)) = false ->
  str_in ULTIMA_SEMANA (py_strip (py_lower user_query)) = false ->
  str_in AYER (py_strip (py_lower user_query)) = false ->
  str_in HOY (py_strip (py_lower user_query)) = false ->
  (~ exists before tok after,
       year_token_at R (py_strip (py_lower user_query)) before tok after) ->
  SeacrhByDate.fallback_date_parser today user_query
  = last_month_range today.
Proof.
  intros Hdig H1 H2 H3 H4 H5 H6 Hno.
  unfold SeacrhByDate.fallback_date_parser. cbv zeta.
  rewrite H1, H2, H3, H4, H5, H6, (search_year_none _ Hdig Hno). reflexivity.
Qed.

(** "reportes random text" on 10 May 2024: April 2024. *)
Lemma unrecognised_query_gets_last_month_witness :
  SeacrhByDate.fallback_date_parser (R := Concrete.runtime)
    (mkdate 2024 5 10) (str "reportes random text")
  = Ok (range (str "2024-04-01") (str "2024-04-30")).
Proof.
  rewrite (unrecognised_query_gets_last_month Concrete.runtime
             (mkdate 2024 5 10) (str "reportes random text")
             concrete_decimal_digits_ok);
    try reflexivity.
  intros Hex.
  destruct (search_year_token _ concrete_decimal_digits_ok Hex)
    as (b & t & a & _ & Hs & _).
  vm_compute in Hs. discriminate Hs.
Defined.

(** X4.  Every answer of either fallback parser is one real date, or a
    range of real dates whose start is not after its end. *)
Theorem fallback_ranges_are_ordered (R : PyRuntime) (today : date)
    (user_query : pystr) :
  decimal_digits_ok R -> is_date today = true -> 32 <= toordinal today ->
  (exists d, SeacrhByDate.fallback_date_parser today user_query = Ok d
             /\ ordered_date_query d)
  /\ (exists d, SearchByDate.fallback_date_parser today user_query = Ok d
                /\ ordered_date_query d).
Proof.
  intros Hdig Hd Ho. split.
  - apply seacrh_fallback_ordered; assumption.
  - apply search_fallback_ordered; assumption.
Qed.

Lemma fallback_ranges_are_ordered_witness :
  (exists d, SeacrhByDate.fallback_date_parser (R := Concrete.runtime)
               (mkdate 2024 5 10) (str "archivos de 2023") = Ok d
             /\ ordered_date_query d)
  /\ (exists d, SearchByDate.fallback_date_parser (R := Concrete.runtime)
                  (mkdate 2024 5 10) (str "archivos de 2023") = Ok d
                /\ ordered_date_query d).
Proof.
  apply (fallback_ranges_are_ordered Concrete.runtime (mkdate 2024 5 10)
           (str "archivos de 2023") concrete_decimal_digits_ok).
  - reflexivity.
  - vm_compute. discriminate.
Defined.

(** X5.  With the clock on a date from 1 February of year 1 on, step 1 of
    [search_by_date.main] never raises: it returns a dict for every query,
    and when the agent path raises the dict is the DateQuery that the
    fallback parser gives for the UTC date. *)
Theorem search_by_date_resolution_never_raises (R : PyRuntime) (W : World)
    (user_query : pystr) :
  is_date now_utc = true -> 32 <= toordinal now_utc ->
  (exists d, fst (SearchByDate.parse_dates user_query) = Ok d)
  /\ (forall e calls,
        SearchByDate.call_date_parser_agent user_query = (Raise e, calls) ->
        exists d,
          SearchByDate.fallback_date_parser now_utc user_query = Ok d
          /\ fst (SearchByDate.parse_dates user_query) = Ok d
          /\ is_date_query d).
Proof.
  intros Hd Ho.
  destruct (search_fallback_ordered now_utc user_query Hd Ho) as (d & Hf & Hq).
  assert (Hrecover : forall e calls,
             SearchByDate.call_date_parser_agent user_query = (Raise e, calls) ->
             fst (SearchByDate.parse_dates user_query) = Ok d).
  { intros e calls He. unfold SearchByDate.parse_dates, try_except, lift.
    rewrite He, Hf. reflexivity. }
  split.
  - destruct (SearchByDate.call_date_parser_agent user_query)
      as [[d' | e] calls] eqn:Ha.
    + exists d'. unfold SearchByDate.parse_dates, try_except. rewrite Ha.
      reflexivity.
    + exists d. apply (Hrecover e calls eq_refl).
  - intros e calls He. exists d. split; [exact Hf|].
    split; [apply (Hrecover e calls He) | apply ordered_is_date_query, Hq].
Qed.

Lemma search_by_date_resolution_never_raises_witness :
  let W := Concrete.offline (mkdate 2024 5 10) in
  fst (SearchByDate.parse_dates (R := Concrete.runtime) (str "ayer"))
  = Ok (single (str "2024-05-09")).
Proof.
  intros W.
  destruct (search_by_date_resolution_never_raises Concrete.runtime W
              (str "ayer")) as (_ & H).
  - reflexivity.
  - vm_compute. discriminate.
  - destruct (H (ValueError ClientUnavailable) [] eq_refl) as (d & Hf & Hp & _).
    rewrite Hp, <- Hf. cbv -[single range]. reflexivity.
Defined.

(** ** The handlers end to end *)

Section MainCases.
Context {R : PyRuntime} {W : World}.

Lemma seacrh_search_calls (f : pystr) :
  snd (SeacrhByDate.search_filtered_items f) = [SearchCall f].
Proof.
  unfold SeacrhByDate.search_filtered_items, io_bind, emit, lift.
  cbn. reflexivity.
Qed.

Lemma search_completion_calls (u f : pystr) :
  snd (SearchByDate.call_rag_agent_with_filter u f) = [CompletionCall u f].
Proof.
  unfold SearchByDate.call_rag_agent_with_filter, io_bind, emit, lift.
  cbn. reflexivity.
Qed.

(** [main] of [seacrh_by_date] on a query, by the outcome of each step. *)
Lemma seacrh_main_cases (u : pystr) :
  u <> [] ->
  SeacrhByDate.main (Some u)
  = match SeacrhByDate.parse_dates u with
    | (Raise e, calls) => (mkresponse (ErrorBody e) 500, calls)
    | (Ok d, calls) =>
        match build_filter_expression d with
        | Raise e => (mkresponse (ErrorBody e) 500, calls)
        | Ok [] => (SeacrhByDate.no_date_response, calls)
        | Ok f =>
            match fst (SeacrhByDate.search_filtered_items f) with
            | Ok results =>
                (mkresponse (items_body d results) 200, calls ++ [SearchCall f])
            | Raise e =>
                (mkresponse (ErrorBody e) 500, calls ++ [SearchCall f])
            end
        end
    end.
Proof.
  intros Hu. destruct u as [|c u]; [congruence|].
  unfold SeacrhByDate.main, SeacrhByDate.main_steps.
  destruct (SeacrhByDate.parse_dates (c :: u)) as [[d|e] calls]; cbn [io_bind];
    [|reflexivity].
  destruct (build_filter_expression d) as [f|e]; cbn [lift io_bind];
    [|rewrite app_nil_r; reflexivity].
  destruct f as [|c' f]; [cbn; rewrite !app_nil_r; reflexivity|].
  pose proof (seacrh_search_calls (c' :: f)) as Hc.
  destruct (SeacrhByDate.search_filtered_items (c' :: f)) as [[r|e] log];
    cbn in Hc; subst log; cbn; rewrite ?app_nil_r; reflexivity.
Qed.

(** [main] of [search_by_date] on a query, by the outcome of each step. *)
Lemma search_main_cases (raw : pystr) :
  raw <> [] ->
  SearchByDate.main (Some raw)
  = let u := html_unescape raw in
    match SearchByDate.parse_dates u with
    | (Raise e, calls) => (mkresponse (ErrorBody e) 500, calls)
    | (Ok d, calls) =>
        match build_filter_expression d with
        | Raise e => (mkresponse (ErrorBody e) 500, calls)
        | Ok [] =>
            (mkresponse (PlainText (str "No valid date found in query.")) 400,
             calls)
        | Ok f =>
            match let* j := fst (SearchByDate.call_rag_agent_with_filter u f) in
                  SearchByDate.gpt_answer j with
            | Ok answer =>
                (mkresponse (answer_body d f answer) 200,
                 calls ++ [CompletionCall u f])
            | Raise e =>
                (mkresponse (ErrorBody e) 500, calls ++ [CompletionCall u f])
            end
        end
    end.
Proof.
  intros Hu. destruct raw as [|c raw]; [congruence|].
  unfold SearchByDate.main, SearchByDate.main_steps. cbv zeta.
  generalize (html_unescape (c :: raw)). intros u.
  destruct (SearchByDate.parse_dates u) as [[d|e] calls]; cbn [io_bind];
    [|reflexivity].
  destruct (build_filter_expression d) as [f|e]; cbn [lift io_bind];
    [|rewrite app_nil_r; reflexivity].
  destruct f as [|c' f]; [cbn; rewrite !app_nil_r; reflexivity|].
  pose proof (search_completion_calls u (c' :: f)) as Hc.
  destruct (SearchByDate.call_rag_agent_with_filter u (c' :: f))
    as [[j|e] log]; cbn in Hc; subst log; cbn [fst bind io_bind];
    [|rewrite ?app_nil_r; reflexivity].
  destruct (SearchByDate.gpt_answer j) as [a|e]; cbn;
    rewrite ?app_nil_r; reflexivity.
Qed.

Lemma seacrh_agent_trace (u : pystr) :
  (project = false /\ SeacrhByDate.call_date_parser_agent u
                      = (Raise (ValueError ClientUnavailable), []))
  \/ (project = true
      /\ snd (SeacrhByDate.call_date_parser_agent u) = [AgentCall u]).
Proof.
  unfold SeacrhByDate.call_date_parser_agent.
  destruct project; [right | left]; split; reflexivity.
Qed.

Lemma search_agent_trace (u : pystr) :
  (project = false /\ SearchByDate.call_date_parser_agent u
                      = (Raise (ValueError ClientUnavailable), []))
  \/ (project = true
      /\ snd (SearchByDate.call_date_parser_agent u) = [AgentCall u]).
Proof.
  unfold SearchByDate.call_date_parser_agent.
  destruct project; [right | left]; split; reflexivity.
Qed.

Lemma try_except_lift_calls {A} (m : io A) (h : exn -> result A) :
  snd (try_except m (fun e => lift (h e))) = snd m.
Proof.
  destruct m as [[a|e] log]; [reflexivity|].
  unfold try_except, lift. cbn. apply app_nil_r.
Qed.

Lemma seacrh_parse_dates_trace (u : pystr) :
  snd (SeacrhByDate.parse_dates u) = []
  \/ (project = true /\ snd (SeacrhByDate.parse_dates u) = [AgentCall u]).
Proof.
  unfold SeacrhByDate.parse_dates. rewrite try_except_lift_calls.
  destruct (seacrh_agent_trace u) as [[_ ->] | H]; [left; reflexivity | right; exact H].
Qed.

Lemma search_parse_dates_trace (u : pystr) :
  snd (SearchByDate.parse_dates u) = []
  \/ (project = true /\ snd (SearchByDate.parse_dates u) = [AgentCall u]).
Proof.
  unfold SearchByDate.parse_dates. rewrite try_except_lift_calls.
  destruct (search_agent_trace u) as [[_ ->] | H]; [left; reflexivity | right; exact H].
Qed.

End MainCases.

(** X6.  Whatever the request and whatever the services do, each handler
    makes at most one call to the agent, for the query itself, and after
    it at most one downstream call; the filter of that call is the
    non-empty filter built from the dates of step 1.  A request without
    [q], or with an empty one, makes no call at all. *)
Theorem main_call_trace (R : PyRuntime) (W : World) (q : option pystr) :
  (exists agent_calls search_calls,
      snd (SeacrhByDate.main q) = agent_calls ++ search_calls
      /\ (agent_calls = []
          \/ exists u, q = Some u /\ u <> [] /\ project = true
                       /\ agent_calls = [AgentCall u])
      /\ (search_calls = []
          \/ exists u d f,
               q = Some u /\ u <> []
               /\ fst (SeacrhByDate.parse_dates u) = Ok d
               /\ build_filter_expression d = Ok f /\ f <> []
               /\ search_calls = [SearchCall f]))
  /\ (exists agent_calls completion_calls,
        snd (SearchByDate.main q) = agent_calls ++ completion_calls
        /\ (agent_calls = []
            \/ exists raw, q = Some raw /\ raw <> [] /\ project = true
                           /\ agent_calls = [AgentCall (html_unescape raw)])
        /\ (completion_calls = []
            \/ exists raw d f,
                 q = Some raw /\ raw <> []
                 /\ fst (SearchByDate.parse_dates (html_unescape raw)) = Ok d
                 /\ build_filter_expression d = Ok f /\ f <> []
                 /\ completion_calls
                    = [CompletionCall (html_unescape raw) f]))
  /\ ((q = None \/ q = Some []) ->
      snd (SeacrhByDate.main q) = [] /\ snd (SearchByDate.main q) = []
      /\ status_code (fst (SeacrhByDate.main q)) = 400
      /\ status_code (fst (SearchByDate.main q)) = 400).
Proof.
  split; [|split].
  - destruct q as [[|c u]|]; try solve [exists [], []; cbn; auto].
    set (q := c :: u). assert (Hq : q <> []) by discriminate.
    rewrite (seacrh_main_cases q Hq).
    pose proof (seacrh_parse_dates_trace q) as Ht.
    assert (Ha : forall calls, snd (SeacrhByDate.parse_dates q) = calls ->
               calls = [] \/ exists u, Some q = Some u /\ u <> []
                                       /\ project = true
                                       /\ calls = [AgentCall u]).
    { intros calls <-. destruct Ht as [-> | [Hp ->]]; [left; reflexivity|].
      right. exists q. auto. }
    destruct (SeacrhByDate.parse_dates q) as [[d|e] calls] eqn:Hp;
      cbn [snd] in Ha; specialize (Ha calls eq_refl).
    2:{ exists calls, []. rewrite app_nil_r. auto. }
    destruct (build_filter_expression d) as [f|e] eqn:Hb.
    2:{ exists calls, []. rewrite app_nil_r. auto. }
    destruct f as [|c' f].
    { exists calls, []. rewrite app_nil_r. auto. }
    exists calls, [SearchCall (c' :: f)].
    split; [destruct (fst (SeacrhByDate.search_filtered_items (c' :: f)));
            reflexivity|].
    split; [exact Ha|]. right. exists q, d, (c' :: f).
    rewrite Hp. repeat (split; [auto; discriminate|]). reflexivity.
  - destruct q as [[|c u]|]; try solve [exists [], []; cbn; auto].
    set (q := c :: u). assert (Hq : q <> []) by discriminate.
    rewrite (search_main_cases q Hq). cbv zeta.
    pose proof (search_parse_dates_trace (html_unescape q)) as Ht.
    assert (Ha : forall calls,
               snd (SearchByDate.parse_dates (html_unescape q)) = calls ->
               calls = [] \/ exists raw, Some q = Some raw /\ raw <> []
                                         /\ project = true
                                         /\ calls = [AgentCall (html_unescape raw)]).
    { intros calls <-. destruct Ht as [-> | [Hp ->]]; [left; reflexivity|].
      right. exists q. auto. }
    destruct (SearchByDate.parse_dates (html_unescape q)) as [[d|e] calls] eqn:Hp;
      cbn [snd] in Ha; specialize (Ha calls eq_refl).
    2:{ exists calls, []. rewrite app_nil_r. auto. }
    destruct (build_filter_expression d) as [f|e] eqn:Hb.
    2:{ exists calls, []. rewrite app_nil_r. auto. }
    destruct f as [|c' f].
    { exists calls, []. rewrite app_nil_r. auto. }
    exists calls, [CompletionCall (html_unescape q) (c' :: f)].
    split.
    { destruct (let* j := fst (SearchByDate.call_rag_agent_with_filter
                                 (html_unescape q) (c' :: f)) in
                SearchByDate.gpt_answer j); reflexivity. }
    split; [exact Ha|]. right. exists q, d, (c' :: f).
    rewrite Hp. repeat (split; [auto; discriminate|]). reflexivity.
  - intros [-> | ->]; cbn; auto.
Qed.

Section Replies.
Context {R : PyRuntime} {W : World}.

Lemma raise_for_status_ok (reply : http_reply) :
  raise_for_status reply = Ok tt <-> passes_status reply.
Proof.
  unfold raise_for_status, passes_status.
  destruct ((400 <=? reply_status reply) && (reply_status reply <? 600)) eqn:E.
  - apply andb_prop in E. destruct E as [E1 E2].
    apply Z.leb_le in E1. apply Z.ltb_lt in E2.
    split; [discriminate | intros H; exfalso; apply H; lia].
  - split; [intros _ [H1 H2] | reflexivity].
    apply Z.leb_le in H1. apply Z.ltb_lt in H2. rewrite H1, H2 in E.
    discriminate E.
Qed.

(** [search_filtered_items] returns when the index answers with a status
    that [raise_for_status] lets through and a JSON object; the result is
    its "value", or the empty list. *)
Lemma search_filtered_items_ok (f : pystr) (results : json) :
  fst (SeacrhByDate.search_filtered_items f) = Ok results
  <-> exists reply members,
        search_service f = Ok reply /\ passes_status reply
        /\ reply_json reply = Some (JObject members)
        /\ results = default (JArray []) (members !! str "value").
Proof.
  unfold SeacrhByDate.search_filtered_items, io_bind, emit, lift. cbn [fst].
  destruct (search_service f) as [reply|e]; cbn [bind].
  2:{ split; [discriminate|]. intros (r & m & H & _). discriminate H. }
  assert (Hs : (if reply_status reply =? 200 then Ok tt
                else raise_for_status reply) = Ok tt
               <-> passes_status reply).
  { destruct (reply_status reply =? 200) eqn:E.
    - apply Z.eqb_eq in E. unfold passes_status. split; [lia | reflexivity].
    - apply raise_for_status_ok. }
  destruct (if reply_status reply =? 200 then Ok tt else raise_for_status reply)
    as [[]|e]; cbn [bind].
  - destruct (reply_json reply) as [[| | | | | |members]|] eqn:Ej;
      try (split; [discriminate | intros (r & m & Hr & _ & Hj & _);
                                  injection Hr as <-; congruence]).
    split.
    + intros H. injection H as <-. exists reply, members.
      split; [reflexivity|]. split; [apply Hs; reflexivity|]. auto.
    + intros (r & m & Hr & _ & Hj & ->). injection Hr as <-.
      rewrite Ej in Hj. injection Hj as <-. reflexivity.
  - split; [discriminate|]. intros (r & m & Hr & Hp & _).
    injection Hr as <-. apply Hs in Hp. discriminate Hp.
Qed.

(** [gpt_response["choices"][0]["message"]["content"]] *)
Lemma gpt_answer_ok (j answer : json) :
  SearchByDate.gpt_answer j = Ok answer <-> has_answer j answer.
Proof.
  unfold SearchByDate.gpt_answer, has_answer. split.
  - destruct j as [| | | | | |members]; try discriminate. cbn [SearchByDate.getitem].
    destruct (members !! str "choices") as [choices|] eqn:Ec; [|discriminate].
    cbn [bind].
    destruct choices as [| | | |[|c s]|[|[| | | | | |choice] rest]|];
      try discriminate; cbn [SearchByDate.first_item bind SearchByDate.getitem].
    destruct (choice !! str "message") as [m|] eqn:Em; [|discriminate].
    cbn [bind]. destruct m as [| | | | | |msg]; try discriminate.
    cbn [SearchByDate.getitem].
    destruct (msg !! str "content") as [a|] eqn:Ea; [|discriminate].
    intros H. injection H as <-. exists members, choice, rest, msg. auto.
  - intros (members & choice & rest & msg & -> & Hc & Hm & Ha).
    cbn [SearchByDate.getitem]. rewrite Hc.
    cbn [bind SearchByDate.first_item SearchByDate.getitem]. rewrite Hm.
    cbn [bind SearchByDate.getitem]. rewrite Ha. reflexivity.
Qed.

(** [call_rag_agent_with_filter] returns the decoded body of a reply that
    [raise_for_status] lets through. *)
Lemma call_rag_agent_ok (u f : pystr) (j : json) :
  fst (SearchByDate.call_rag_agent_with_filter u f) = Ok j
  <-> exists reply,
        completion_service u f = Ok reply /\ passes_status reply
        /\ reply_json reply = Some j.
Proof.
  unfold SearchByDate.call_rag_agent_with_filter, io_bind, emit, lift. cbn [fst].
  destruct (completion_service u f) as [reply|e]; cbn [bind].
  2:{ split; [discriminate|]. intros (r & H & _). discriminate H. }
  pose proof (raise_for_status_ok reply) as Hs.
  destruct (raise_for_status reply) as [[]|e]; cbn [bind].
  - destruct (reply_json reply) as [j'|] eqn:Ej.
    + split.
      * intros H. injection H as <-. exists reply.
        split; [reflexivity|]. split; [apply Hs; reflexivity | exact Ej].
      * intros (r & Hr & _ & Hj). injection Hr as <-. congruence.
    + split; [discriminate|]. intros (r & Hr & _ & Hj). injection Hr as <-.
      congruence.
  - split; [discriminate|]. intros (r & Hr & Hp & _).
    injection Hr as <-. apply Hs in Hp. discriminate Hp.
Qed.

End Replies.

(** X7.  [seacrh_by_date.main] answers 200, 400 or 500.  It answers 200
    exactly when the query is not empty, the dates of step 1 give a
    non-empty filter, and the index answers the search with a status that
    [raise_for_status] lets through (any status outside 400..599, not only
    200) and a JSON object; the body then holds the dates and the "value"
    of that object, or the empty list without one.  It answers 400 exactly
    when the query is missing or empty or the filter is empty, and 500
    exactly when the body reports an exception. *)
Theorem seacrh_main_status (R : PyRuntime) (W : World) (q : option pystr) :
  (status_code (fst (SeacrhByDate.main q)) = 200
   <-> exists u d f reply members,
         q = Some u /\ u <> []
         /\ fst (SeacrhByDate.parse_dates u) = Ok d
         /\ build_filter_expression d = Ok f /\ f <> []
         /\ search_service f = Ok reply /\ passes_status reply
         /\ reply_json reply = Some (JObject members)
         /\ resp_body (fst (SeacrhByDate.main q))
            = items_body d (default (JArray []) (members !! str "value")))
  /\ (status_code (fst (SeacrhByDate.main q)) = 400
      <-> q = None \/ q = Some []
          \/ exists u d,
               q = Some u /\ fst (SeacrhByDate.parse_dates u) = Ok d
               /\ build_filter_expression d = Ok [])
  /\ (status_code (fst (SeacrhByDate.main q)) = 500
      <-> exists e, resp_body (fst (SeacrhByDate.main q)) = ErrorBody e)
  /\ (status_code (fst (SeacrhByDate.main q)) = 200
      \/ status_code (fst (SeacrhByDate.main q)) = 400
      \/ status_code (fst (SeacrhByDate.main q)) = 500).
Proof.
  destruct q as [[|c u]|].
  1,3: cbn; split; [split; [discriminate | intros (u & d & f & r & m & H1 & H2 & _); congruence]|];
       (split; [split; auto|]); (split; [split; [discriminate | intros [e He]; discriminate He]|]); auto.
  set (q := c :: u). assert (Hq : q <> []) by discriminate.
  rewrite (seacrh_main_cases q Hq).
  destruct (SeacrhByDate.parse_dates q) as [[d|e] calls] eqn:Hp.
  2:{ cbn. split; [split; [discriminate|]|].
      { intros (u' & d & f & r & m & Hu & _ & Hd & _). injection Hu as <-.
        rewrite Hp in Hd. discriminate Hd. }
      split; [split; [discriminate|]|].
      { intros [H | [H | (u' & d & Hu & Hd & _)]]; try discriminate H.
        injection Hu as <-. rewrite Hp in Hd. discriminate Hd. }
      split; [split; eauto | auto]. }
  destruct (build_filter_expression d) as [f|e] eqn:Hb.
  2:{ cbn. split; [split; [discriminate|]|].
      { intros (u' & d' & f & r & m & Hu & _ & Hd & Hf & _). injection Hu as <-.
        rewrite Hp in Hd. injection Hd as <-. congruence. }
      split; [split; [discriminate|]|].
      { intros [H | [H | (u' & d' & Hu & Hd & Hf)]]; try discriminate H.
        injection Hu as <-. rewrite Hp in Hd. injection Hd as <-. congruence. }
      split; [split; eauto | auto]. }
  destruct f as [|c' f].
  { cbn. split; [split; [discriminate|]|].
    { intros (u' & d' & f & r & m & Hu & _ & Hd & Hf & Hne & _).
      injection Hu as <-. rewrite Hp in Hd. injection Hd as <-. congruence. }
    split; [split; [|reflexivity]|].
    { intros _. right. right. exists q, d. rewrite Hp. auto. }
    split; [split; [discriminate | intros [e He]; discriminate He] | auto]. }
  set (f' := c' :: f) in *.
  pose proof (search_filtered_items_ok f') as Hs.
  destruct (fst (SeacrhByDate.search_filtered_items f')) as [results|e].
  - cbn. split; [split; [intros _ | reflexivity]|].
    { destruct (proj1 (Hs results) eq_refl) as (reply & m & H1 & H2 & H3 & ->).
      exists q, d, f', reply, m. rewrite Hp. cbn [fst].
      repeat (split; [auto; discriminate|]). reflexivity. }
    split; [split; [discriminate|]|].
    { intros [H | [H | (u' & d' & Hu & Hd & Hf)]]; try discriminate H.
      injection Hu as <-. rewrite Hp in Hd. injection Hd as <-.
      rewrite Hb in Hf. discriminate Hf. }
    split; [split; [discriminate | intros [e He]; discriminate He] | auto].
  - cbn. split; [split; [discriminate|]|].
    { intros (u' & d' & f0 & r & m & Hu & _ & Hd & Hf & _ & H1 & H2 & H3 & _).
      injection Hu as <-. rewrite Hp in Hd. injection Hd as <-.
      rewrite Hb in Hf. injection Hf as <-.
      assert (Hok : Raise e = Ok (default (JArray []) (m !! str "value")))
        by (apply Hs; exists r, m; auto).
      discriminate Hok. }
    split; [split; [discriminate|]|].
    { intros [H | [H | (u' & d' & Hu & Hd & Hf)]]; try discriminate H.
      injection Hu as <-. rewrite Hp in Hd. injection Hd as <-.
      rewrite Hb in Hf. discriminate Hf. }
    split; [split; eauto | auto].
Qed.

(** X8.  [search_by_date.main] answers 200, 400 or 500.  It answers 200
    exactly when the query is not empty, the dates of step 1 give a
    non-empty filter, the completion endpoint answers with a status that
    [raise_for_status] lets through and a JSON body, and that body has a
    content at ["choices"][0]["message"]["content"]; the body of the
    response then holds the dates, the filter and that content.  It
    answers 400 exactly when the query is missing or empty or the filter is
    empty, and 500 exactly when the body reports an exception. *)
Theorem search_main_status (R : PyRuntime) (W : World) (q : option pystr) :
  (status_code (fst (SearchByDate.main q)) = 200
   <-> exists raw d f reply j answer,
         q = Some raw /\ raw <> []
         /\ fst (SearchByDate.parse_dates (html_unescape raw)) = Ok d
         /\ build_filter_expression d = Ok f /\ f <> []
         /\ completion_service (html_unescape raw) f = Ok reply
         /\ passes_status reply
         /\ reply_json reply = Some j /\ has_answer j answer
         /\ resp_body (fst (SearchByDate.main q)) = answer_body d f answer)
  /\ (status_code (fst (SearchByDate.main q)) = 400
      <-> q = None \/ q = Some []
          \/ exists raw d,
               q = Some raw
               /\ fst (SearchByDate.parse_dates (html_unescape raw)) = Ok d
               /\ build_filter_expression d = Ok [])
  /\ (status_code (fst (SearchByDate.main q)) = 500
      <-> exists e, resp_body (fst (SearchByDate.main q)) = ErrorBody e)
  /\ (status_code (fst (SearchByDate.main q)) = 200
      \/ status_code (fst (SearchByDate.main q)) = 400
      \/ status_code (fst (SearchByDate.main q)) = 500).
Proof.
  destruct q as [[|c u]|].
  1,3: cbn; split; [split; [discriminate | intros (u & d & f & r & j & a & H1 & H2 & _); congruence]|];
       (split; [split; auto|]); (split; [split; [discriminate | intros [e He]; discriminate He]|]); auto.
  set (q := c :: u). assert (Hq : q <> []) by discriminate.
  rewrite (search_main_cases q Hq). cbv zeta.
  destruct (SearchByDate.parse_dates (html_unescape q)) as [[d|e] calls] eqn:Hp.
  2:{ cbn. split; [split; [discriminate|]|].
      { intros (u' & d & f & r & j & a & Hu & _ & Hd & _). injection Hu as <-.
        rewrite Hp in Hd. discriminate Hd. }
      split; [split; [discriminate|]|].
      { intros [H | [H | (u' & d & Hu & Hd & _)]]; try discriminate H.
        injection Hu as <-. rewrite Hp in Hd. discriminate Hd. }
      split; [split; eauto | auto]. }
  destruct (build_filter_expression d) as [f|e] eqn:Hb.
  2:{ cbn. split; [split; [discriminate|]|].
      { intros (u' & d' & f & r & j & a & Hu & _ & Hd & Hf & _).
        injection Hu as <-. rewrite Hp in Hd. injection Hd as <-. congruence. }
      split; [split; [discriminate|]|].
      { intros [H | [H | (u' & d' & Hu & Hd & Hf)]]; try discriminate H.
        injection Hu as <-. rewrite Hp in Hd. injection Hd as <-. congruence. }
      split; [split; eauto | auto]. }
  destruct f as [|c' f].
  { cbn. split; [split; [discriminate|]|].
    { intros (u' & d' & f & r & j & a & Hu & _ & Hd & Hf & Hne & _).
      injection Hu as <-. rewrite Hp in Hd. injection Hd as <-. congruence. }
    split; [split; [|reflexivity]|].
    { intros _. right. right. exists q, d. rewrite Hp. auto. }
    split; [split; [discriminate | intros [e He]; discriminate He] | auto]. }
  set (f' := c' :: f) in *.
  assert (Hs : forall a,
             (let* j := fst (SearchByDate.call_rag_agent_with_filter
                               (html_unescape q) f') in
              SearchByDate.gpt_answer j) = Ok a
             <-> exists reply j,
                   completion_service (html_unescape q) f' = Ok reply
                   /\ passes_status reply /\ reply_json reply = Some j
                   /\ has_answer j a).
  { intros a.
    pose proof (call_rag_agent_ok (html_unescape q) f') as Hc.
    destruct (fst (SearchByDate.call_rag_agent_with_filter (html_unescape q) f'))
      as [j|e]; cbn [bind].
    - destruct (proj1 (Hc j) eq_refl) as (reply & H1 & H2 & H3).
      rewrite gpt_answer_ok. split.
      + intros Ha. exists reply, j. auto.
      + intros (r & j' & Hr & _ & Hj & Ha). rewrite H1 in Hr.
        injection Hr as <-. rewrite H3 in Hj. injection Hj as <-. exact Ha.
    - split; [discriminate|]. intros (r & j & Hr & Hpass & Hj & _).
      assert (Hok : Raise e = Ok j) by (apply Hc; exists r; auto).
      discriminate Hok. }
  destruct (let* j := fst (SearchByDate.call_rag_agent_with_filter
                             (html_unescape q) f') in
            SearchByDate.gpt_answer j) as [answer|e].
  - cbn. split; [split; [intros _ | reflexivity]|].
    { destruct (proj1 (Hs answer) eq_refl) as (reply & j & H1 & H2 & H3 & H4).
      exists q, d, f', reply, j, answer. rewrite Hp. cbn [fst].
      repeat (split; [auto; discriminate|]). reflexivity. }
    split; [split; [discriminate|]|].
    { intros [H | [H | (u' & d' & Hu & Hd & Hf)]]; try discriminate H.
      injection Hu as <-. rewrite Hp in Hd. injection Hd as <-.
      rewrite Hb in Hf. discriminate Hf. }
    split; [split; [discriminate | intros [e He]; discriminate He] | auto].
  - cbn. split; [split; [discriminate|]|].
    { intros (u' & d' & f0 & r & j & a & Hu & _ & Hd & Hf & _ & H1 & H2 & H3 & H4 & _).
      injection Hu as <-. rewrite Hp in Hd. injection Hd as <-.
      rewrite Hb in Hf. injection Hf as <-.
      assert (Hok : Raise e = Ok a) by (apply Hs; exists r, j; auto).
      discriminate Hok. }
    split; [split; [discriminate|]|].
    { intros [H | [H | (u' & d' & Hu & Hd & Hf)]]; try discriminate H.
      injection Hu as <-. rewrite Hp in Hd. injection Hd as <-.
      rewrite Hb in Hf. discriminate Hf. }
    split; [split; eauto | auto].
Qed.

Section FallbackPath.
Context {R : PyRuntime} {W : World}.

(** An ordered DateQuery builds a non-empty filter that embeds its dates. *)
Lemma ordered_filter (d : dict) :
  parses_iso_dates R -> ordered_date_query d ->
  exists f, build_filter_expression d = Ok f /\ f <> []
            /\ embedded_dates f = date_values d.
Proof.
  intros Hiso [(a & Ha & ->) | (a & b & Ha & Hb & _ & ->)].
  - exists (FIELD ++ str " eq " ++ isoformat a ++ str "T00:00:00Z").
    split; [apply build_filter_single_iso; assumption|].
    split; [discriminate|].
    rewrite date_values_single. apply embedded_single, isoformat_length, Ha.
  - exists (str "(" ++ FIELD ++ str " ge " ++ isoformat a
            ++ str "T00:00:00Z and " ++ FIELD ++ str " le "
            ++ isoformat b ++ str "T23:59:59Z)").
    split; [apply build_filter_range_iso; assumption|].
    split; [discriminate|].
    rewrite date_values_range.
    apply embedded_range; apply isoformat_length; assumption.
Qed.

Lemma seacrh_parse_dates_fallback (u : pystr) (e : exn) (calls : list call)
    (d : dict) :
  SeacrhByDate.call_date_parser_agent u = (Raise e, calls) ->
  SeacrhByDate.fallback_date_parser now_local u = Ok d ->
  SeacrhByDate.parse_dates u = (Ok d, calls).
Proof.
  intros Ha Hf. unfold SeacrhByDate.parse_dates, try_except, lift.
  rewrite Ha, Hf. rewrite app_nil_r. reflexivity.
Qed.

Lemma search_parse_dates_fallback (u : pystr) (e : exn) (calls : list call)
    (d : dict) :
  SearchByDate.call_date_parser_agent u = (Raise e, calls) ->
  SearchByDate.fallback_date_parser now_utc u = Ok d ->
  SearchByDate.parse_dates u = (Ok d, calls).
Proof.
  intros Ha Hf. unfold SearchByDate.parse_dates, try_except, lift.
  rewrite Ha, Hf. rewrite app_nil_r. reflexivity.
Qed.

End FallbackPath.

(** X9.  When the agent path raises, for whatever reason, the handler goes
    on with the dates of the fallback parser: they build a non-empty filter
    that embeds them, the one downstream call is made with that filter, and
    the answer is never the 400 of a query without dates.  With the clocks
    on a date from 1 February of year 1 on. *)
Theorem agent_failure_still_searches (R : PyRuntime) (W : World)
    (q : pystr) (e : exn) (calls : list call) :
  parses_iso_dates R -> decimal_digits_ok R -> q <> [] ->
  (is_date now_local = true -> 32 <= toordinal now_local ->
   SeacrhByDate.call_date_parser_agent q = (Raise e, calls) ->
   exists d f,
     SeacrhByDate.fallback_date_parser now_local q = Ok d
     /\ build_filter_expression d = Ok f /\ f <> []
     /\ embedded_dates f = date_values d
     /\ snd (SeacrhByDate.main (Some q)) = calls ++ [SearchCall f]
     /\ status_code (fst (SeacrhByDate.main (Some q))) <> 400)
  /\ (is_date now_utc = true -> 32 <= toordinal now_utc ->
      SearchByDate.call_date_parser_agent (html_unescape q)
      = (Raise e, calls) ->
      exists d f,
        SearchByDate.fallback_date_parser now_utc (html_unescape q) = Ok d
        /\ build_filter_expression d = Ok f /\ f <> []
        /\ embedded_dates f = date_values d
        /\ snd (SearchByDate.main (Some q))
           = calls ++ [CompletionCall (html_unescape q) f]
        /\ status_code (fst (SearchByDate.main (Some q))) <> 400).
Proof.
  intros Hiso Hdig Hq. split.
  - intros Hd Ho Ha.
    destruct (seacrh_fallback_ordered now_local q Hdig Hd Ho) as (d & Hf & Hord).
    destruct (ordered_filter d Hiso Hord) as (f & Hb & Hne & Hemb).
    exists d, f. repeat (split; [assumption|]).
    rewrite (seacrh_main_cases q Hq),
      (seacrh_parse_dates_fallback q e calls d Ha Hf), Hb.
    destruct f as [|c f]; [congruence|].
    destruct (fst (SeacrhByDate.search_filtered_items (c :: f)));
      split; try reflexivity; cbn; discriminate.
  - intros Hd Ho Ha.
    destruct (search_fallback_ordered now_utc (html_unescape q) Hd Ho)
      as (d & Hf & Hord).
    destruct (ordered_filter d Hiso Hord) as (f & Hb & Hne & Hemb).
    exists d, f. repeat (split; [assumption|]).
    rewrite (search_main_cases q Hq). cbv zeta.
    rewrite (search_parse_dates_fallback _ e calls d Ha Hf), Hb.
    destruct f as [|c f]; [congruence|].
    destruct (let* j := fst (SearchByDate.call_rag_agent_with_filter
                               (html_unescape q) (c :: f)) in
              SearchByDate.gpt_answer j);
      split; try reflexivity; cbn; discriminate.
Qed.

(** Without the agent client, "informes de 2023" is searched with the
    filter of the year 2023 by [seacrh_by_date], and with the filter of
    April 2024 by [search_by_date], which has no year rule. *)
Lemma agent_failure_still_searches_witness :
  let W := Concrete.offline (mkdate 2024 5 10) in
  snd (SeacrhByDate.main (R := Concrete.runtime) (Some (str "informes de 2023")))
  = [SearchCall (str "(metadata_spo_item_release_date ge 2023-01-01T00:00:00Z and metadata_spo_item_release_date le 2023-12-31T23:59:59Z)")]
  /\ snd (SearchByDate.main (R := Concrete.runtime)
            (Some (str "informes de 2023")))
     = [CompletionCall (str "informes de 2023")
          (str "(metadata_spo_item_release_date ge 2024-04-01T00:00:00Z and metadata_spo_item_release_date le 2024-04-30T23:59:59Z)")].
Proof.
  intros W.
  destruct (agent_failure_still_searches Concrete.runtime W
              (str "informes de 2023") (ValueError ClientUnavailable) []
              concrete_parses_iso_dates concrete_decimal_digits_ok)
    as [H1 H2]; [discriminate|].
  split.
  - destruct H1 as (d & f & Hf & Hb & _ & _ & Hc & _);
      [reflexivity | vm_compute; discriminate | reflexivity |].
    rewrite Hc. cbn [app]. f_equal. f_equal. apply Ok_inj. rewrite <- Hb.
    assert (d = range (str "2023-01-01") (str "2023-12-31")) as ->
      by (apply Ok_inj; rewrite <- Hf; cbv -[single range]; reflexivity).
    vm_compute. reflexivity.
  - destruct H2 as (d & f & Hf & Hb & _ & _ & Hc & _);
      [reflexivity | vm_compute; discriminate | reflexivity |].
    rewrite Hc. cbn [app]. f_equal. f_equal. apply Ok_inj. rewrite <- Hb.
    assert (d = range (str "2024-04-01") (str "2024-04-30")) as ->
      by (apply Ok_inj; rewrite <- Hf; cbv -[single range]; reflexivity).
    vm_compute. reflexivity.
Defined.

(** X10.  The fallback parser stands in for a failing agent only: when the
    agent answers with a dict whose "date" is not a string, or a string the
    date parser rejects (or, without "date", whose "start" or "end" is
    such a value), [build_filter_expression] raises, the handler answers
    500 with that exception, and no downstream call is made.  A "date" is
    read first: valid "start" and "end" beside it do not help. *)
Theorem unreadable_agent_date_is_an_error (R : PyRuntime) (W : World)
    (q : pystr) (history : list message) (d : dict) (e : exn) :
  q <> [] -> project = true ->
  (match d !! str "date" with
   | Some v => normalize_date v = Raise e
   | None =>
       exists vs ve,
         d !! str "start" = Some vs /\ d !! str "end" = Some ve
         /\ (normalize_date vs = Raise e
             \/ (exists s, normalize_date vs = Ok s)
                /\ normalize_date ve = Raise e)
   end) ->
  (agent_service q = RunCompleted history ->
   SeacrhByDate.response_to_dict history = Ok d ->
   SeacrhByDate.main (Some q)
   = (mkresponse (ErrorBody e) 500, [AgentCall q]))
  /\ (agent_service (html_unescape q) = RunCompleted history ->
      SearchByDate.response_to_dict history = Ok d ->
      SearchByDate.main (Some q)
      = (mkresponse (ErrorBody e) 500, [AgentCall (html_unescape q)])).
Proof.
  intros Hq Hproj Hbad.
  assert (Hb : build_filter_expression d = Raise e).
  { unfold build_filter_expression.
    destruct (d !! str "date") as [v|]; [rewrite Hbad; reflexivity|].
    destruct Hbad as (vs & ve & -> & -> & [Hs | [[s Hs] He]]);
      rewrite Hs; [reflexivity|]. cbn [bind]. rewrite He. reflexivity. }
  split; intros Ha Hr.
  - rewrite (seacrh_main_cases q Hq),
      (seacrh_parse_dates_agent q history d Hproj Ha Hr), Hb. reflexivity.
  - rewrite (search_main_cases q Hq). cbv zeta.
    rewrite (search_parse_dates_agent _ history d Hproj Ha Hr), Hb.
    reflexivity.
Qed.

(** The agent answers {date: "pronto"}: both handlers answer 500 with the
    parser's error and search nothing. *)
Lemma unreadable_agent_date_is_an_error_witness :
  let reply := str "{" ++ quoted (str "date") ++ str ": "
               ++ quoted (str "pronto") ++ str "}" in
  let W := Concrete.answering (mkdate 2024 5 10) [Concrete.assistant reply] in
  SeacrhByDate.main (R := Concrete.runtime) (Some (str "pronto"))
  = (mkresponse (ErrorBody (ParserError (str "pronto"))) 500,
     [AgentCall (str "pronto")])
  /\ SearchByDate.main (R := Concrete.runtime) (Some (str "pronto"))
     = (mkresponse (ErrorBody (ParserError (str "pronto"))) 500,
        [AgentCall (str "pronto")]).
Proof.
  intros reply W.
  destruct (unreadable_agent_date_is_an_error Concrete.runtime W
              (str "pronto") [Concrete.assistant reply]
              (single (str "pronto")) (ParserError (str "pronto")))
    as [H1 H2]; [discriminate | reflexivity | reflexivity |].
  split; [apply H1 | apply H2]; try reflexivity;
    cbv -[single range]; reflexivity.
Defined.



(** ** The lazy brace search of [search_by_date] *)

Section LazySearch.

Lemma lazy_body_complete (inner rest : pystr) :
  Forall (fun c => c <> RBRACE /\ c <> NEWLINE) inner ->
  lazy_body (inner ++ RBRACE :: rest) = Some (inner ++ [RBRACE]).
Proof.
  induction 1 as [|c inner [Hr Hn] _ IH]; cbn [app lazy_body].
  - rewrite Z.eqb_refl. reflexivity.
  - apply Z.eqb_neq in Hr, Hn. rewrite Hr, Hn, IH. reflexivity.
Qed.

Lemma lazy_object_here (c : Z) (s m after : pystr) :
  lazy_object_at (c :: s) [] m after ->
  c = LBRACE /\ exists b, lazy_body s = Some b /\ m = c :: b.
Proof.
  intros (Hs & inner & -> & Hin). cbn [app] in Hs. injection Hs as -> ->.
  split; [reflexivity|]. exists (inner ++ [RBRACE]). split; [|reflexivity].
  rewrite <- app_assoc. apply lazy_body_complete, Hin.
Qed.

Lemma lazy_object_later (c : Z) (s before m after : pystr) :
  lazy_object_at (c :: s) (c :: before) m after <->
  lazy_object_at s before m after.
Proof.
  unfold lazy_object_at. cbn [app]. split.
  - intros (Hs & Hm). injection Hs as ->. split; [reflexivity | exact Hm].
  - intros (-> & Hm). split; [reflexivity | exact Hm].
Qed.

Lemma search_lazy_braces_leftmost (s : pystr) :
  (exists before m after, lazy_object_at s before m after) ->
  exists m, search_lazy_braces s = Some m /\ leftmost_lazy_object s m.
Proof.
  induction s as [|c s IH]; intros (before & m & after & Hat).
  - destruct Hat as (Hs & inner & -> & _). destruct before; discriminate Hs.
  - cbn [search_lazy_braces].
    assert (Hhere : forall b, c = LBRACE -> lazy_body s = Some b ->
              leftmost_lazy_object (c :: s) (c :: b)).
    { intros b -> Hb.
      destruct (lazy_body_sound s b Hb) as (inner & rest & -> & -> & Hin).
      exists [], rest. split.
      - split; [cbn [app]; rewrite <- app_assoc; reflexivity|].
        exists inner. split; [reflexivity | exact Hin].
      - intros. cbn [length]. lia. }
    assert (Hlater : (exists before m after, lazy_object_at s before m after) ->
              (forall m' after', ~ lazy_object_at (c :: s) [] m' after') ->
              exists m, search_lazy_braces s = Some m
                        /\ leftmost_lazy_object (c :: s) m).
    { intros Hex Hnot. destruct (IH Hex) as (m0 & Hs0 & b0 & a0 & Hat0 & Hmin).
      exists m0. split; [exact Hs0|]. exists (c :: b0), a0.
      split; [apply (proj2 (lazy_object_later _ _ _ _ _)), Hat0|].
      intros b' m' a' Hat'. destruct b' as [|c' b'].
      - exfalso. exact (Hnot m' a' Hat').
      - assert (c' = c) as ->
          by (pose proof (proj1 Hat') as Hs'; cbn [app] in Hs'; congruence).
        apply (proj1 (lazy_object_later _ _ _ _ _)) in Hat'. cbn [length].
        pose proof (Hmin b' m' a' Hat'). lia. }
    assert (Hex : (forall m' after', ~ lazy_object_at (c :: s) [] m' after') ->
              exists before m after, lazy_object_at s before m after).
    { intros Hnot. destruct before as [|c' before].
      - exfalso. exact (Hnot m after Hat).
      - assert (c' = c) as ->
          by (pose proof (proj1 Hat) as Hs'; cbn [app] in Hs'; congruence).
        apply (proj1 (lazy_object_later _ _ _ _ _)) in Hat. eauto. }
    destruct (c =? LBRACE) eqn:El.
    + apply Z.eqb_eq in El. destruct (lazy_body s) as [b|] eqn:Hb.
      * exists (c :: b). split; [reflexivity | apply Hhere; auto].
      * assert (Hnot : forall m' after', ~ lazy_object_at (c :: s) [] m' after').
        { intros m' a' Hat'. apply lazy_object_here in Hat'.
          destruct Hat' as (_ & b & Hb' & _). congruence. }
        apply Hlater; [apply Hex|]; exact Hnot.
    + apply Z.eqb_neq in El.
      assert (Hnot : forall m' after', ~ lazy_object_at (c :: s) [] m' after').
      { intros m' a' Hat'. apply lazy_object_here in Hat'.
        destruct Hat' as (Hc & _). contradiction. }
      apply Hlater; [apply Hex|]; exact Hnot.
Qed.

(** Two lazy objects that start at the same place are the same: each ends
    at the first closing brace. *)
Lemma lazy_object_unique (text before m after before' m' after' : pystr) :
  lazy_object_at text before m after ->
  lazy_object_at text before' m' after' ->
  length before = length before' -> m = m'.
Proof.
  intros (Hs & inner & -> & Hin) (Hs' & inner' & -> & Hin') Hlen.
  rewrite Hs in Hs'. apply app_inj_1 in Hs'; [|exact Hlen].
  destruct Hs' as [_ Hs']. cbn [app] in Hs'. injection Hs' as Hs'.
  rewrite <- !app_assoc in Hs'. cbn [app] in Hs'.
  f_equal. f_equal. clear - Hs' Hin Hin'.
  revert inner' Hin' Hs'.
  induction Hin as [|c inner [Hc _] _ IH]; intros inner' Hin' Hs'.
  - destruct Hin' as [|c' inner' [Hc' _] _]; [reflexivity|].
    cbn [app] in Hs'. injection Hs' as Hs' _. congruence.
  - destruct Hin' as [|c' inner' [Hc' _] Hin'].
    + cbn [app] in Hs'. injection Hs' as Hs' _. congruence.
    + cbn [app] in Hs'. injection Hs' as -> Hs'. f_equal.
      apply IH; assumption.
Qed.

(** A flat object on one line is also a lazy object. *)
Lemma flat_object_on_one_line (text before m after : pystr) :
  flat_object_at text before m after -> Forall (fun c => c <> NEWLINE) m ->
  lazy_object_at text before m after.
Proof.
  intros (Hs & inner & -> & Hin) Hnl. split; [exact Hs|].
  exists inner. split; [reflexivity|].
  apply Forall_cons_1 in Hnl. destruct Hnl as [_ Hnl].
  apply Forall_app in Hnl. destruct Hnl as [Hnl _].
  rewrite Forall_forall in *. intros c Hc. split; [apply Hin, Hc | apply Hnl, Hc].
Qed.

End LazySearch.

(** X12.  The search for [\{.*?\}] in [search_by_date] returns the leftmost
    substring that runs from an opening brace to the first closing brace
    after it on the same line, and returns nothing exactly when the text
    has no such substring.  So it finds a match, starting no later,
    wherever the text holds a one-line object without inner braces, the
    kind [seacrh_by_date] looks for; and it finds nothing when the opening
    braces all stand between the first of them and a line break, with no
    closing brace in between, as in an object printed over several
    lines. *)
Theorem lazy_brace_search_is_leftmost (s : pystr) :
  (forall m, search_lazy_braces s = Some m <-> leftmost_lazy_object s m)
  /\ (search_lazy_braces s = None
      <-> ~ exists before m after, lazy_object_at s before m after)
  /\ (forall before m after,
        flat_object_at s before m after ->
        Forall (fun c => c <> NEWLINE) m ->
        exists before' m' after',
          search_lazy_braces s = Some m'
          /\ s = before' ++ m' ++ after'
          /\ (length before' <= length before)%nat)
  /\ (forall before inner after,
        s = before ++ LBRACE :: inner ++ NEWLINE :: after ->
        Forall (fun c => c <> LBRACE) before ->
        Forall (fun c => c <> RBRACE) inner ->
        Forall (fun c => c <> LBRACE) after ->
        search_lazy_braces s = None).
Proof.
  assert (Hsound : forall m, search_lazy_braces s = Some m ->
            exists before after, lazy_object_at s before m after)
    by apply search_lazy_braces_sound.
  assert (Hnone : search_lazy_braces s = None
                  <-> ~ exists before m after, lazy_object_at s before m after).
  { split.
    - intros H Hex. destruct (search_lazy_braces_leftmost s Hex) as (m & Hm & _).
      congruence.
    - intros Hno. destruct (search_lazy_braces s) as [m|] eqn:H; [|reflexivity].
      exfalso. apply Hno. destruct (Hsound m eq_refl) as (b & a & Hat). eauto. }
  split; [|split; [exact Hnone|split]].
  - intros m. split.
    + intros H. destruct (Hsound m H) as (b & a & Hat).
      destruct (search_lazy_braces_leftmost s) as (m0 & H0 & Hl); [eauto|].
      congruence.
    + intros (b & a & Hat & Hmin).
      destruct (search_lazy_braces_leftmost s)
        as (m0 & H0 & b0 & a0 & Hat0 & Hmin0); [eauto|].
      rewrite H0. f_equal.
      apply (lazy_object_unique s b0 m0 a0 b m a Hat0 Hat).
      pose proof (Hmin b0 m0 a0 Hat0). pose proof (Hmin0 b m a Hat). lia.
  - intros before m after Hflat Hnl.
    pose proof (flat_object_on_one_line s before m after Hflat Hnl) as Hlazy.
    destruct (search_lazy_braces_leftmost s)
      as (m0 & H0 & b0 & a0 & Hat0 & Hmin0); [eauto|].
    exists b0, m0, a0. split; [exact H0|]. split; [exact (proj1 Hat0)|].
    apply (Hmin0 before m after Hlazy).
  - intros before inner after -> Hb Hi Ha. clear Hsound Hnone.
    assert (Hrest : forall t, Forall (fun c => c <> LBRACE) t ->
              search_lazy_braces t = None).
    { induction 1 as [|c t Hc _ IHt]; cbn [search_lazy_braces];
        [reflexivity|]. apply Z.eqb_neq in Hc. rewrite Hc. exact IHt. }
    assert (Hbody : forall t, Forall (fun c => c <> RBRACE) t ->
              lazy_body (t ++ NEWLINE :: after) = None).
    { induction 1 as [|c t Hc _ IHt]; cbn [app lazy_body]; [reflexivity|].
      apply Z.eqb_neq in Hc. rewrite Hc, IHt.
      destruct (c =? NEWLINE); reflexivity. }
    assert (Hinner : forall t, Forall (fun c => c <> RBRACE) t ->
              search_lazy_braces (t ++ NEWLINE :: after) = None).
    { induction 1 as [|c t Hc Ht IHt]; cbn [app search_lazy_braces].
      - change (NEWLINE =? LBRACE) with false. cbv iota. apply Hrest, Ha.
      - rewrite (Hbody t Ht), IHt. destruct (c =? LBRACE); reflexivity. }
    induction Hb as [|c before Hc _ IH]; cbn [app search_lazy_braces].
    + rewrite Z.eqb_refl, (Hbody inner Hi). apply Hinner, Hi.
    + apply Z.eqb_neq in Hc. rewrite Hc. exact IH.
Qed.

(** ** The two fallback parsers side by side *)

Section SideBySide.
Context {R : PyRuntime}.

Lemma lstrip_suffix (s : pystr) : exists pre, s = pre ++ py_lstrip s.
Proof.
  induction s as [|c s [pre IH]]; [exists []; reflexivity|].
  cbn [py_lstrip]. destruct (uni_isspace c).
  - exists (c :: pre). cbn [app]. f_equal. exact IH.
  - exists []. reflexivity.
Qed.

Lemma rstrip_prefix (s : pystr) : exists suf, s = py_rstrip s ++ suf.
Proof.
  unfold py_rstrip. destruct (lstrip_suffix (rev s)) as [pre H].
  exists (rev pre). rewrite <- rev_app_distr, <- H, rev_involutive.
  reflexivity.
Qed.

Lemma strip_infix (s : pystr) : exists pre suf, s = pre ++ py_strip s ++ suf.
Proof.
  unfold py_strip. destruct (lstrip_suffix s) as [pre Hp].
  destruct (rstrip_prefix (py_lstrip s)) as [suf Hs].
  exists pre, suf. rewrite <- Hs. exact Hp.
Qed.

(** Stripping never changes the test for a phrase. *)
Lemma str_in_strip (phrase s : pystr) :
  phrase_tables_ok R -> is_phrase phrase ->
  str_in phrase (py_strip s) = str_in phrase s.
Proof.
  intros Hok Hp. destruct (str_in phrase s) eqn:E.
  - apply phrase_survives_strip; assumption.
  - destruct (str_in phrase (py_strip s)) eqn:E'; [|reflexivity].
    apply str_in_spec in E'. destruct E' as (b & a & Hs).
    destruct (strip_infix s) as (pre & suf & Hi). rewrite Hs in Hi.
    assert (Hin : str_in phrase s = true).
    { apply str_in_spec. exists (pre ++ b), (a ++ suf).
      rewrite Hi, <- !app_assoc. reflexivity. }
    congruence.
Qed.

End SideBySide.

(** X13.  The six phrases are looked for in the lowered query; the
    [strip()] that [seacrh_by_date] adds changes none of these tests, and a
    query that holds a phrase as written, in lower case, passes the test
    whatever stands around the phrase.  So the two packages test the same
    thing.  It relies on the Unicode tables only in that lowering leaves
    lower-case letters and the space alone and that letters are not white
    space. *)
Theorem phrase_tests_ignore_strip (R : PyRuntime) (phrase user_query : pystr) :
  phrase_tables_ok R ->
  In phrase [MES_PASADO; ULTIMO_MES; SEMANA_PASADA; ULTIMA_SEMANA; AYER; HOY] ->
  str_in phrase (py_strip (py_lower user_query))
  = str_in phrase (py_lower user_query)
  /\ (str_in phrase user_query = true ->
      str_in phrase (py_lower user_query) = true).
Proof.
  intros Hok Hin.
  assert (Hp : is_phrase phrase).
  { destruct phrases_are_phrases as (H1 & H2 & H3 & H4 & H5 & H6).
    cbn [In] in Hin.
    destruct Hin as [<- | [<- | [<- | [<- | [<- | [<- | []]]]]]]; assumption. }
  split; [apply str_in_strip; assumption|].
  intros H. apply (written_phrase_is_found phrase user_query Hok Hp H).
Qed.

(** "  la semana pasada  ": found with and without the strip. *)
Lemma phrase_tests_ignore_strip_witness :
  str_in SEMANA_PASADA
    (py_strip (R := Concrete.runtime)
       (py_lower (R := Concrete.runtime) (str "  la semana pasada  ")))
  = true.
Proof.
  destruct (phrase_tests_ignore_strip Concrete.runtime SEMANA_PASADA
              (str "  la semana pasada  ") concrete_phrase_tables_ok)
    as [H1 H2]; [cbn [In]; auto|].
  rewrite H1. apply H2. reflexivity.
Defined.



(** ** The test of the date calculations *)

Section DateTest.
Context {R : PyRuntime}.

Lemma lower_phrase (phrase : pystr) :
  phrase_tables_ok R -> is_phrase phrase -> py_lower phrase = phrase.
Proof.
  intros Hok Hp. unfold py_lower.
  rewrite <- (app_nil_r phrase) at 1.
  rewrite (lower_from_phrase phrase [] [] Hok (is_phrase_chars _ Hp)).
  cbn [lower_from]. apply app_nil_r.
Qed.

Lemma strip_phrase (phrase : pystr) :
  phrase_tables_ok R -> is_phrase phrase -> py_strip phrase = phrase.
Proof.
  intros [_ Hsp] (a & middle & b & -> & Ha & Hb & _).
  unfold py_strip, py_rstrip. cbn [py_lstrip]. rewrite (Hsp a Ha).
  change (a :: middle ++ [b]) with ((a :: middle) ++ [b]).
  rewrite rev_app_distr. cbn [rev app py_lstrip]. rewrite (Hsp b Hb).
  change (b :: rev middle ++ [a]) with ([b] ++ rev (a :: middle)).
  rewrite rev_app_distr, rev_involutive. reflexivity.
Qed.

Lemma date_is_single (v expected : pystr) :
  date_is (single v) expected = bool_decide (v = expected).
Proof. unfold date_is. rewrite single_date. reflexivity. Qed.

Lemma seacrh_on_ayer (today : date) :
  phrase_tables_ok R ->
  SeacrhByDate.fallback_date_parser today (str "ayer")
  = let* yesterday := sub_days today 1 in Ok (single (isoformat yesterday)).
Proof.
  intros Hok. destruct phrases_are_phrases as (_ & _ & _ & _ & P5 & _).
  unfold SeacrhByDate.fallback_date_parser. cbv zeta.
  change (str "ayer") with AYER.
  rewrite (lower_phrase AYER Hok P5), (strip_phrase AYER Hok P5).
  reflexivity.
Qed.

Lemma seacrh_on_hoy (today : date) :
  phrase_tables_ok R ->
  SeacrhByDate.fallback_date_parser today (str "hoy")
  = Ok (single (isoformat today)).
Proof.
  intros Hok. destruct phrases_are_phrases as (_ & _ & _ & _ & _ & P6).
  unfold SeacrhByDate.fallback_date_parser. cbv zeta.
  change (str "hoy") with HOY.
  rewrite (lower_phrase HOY Hok P6), (strip_phrase HOY Hok P6).
  reflexivity.
Qed.

Lemma search_on_ayer (today : date) :
  phrase_tables_ok R ->
  SearchByDate.fallback_date_parser today (str "ayer")
  = let* yesterday := sub_days today 1 in Ok (single (isoformat yesterday)).
Proof.
  intros Hok. destruct phrases_are_phrases as (_ & _ & _ & _ & P5 & _).
  unfold SearchByDate.fallback_date_parser. cbv zeta.
  change (str "ayer") with AYER. rewrite (lower_phrase AYER Hok P5).
  reflexivity.
Qed.

Lemma search_on_hoy (today : date) :
  phrase_tables_ok R ->
  SearchByDate.fallback_date_parser today (str "hoy")
  = Ok (single (isoformat today)).
Proof.
  intros Hok. destruct phrases_are_phrases as (_ & _ & _ & _ & _ & P6).
  unfold SearchByDate.fallback_date_parser. cbv zeta.
  change (str "hoy") with HOY. rewrite (lower_phrase HOY Hok P6).
  reflexivity.
Qed.

End DateTest.

(** X15.  [test_date_calculations] of [test_fallback.py] passes for the
    parser of [seacrh_by_date], which reads the local date as the test
    does; for the parser of [search_by_date], which reads the UTC date, it
    passes exactly when the UTC date is the local date.  With both clocks
    on a date from 2 January of year 1 on. *)
Theorem test_date_calculations_passes (R : PyRuntime) (W : World) :
  phrase_tables_ok R ->
  is_date now_local = true -> 2 <= toordinal now_local ->
  is_date now_utc = true -> 2 <= toordinal now_utc ->
  test_date_calculations (SeacrhByDate.fallback_date_parser now_local)
    now_local = Ok true
  /\ (test_date_calculations (SearchByDate.fallback_date_parser now_utc)
        now_local = Ok true
      <-> now_utc = now_local).
Proof.
  intros Hok Hl Hol Hu Hou. unfold test_date_calculations.
  rewrite seacrh_on_ayer, seacrh_on_hoy, search_on_ayer, search_on_hoy
    by exact Hok.
  rewrite (sub_days_spec now_local 1 Hl), (sub_days_spec now_utc 1 Hu) by lia.
  cbn [bind]. cbv zeta. rewrite !date_is_single.
  rewrite (bool_decide_eq_true_2 _ (eq_refl (isoformat (fromordinal (toordinal now_local - 1))))).
  cbn [negb]. rewrite (bool_decide_eq_true_2 _ (eq_refl (isoformat now_local))).
  split; [reflexivity|].
  pose proof (toordinal_range now_local Hl) as Rl.
  pose proof (toordinal_range now_utc Hu) as Ru.
  destruct (fromordinal_spec (toordinal now_local - 1)) as [Vl Ol]; [lia|].
  destruct (fromordinal_spec (toordinal now_utc - 1)) as [Vu Ou]; [lia|].
  split.
  - destruct (bool_decide (isoformat (fromordinal (toordinal now_utc - 1))
                           = isoformat (fromordinal (toordinal now_local - 1))))
      eqn:E; cbn [negb]; [|discriminate].
    intros _. apply bool_decide_eq_true_1 in E.
    apply isoformat_inj in E; [|assumption..].
    apply toordinal_inj; [assumption..|]. rewrite <- E in Ol. lia.
  - intros ->.
    rewrite (bool_decide_eq_true_2 _ (eq_refl (isoformat (fromordinal (toordinal now_local - 1))))).
    cbn [negb]. rewrite (bool_decide_eq_true_2 _ (eq_refl (isoformat now_local))).
    reflexivity.
Qed.

Lemma test_date_calculations_passes_witness :
  let W := Concrete.offline (mkdate 2024 3 1) in
  test_date_calculations
    (SeacrhByDate.fallback_date_parser (R := Concrete.runtime) (mkdate 2024 3 1))
    (mkdate 2024 3 1) = Ok true
  /\ test_date_calculations
       (SearchByDate.fallback_date_parser (R := Concrete.runtime) (mkdate 2024 3 1))
       (mkdate 2024 3 1) = Ok true.
Proof.
  intros W.
  destruct (test_date_calculations_passes Concrete.runtime W
              concrete_phrase_tables_ok) as [H1 H2];
    [reflexivity | vm_compute; discriminate
    | reflexivity | vm_compute; discriminate |].
  split; [exact H1 | apply H2; reflexivity].
Defined.
